(** * SocialPulse: the Flask service of [app.py]

    A shallow embedding of [app.py] and the properties of its three
    parts: the extraction of a JSON payload from the text returned by
    the remote model ([analyze_topic_with_gemini]), the reshaping of
    that payload ([format_response]) and the two JSON routes
    ([analyze_topic], [health_check]).

    Conventions.
    - A Python [str] is a [string] holding its UTF-8 encoding.
    - A value produced by [json.loads] (and a value handed to
      [jsonify]) is a [json]; a [dict] is an association list whose
      keys are pairwise distinct, read by its first match.
    - A Python [float] is kept as the literal it was read from; the
      interpreter's rendering of it is the section variable
      [float_str].
    - Code that can raise returns an [outcome]; code that reads the
      clock, calls the remote model or prints runs in the monad [M]. *)

From Stdlib Require Import String Ascii List ZArith Lia Bool Arith.
From Stdlib Require Import DecimalString DecimalZ FinFun FunInd.
Import ListNotations.
Open Scope list_scope.
Open Scope string_scope.
Set Warnings "-register-all".

(* ================================================================== *)
(** * Python strings *)

Module Str.

(** [s[n:]] *)
Fixpoint drop (n : nat) (s : string) : string :=
  match n, s with
  | O, _ => s
  | S _, EmptyString => EmptyString
  | S n', String _ s' => drop n' s'
  end.

(** [s.startswith(p)] *)
Fixpoint startswith (p s : string) : bool :=
  match p, s with
  | EmptyString, _ => true
  | String _ _, EmptyString => false
  | String a p', String b s' => Ascii.eqb a b && startswith p' s'
  end.

(** [s.partition(sep)]: the text before and the text after the leftmost
    occurrence of [sep], [None] when [sep] does not occur. *)
Fixpoint partition (sep s : string) : option (string * string) :=
  if startswith sep s then Some (EmptyString, drop (String.length sep) s)
  else match s with
       | EmptyString => None
       | String c s' =>
           match partition sep s' with
           | Some (a, b) => Some (String c a, b)
           | None => None
           end
       end.

(** [sep in s] *)
Definition contains (sep s : string) : bool :=
  match partition sep s with Some _ => true | None => false end.

(** [s.split(sep)] for a non-empty [sep]: cut at the leftmost occurrence,
    then split what follows.  Every cut removes at least one character, so
    [length s] rounds are enough. *)
Fixpoint split_fuel (fuel : nat) (sep s : string) : list string :=
  match fuel with
  | O => [s]
  | S fuel' =>
      match partition sep s with
      | None => [s]
      | Some (a, b) => a :: split_fuel fuel' sep b
      end
  end.

Definition split (sep s : string) : list string :=
  split_fuel (String.length s) sep s.

(** ** Whitespace

    [str.strip()] removes the characters for which [str.isspace()] holds:
    U+0009..U+000D, U+001C..U+0020, U+0085, U+00A0, U+1680,
    U+2000..U+200A, U+2028, U+2029, U+202F, U+205F and U+3000.  In UTF-8
    these take one, two or three bytes. *)

Definition byte_in (lo hi : nat) (c : ascii) : bool :=
  (lo <=? nat_of_ascii c)%nat && (nat_of_ascii c <=? hi)%nat.

Definition byte_is (n : nat) (c : ascii) : bool := (nat_of_ascii c =? n)%nat.

Definition space1 (c : ascii) : bool :=
  byte_in 9 13 c || byte_in 28 32 c.

(** U+0085 is C2 85 and U+00A0 is C2 A0. *)
Definition space2 (c1 c2 : ascii) : bool :=
  (byte_is 133 c2 || byte_is 160 c2) && byte_is 194 c1.

(** U+1680 is E1 9A 80; U+2000..U+200A are E2 80 80..8A; U+2028, U+2029
    and U+202F are E2 80 A8, A9 and AF; U+205F is E2 81 9F; U+3000 is
    E3 80 80. *)
Definition space3 (c1 c2 c3 : ascii) : bool :=
  (byte_is 128 c3 && byte_is 154 c2 && byte_is 225 c1)
  || ((byte_in 128 138 c3 || byte_is 168 c3 || byte_is 169 c3 || byte_is 175 c3)
      && byte_is 128 c2 && byte_is 226 c1)
  || (byte_is 159 c3 && byte_is 129 c2 && byte_is 226 c1)
  || (byte_is 128 c3 && byte_is 128 c2 && byte_is 227 c1).

(** [s.lstrip()] *)
Fixpoint lstrip (s : string) : string :=
  match s with
  | EmptyString => EmptyString
  | String c1 s1 =>
      if space1 c1 then lstrip s1
      else match s1 with
           | EmptyString => s
           | String c2 s2 =>
               if space2 c1 c2 then lstrip s2
               else match s2 with
                    | EmptyString => s
                    | String c3 s3 => if space3 c1 c2 c3 then lstrip s3 else s
                    end
           end
  end.

Fixpoint rev_append (s acc : string) : string :=
  match s with
  | EmptyString => acc
  | String c s' => rev_append s' (String c acc)
  end.

Definition rev (s : string) : string := rev_append s EmptyString.

(** The same scan from the right end: [s] is the text reversed, so the
    bytes of a character arrive last byte first. *)
Fixpoint lstrip_rev (s : string) : string :=
  match s with
  | EmptyString => EmptyString
  | String c1 s1 =>
      if space1 c1 then lstrip_rev s1
      else match s1 with
           | EmptyString => s
           | String c2 s2 =>
               if space2 c2 c1 then lstrip_rev s2
               else match s2 with
                    | EmptyString => s
                    | String c3 s3 => if space3 c3 c2 c1 then lstrip_rev s3 else s
                    end
           end
  end.

(** [s.rstrip()] *)
Definition rstrip (s : string) : string := rev (lstrip_rev (rev s)).

(** [s.strip()]: the left end first, then the right end of what is left. *)
Definition strip (s : string) : string := rstrip (lstrip s).

(** [str(n)] for an [int]. *)
Definition of_int (z : Z) : string := NilZero.string_of_int (Z.to_int z).

(** The characters of a [str], one string per code point: a byte
    [10xxxxxx] continues the character before it. *)
Definition continuation (c : ascii) : bool := byte_in 128 191 c.

Fixpoint chars_aux (cur : string) (s : string) : list string :=
  match s with
  | EmptyString => [rev cur]
  | String c s' =>
      if continuation c then chars_aux (String c cur) s'
      else rev cur :: chars_aux (String c EmptyString) s'
  end.

Definition chars (s : string) : list string :=
  match s with
  | EmptyString => []
  | String c s' => chars_aux (String c EmptyString) s'
  end.

End Str.

(* ================================================================== *)
(** * Python values *)

(** What [json.loads] returns and what [jsonify] accepts. *)
Inductive json : Type :=
| JNull
| JBool (b : bool)
| JInt (z : Z)
| JFloat (literal : string)
| JStr (s : string)
| JArr (items : list json)
| JObj (fields : list (string * json)).

(** Exceptions.  [Foreign] is a class that derives from [Exception] and
    is none of those named here, with its name and whether it derives from
    [json.JSONDecodeError] (as [requests.exceptions.JSONDecodeError]
    does): an exception of another library, a [RecursionError], a
    [ValueError].  [Exiting] is a class that derives from [BaseException]
    and not from [Exception], as [KeyboardInterrupt] and [SystemExit]
    do. *)
Inductive exn_class : Type :=
| JSONDecodeError
| KeyError
| TypeError
| AttributeError
| IndexError
| Foreign (name : string) (derives_decode_error : bool)
| Exiting (name : string).

(** An exception: its class and [str(e)]. *)
Record exn : Type := Exn { exn_cls : exn_class; exn_str : string }.

(** [isinstance(e, json.JSONDecodeError)] *)
Definition is_decode_error (e : exn) : bool :=
  match exn_cls e with
  | JSONDecodeError => true
  | Foreign _ b => b
  | _ => false
  end.

(** [isinstance(e, Exception)] *)
Definition is_exception (e : exn) : bool :=
  match exn_cls e with
  | Exiting _ => false
  | _ => true
  end.

Inductive outcome (A : Type) : Type :=
| Return (a : A)
| Raise (e : exn).
Arguments Return {A} a.
Arguments Raise {A} e.

Definition dq : string := String (ascii_of_nat 34) EmptyString.
Definition sq : string := String (ascii_of_nat 39) EmptyString.
Definition nl : string := String (ascii_of_nat 10) EmptyString.

(** [sep.join(l)] *)
Fixpoint join (sep : string) (l : list string) : string :=
  match l with
  | [] => EmptyString
  | [x] => x
  | x :: rest => x ++ sep ++ join sep rest
  end.

Module Dict.

(** [d.get(k)]: [None] when the key is absent. *)
Fixpoint get (k : string) (d : list (string * json)) : option json :=
  match d with
  | [] => None
  | (k', v) :: d' => if String.eqb k k' then Some v else get k d'
  end.

(** [d[k] = v]: a key already present keeps its place. *)
Fixpoint set (k : string) (v : json) (d : list (string * json))
  : list (string * json) :=
  match d with
  | [] => [(k, v)]
  | (k', v') :: d' =>
      if String.eqb k k' then (k', v) :: d' else (k', v') :: set k v d'
  end.

End Dict.

(** [type(v).__name__] *)
Definition type_name (v : json) : string :=
  match v with
  | JNull => "NoneType"
  | JBool _ => "bool"
  | JInt _ => "int"
  | JFloat _ => "float"
  | JStr _ => "str"
  | JArr _ => "list"
  | JObj _ => "dict"
  end.

(** [str(KeyError(k))] is [repr(k)]; every key this program looks up is a
    literal without quotes or escapes, whose [repr] is the key between
    single quotes. *)
Definition key_error (k : string) : exn := Exn KeyError (sq ++ k ++ sq).

(** [v[k]] for a string key [k]. *)
Definition getitem (v : json) (k : string) : outcome json :=
  match v with
  | JObj d =>
      match Dict.get k d with
      | Some x => Return x
      | None => Raise (key_error k)
      end
  | JArr _ =>
      Raise (Exn TypeError "list indices must be integers or slices, not str")
  | JStr _ =>
      Raise (Exn TypeError ("string indices must be integers, not " ++ sq ++ "str" ++ sq))
  | _ =>
      Raise (Exn TypeError (sq ++ type_name v ++ sq ++ " object is not subscriptable"))
  end.

(** [v.get(k, default)]: only a [dict] has the method. *)
Definition get_method (v : json) (k : string) (default : json) : outcome json :=
  match v with
  | JObj d =>
      match Dict.get k d with
      | Some x => Return x
      | None => Return default
      end
  | _ =>
      Raise (Exn AttributeError
               (sq ++ type_name v ++ sq ++ " object has no attribute " ++ sq ++ "get" ++ sq))
  end.

(** What [enumerate(v)] walks over: the items of a list, the characters of
    a string, the keys of a dict. *)
Definition iterate (v : json) : outcome (list json) :=
  match v with
  | JArr l => Return l
  | JStr s => Return (map JStr (Str.chars s))
  | JObj d => Return (map (fun p => JStr (fst p)) d)
  | _ => Raise (Exn TypeError (sq ++ type_name v ++ sq ++ " object is not iterable"))
  end.

(** [l[n]] on a list of strings. *)
Definition list_index (l : list string) (n : nat) : outcome string :=
  match nth_error l n with
  | Some x => Return x
  | None => Raise (Exn IndexError "list index out of range")
  end.

(** [not os.environ.get(name)] on the value found, if any. *)
Definition env_missing (v : option string) : bool :=
  match v with
  | None => true
  | Some EmptyString => true
  | Some _ => false
  end.

(* ================================================================== *)
(** * The clock *)

Record datetime : Type := Datetime {
  year : nat; month : nat; day : nat;
  hour : nat; minute : nat; second : nat; microsecond : nat
}.

(** [n] in decimal, padded with zeros on the left to [width] digits. *)
Fixpoint zeros (n : nat) : string :=
  match n with O => EmptyString | S n' => String "0" (zeros n') end.

Definition pad (width n : nat) : string :=
  let d := Str.of_int (Z.of_nat n) in
  zeros (width - String.length d) ++ d.

(** [t.strftime('%Y-%m-%d')] *)
Definition strftime_ymd (t : datetime) : string :=
  pad 4 (year t) ++ "-" ++ pad 2 (month t) ++ "-" ++ pad 2 (day t).

(** [t.isoformat()]: the microseconds are left out when zero. *)
Definition isoformat (t : datetime) : string :=
  strftime_ymd t ++ "T" ++ pad 2 (hour t) ++ ":" ++ pad 2 (minute t)
  ++ ":" ++ pad 2 (second t)
  ++ match microsecond t with
     | O => EmptyString
     | us => "." ++ pad 6 us
     end.

(* ================================================================== *)
(** * Effects *)

(** What a request finds around it: the process environment, the remote
    model (what [model.generate_content(prompt)] followed by
    [response.text] gives for a prompt) and the clock (the reading of the
    [k]-th call of [datetime.now()]). *)
Record env : Type := Env {
  GEMINI_API_KEY : option string;
  generate_content : string -> outcome string;
  now : nat -> datetime
}.

(** What a request leaves behind: how often the clock was read, the
    prompts sent to the remote model, the lines printed. *)
Record world : Type := World {
  clock_reads : nat;
  remote_calls : list string;
  printed : list string
}.

Definition M (A : Type) : Type := env -> world -> outcome A * world.

Definition ret {A} (a : A) : M A := fun _ w => (Return a, w).

Definition raise {A} (e : exn) : M A := fun _ w => (Raise e, w).

Definition bind {A B} (m : M A) (f : A -> M B) : M B :=
  fun E w =>
    match m E w with
    | (Return a, w') => f a E w'
    | (Raise e, w') => (Raise e, w')
    end.

Definition lift {A} (o : outcome A) : M A := fun _ w => (o, w).

(** [try: m  except Exception as e: h e]: an exception that does not
    derive from [Exception] is not caught. *)
Definition try_except {A} (m : M A) (h : exn -> M A) : M A :=
  fun E w =>
    match m E w with
    | (Return a, w') => (Return a, w')
    | (Raise e, w') => if is_exception e then h e E w' else (Raise e, w')
    end.

Declare Scope py_scope.
Delimit Scope py_scope with py.
Notation "x <- m ;; k" := (bind m (fun x => k))
  (at level 100, m at next level, right associativity) : py_scope.
Notation "m ;;; k" := (bind m (fun _ => k))
  (at level 100, right associativity) : py_scope.

(** [datetime.now()] *)
Definition datetime_now : M datetime :=
  fun E w =>
    (Return (now E (clock_reads w)),
     World (S (clock_reads w)) (remote_calls w) (printed w)).

(** [model.generate_content(prompt)] and [response.text] *)
Definition remote (prompt : string) : M string :=
  fun E w =>
    (generate_content E prompt,
     World (clock_reads w) (remote_calls w ++ [prompt])%list (printed w)).

(** [print(line)] *)
Definition print (line : string) : M unit :=
  fun _ w =>
    (Return tt, World (clock_reads w) (remote_calls w) (printed w ++ [line])%list).

(** [os.environ.get('GEMINI_API_KEY')] *)
Definition environ_get_key : M (option string) :=
  fun E w => (Return (GEMINI_API_KEY E), w).

(** The world after [k] more readings of the clock. *)
Definition ticked (k : nat) (w : world) : world :=
  World (clock_reads w + k) (remote_calls w) (printed w).

(* ================================================================== *)
(** * The application *)

Section App.

(** The interpreter and its library, as far as the program uses them:
    [json.loads], [str(x)] of the float read from a literal, and
    [repr(s)] of a string. *)
Variable json_loads : string -> outcome json.
Variable float_str : string -> string.
Variable str_repr : string -> string.

Open Scope py_scope.

(** [repr(v)] *)
Fixpoint py_repr (v : json) : string :=
  match v with
  | JNull => "None"
  | JBool true => "True"
  | JBool false => "False"
  | JInt z => Str.of_int z
  | JFloat l => float_str l
  | JStr s => str_repr s
  | JArr l => "[" ++ join ", " (map py_repr l) ++ "]"
  | JObj d =>
      "{" ++ join ", "
               (map (fun p => match p with
                              | (k, x) => str_repr k ++ ": " ++ py_repr x
                              end) d)
          ++ "}"
  end.

(** [str(v)], which is what an f-string field [{v}] inserts. *)
Definition py_str (v : json) : string :=
  match v with
  | JStr s => s
  | _ => py_repr v
  end.

(** [bool(v)] *)
Definition truthy (v : json) : bool :=
  match v with
  | JNull => false
  | JBool b => b
  | JInt z => negb (z =? 0)%Z
  | JFloat l => negb (String.eqb (float_str l) "0.0" || String.eqb (float_str l) "-0.0")
  | JStr s => negb (String.eqb s "")
  | JArr l => match l with [] => false | _ => true end
  | JObj d => match d with [] => false | _ => true end
  end.

(** ** [analyze_topic_with_gemini] *)

Definition q (s : string) : string := dq ++ s ++ dq.

(** The f-string of lines 20 to 50. *)
Definition prompt (topic : json) : string :=
  join nl
    [ "You are a social sentiment analyst. Analyze public opinion about: "
        ++ q (py_str topic);
      "";
      "Based on your knowledge of public discourse, social media trends, news coverage, and general sentiment:";
      "";
      "1. Provide a percentage breakdown of sentiment:";
      "   - What % of people have POSITIVE views";
      "   - What % of people have NEGATIVE views  ";
      "   - What % are NEUTRAL/UNDECIDED";
      "";
      "2. Generate 5 realistic examples of POSITIVE perspectives people would express";
      "3. Generate 5 realistic examples of NEGATIVE perspectives people would express";
      "";
      "Format your response as JSON:";
      "{";
      "  " ++ q "sentiment_distribution" ++ ": {";
      "    " ++ q "positive" ++ ": <number between 0-100>,";
      "    " ++ q "negative" ++ ": <number between 0-100>,";
      "    " ++ q "neutral" ++ ": <number between 0-100>";
      "  },";
      "  " ++ q "positive_examples" ++ ": [";
      "    {" ++ q "text" ++ ": " ++ q "example quote" ++ ", " ++ q "reasoning"
        ++ ": " ++ q "why people think this" ++ "},";
      "    ...5 total";
      "  ],";
      "  " ++ q "negative_examples" ++ ": [";
      "    {" ++ q "text" ++ ": " ++ q "example quote" ++ ", " ++ q "reasoning"
        ++ ": " ++ q "why people think this" ++ "},";
      "    ...5 total";
      "  ],";
      "  " ++ q "analysis_summary" ++ ": "
        ++ q "brief 2-3 sentence summary of the overall sentiment landscape";
      "}";
      "";
      "Make the percentages add up to 100. Make examples sound like real people talking (casual, authentic). Base this on actual public sentiment trends you" ++ sq ++ "re aware of." ]%string.

(** Lines 58 to 61: the text to parse, taken out of a fenced block when
    there is one. *)
Definition extract_json (response_text : string) : outcome string :=
  if Str.contains "```json" response_text then
    match list_index (Str.split "```json" response_text) 1 with
    | Return after =>
        match list_index (Str.split "```" after) 0 with
        | Return inner => Return (Str.strip inner)
        | Raise e => Raise e
        end
    | Raise e => Raise e
    end
  else if Str.contains "```" response_text then
    match list_index (Str.split "```" response_text) 1 with
    | Return after =>
        match list_index (Str.split "```" after) 0 with
        | Return inner => Return (Str.strip inner)
        | Raise e => Raise e
        end
    | Raise e => Raise e
    end
  else Return response_text.

Definition analyze_topic_with_gemini (topic : json) : M json :=
  try_except
    (text <- remote (prompt topic) ;;
     let response_text := Str.strip text in
     response_text <- lift (extract_json response_text) ;;
     lift (json_loads response_text))
    (fun e =>
       print ("Gemini API Error: " ++ exn_str e) ;;;
       raise e).

(** ** [format_response] *)

(** The entry appended for the example at index [i]: [label] is the
    sentiment written into it, [base] the score of the first entry and
    [first] the number of the first author. *)
Definition example_entry (label : string) (base first : Z) (i : nat)
    (text : json) (t : datetime) (reasoning : json) : json :=
  JObj [ ("text", text);
         ("sentiment", JStr label);
         ("score", JInt (base - Z.of_nat i * 15));
         ("type", JStr "opinion");
         ("author", JStr ("user_" ++ Str.of_int (Z.of_nat i + first)));
         ("created", JStr (strftime_ymd t));
         ("reasoning", reasoning) ].

(** One of the two loops of lines 74 to 96, from index [i] on. *)
Fixpoint examples_loop (label : string) (base first : Z) (i : nat)
    (items : list json) : M (list json) :=
  match items with
  | [] => ret []
  | ex :: rest =>
      text <- lift (getitem ex "text") ;;
      t <- datetime_now ;;
      reasoning <- lift (get_method ex "reasoning" (JStr "")) ;;
      let entry := example_entry label base first i text t reasoning in
      entries <- examples_loop label base first (S i) rest ;;
      ret (entry :: entries)
  end.

(** The dict of lines 100 to 123, from the values looked up for it, in
    the order in which the code looks them up. *)
Definition result_dict (topic d_pos d_neg d_neu p_pct p_cnt : json)
    (positive_examples : list json) (n_pct n_cnt : json)
    (negative_examples : list json) (u_cnt summary : json) (t : datetime) : json :=
  JObj
    [ ("topic", topic);
      ("total_analyzed", JStr "AI Analysis");
      ("posts_analyzed", JStr "Multiple Sources");
      ("sentiment_distribution",
        JObj [ ("positive", d_pos); ("negative", d_neg); ("neutral", d_neu) ]);
      ("positive_perspective",
        JObj [ ("percentage", p_pct);
               ("count", JStr (py_str p_cnt ++ "%"));
               ("examples", JArr positive_examples) ]);
      ("negative_perspective",
        JObj [ ("percentage", n_pct);
               ("count", JStr (py_str n_cnt ++ "%"));
               ("examples", JArr negative_examples) ]);
      ("neutral_count", JStr (py_str u_cnt ++ "%"));
      ("analysis_summary", summary);
      ("timestamp", JStr (isoformat t));
      ("powered_by", JStr "Gemini 2.0 Flash") ].

Definition format_response (topic gemini_data : json) : M json :=
  pos <- lift (getitem gemini_data "positive_examples") ;;
  pos_items <- lift (iterate pos) ;;
  positive_examples <- examples_loop "positive" 100 1 0 pos_items ;;
  neg <- lift (getitem gemini_data "negative_examples") ;;
  neg_items <- lift (iterate neg) ;;
  negative_examples <- examples_loop "negative" 95 6 0 neg_items ;;
  sentiment_dist <- lift (getitem gemini_data "sentiment_distribution") ;;
  d_pos <- lift (getitem sentiment_dist "positive") ;;
  d_neg <- lift (getitem sentiment_dist "negative") ;;
  d_neu <- lift (getitem sentiment_dist "neutral") ;;
  p_pct <- lift (getitem sentiment_dist "positive") ;;
  p_cnt <- lift (getitem sentiment_dist "positive") ;;
  n_pct <- lift (getitem sentiment_dist "negative") ;;
  n_cnt <- lift (getitem sentiment_dist "negative") ;;
  u_cnt <- lift (getitem sentiment_dist "neutral") ;;
  summary <- lift (get_method gemini_data "analysis_summary" (JStr "")) ;;
  t <- datetime_now ;;
  ret (result_dict topic d_pos d_neg d_neu p_pct p_cnt positive_examples
         n_pct n_cnt negative_examples u_cnt summary t).

(** ** The routes *)

(** A request, as far as the handlers read it: what [request.get_json()]
    does, which is to return the decoded body ([JNull] stands for [None])
    or to raise one of the framework's HTTP errors, none of which derives
    from [json.JSONDecodeError]. *)
Inductive request : Type :=
| Body (data : json)
| NoBody (framework_error : string) (message : string).

Definition get_json (r : request) : outcome json :=
  match r with
  | Body data => Return data
  | NoBody name message => Raise (Exn (Foreign name false) message)
  end.

Record response : Type := Response { status : nat; body : json }.

Definition error_body (message : string) : json :=
  JObj [ ("error", JStr message) ].

(** What the two [except] clauses of [analyze_topic] answer to [e]. *)
Definition error_response (e : exn) : response :=
  Response 500
    (error_body
       ((if is_decode_error e then "Failed to parse AI response: "
         else "Analysis failed: ") ++ exn_str e)).

(** The world after the remote model was called with [p]. *)
Definition called (p : string) (w : world) : world :=
  World (clock_reads w) (remote_calls w ++ [p])%list (printed w).

(** The world after [line] was printed. *)
Definition logged (line : string) (w : world) : world :=
  World (clock_reads w) (remote_calls w) (printed w ++ [line])%list.

(** What [analyze_topic] makes of an exception [e] of the client, in the
    world [w]: it answers one that derives from [Exception] and lets any
    other through. *)
Definition handled (e : exn) (w : world) : outcome response * world :=
  if is_exception e then (Return (error_response e), w) else (Raise e, w).

(** The world in which [analyze_topic_with_gemini] raises [e] again: the
    line is printed for an exception that derives from [Exception]. *)
Definition reraised (e : exn) (w : world) : world :=
  if is_exception e then logged ("Gemini API Error: " ++ exn_str e) w else w.

(** The body is a JSON object, on which [data.get] works. *)
Definition object_body (r : request) : bool :=
  match r with
  | Body (JObj _) => true
  | _ => false
  end.

(** [POST /api/analyze] *)
Definition analyze_topic (r : request) : M response :=
  try_except
    (data <- lift (get_json r) ;;
     topic <- lift (get_method data "topic" (JStr "")) ;;
     if negb (truthy topic) then
       ret (Response 400 (error_body "Topic is required"))
     else
       key <- environ_get_key ;;
       if env_missing key then
         ret (Response 500 (error_body "GEMINI_API_KEY not configured"))
       else
         gemini_data <- analyze_topic_with_gemini topic ;;
         result <- format_response topic gemini_data ;;
         ret (Response 200 result))
    (fun e =>
       if is_decode_error e then
         ret (Response 500 (error_body ("Failed to parse AI response: " ++ exn_str e)))
       else
         ret (Response 500 (error_body ("Analysis failed: " ++ exn_str e)))).

(** [GET /health] *)
Definition health_check : M response :=
  key <- environ_get_key ;;
  let has_api_key := negb (env_missing key) in
  ret (Response 200
         (JObj [ ("status", JStr "healthy");
                 ("gemini_configured", JBool has_api_key) ])).

End App.

(* ================================================================== *)
(** * [json.loads]

    The decoder of the standard library ([json/decoder.py],
    [json/scanner.py] and their C twin), on which the round trip through a
    fenced block depends.  Positions are kept as the text that remains at
    that position.  Not modelled: the interpreter's limits on the nesting
    depth and on the number of digits of an [int], at which [json.loads]
    raises a [RecursionError] or a [ValueError].  So [loads] stands for
    [json.loads] on the documents that it accepts and on those that it
    refuses before a limit is met; what the program does with any other
    exception of [json.loads] is stated where [json.loads] is a
    parameter. *)

Module Decoder.

Inductive scan (A : Type) : Type :=
| Found (a : A) (rest : string)
| Stop (at_ : string)
| Bad (msg : string) (at_ : string)
| TooDeep.
Arguments Found {A} a rest.
Arguments Stop {A} at_.
Arguments Bad {A} msg at_.
Arguments TooDeep {A}.

Definition scan_map {A B} (f : A -> B) (r : scan A) : scan B :=
  match r with
  | Found a rest => Found (f a) rest
  | Stop p => Stop p
  | Bad m p => Bad m p
  | TooDeep => TooDeep
  end.

(** [WHITESPACE]: space, tab, line feed, carriage return. *)
Definition ws (c : ascii) : bool := Str.byte_is 32 c || Str.byte_is 9 c || Str.byte_is 10 c || Str.byte_is 13 c.

Fixpoint skip_ws (s : string) : string :=
  match s with
  | String c s' => if ws c then skip_ws s' else s
  | EmptyString => s
  end.

Definition digit (c : ascii) : bool :=
  (48 <=? nat_of_ascii c)%nat && (nat_of_ascii c <=? 57)%nat.

Definition hex (c : ascii) : option N :=
  let n := N_of_ascii c in
  if ((48 <=? n) && (n <=? 57))%N then Some (n - 48)%N
  else if ((97 <=? n) && (n <=? 102))%N then Some (n - 87)%N
  else if ((65 <=? n) && (n <=? 70))%N then Some (n - 55)%N
  else None.

Definition hex4 (a b c d : ascii) : option N :=
  match hex a, hex b, hex c, hex d with
  | Some x, Some y, Some z, Some w => Some (((x * 16 + y) * 16 + z) * 16 + w)%N
  | _, _, _, _ => None
  end.

(** [chr(n)], in UTF-8; a lone surrogate is written like any other
    character of its range. *)
Definition chr (n : N) : string :=
  let b (x : N) := ascii_of_N x in
  (if n <? 128 then String (b n) EmptyString
   else if n <? 2048 then
     String (b (192 + n / 64)) (String (b (128 + n mod 64)) EmptyString)
   else if n <? 65536 then
     String (b (224 + n / 4096))
       (String (b (128 + (n / 64) mod 64)) (String (b (128 + n mod 64)) EmptyString))
   else
     String (b (240 + n / 262144))
       (String (b (128 + (n / 4096) mod 64))
          (String (b (128 + (n / 64) mod 64))
             (String (b (128 + n mod 64)) EmptyString))))%N.

Definition high_surrogate (n : N) : bool := ((55296 <=? n) && (n <=? 56319))%N.
Definition low_surrogate (n : N) : bool := ((56320 <=? n) && (n <=? 57343))%N.
Definition join_surrogates (hi lo : N) : N :=
  (65536 + ((hi - 55296) * 1024 + (lo - 56320)))%N.

(** The character a one-letter escape stands for. *)
Definition escape (c : ascii) : option ascii :=
  if Str.byte_is 34 c then Some c
  else if Str.byte_is 92 c then Some c
  else if Str.byte_is 47 c then Some c
  else if Str.byte_is 98 c then Some (ascii_of_nat 8)
  else if Str.byte_is 102 c then Some (ascii_of_nat 12)
  else if Str.byte_is 110 c then Some (ascii_of_nat 10)
  else if Str.byte_is 114 c then Some (ascii_of_nat 13)
  else if Str.byte_is 116 c then Some (ascii_of_nat 9)
  else None.

Definition prepend (p : string) (r : scan string) : scan string :=
  scan_map (fun a => p ++ a) r.

(** [scanstring], strict: [s] follows the opening quote, [begin] is the
    text from that quote on.  An escape [\uXXXX] is read only when a
    character follows its four digits, and a second one is tried as the
    low half of a surrogate pair only when a character follows it, too. *)
Fixpoint scanstring (begin s : string) : scan string :=
  match s with
  | EmptyString => Bad "Unterminated string starting at" begin
  | String c s1 =>
      if Str.byte_is 34 c then Found EmptyString s1
      else if Str.byte_is 92 c then
        match s1 with
        | EmptyString => Bad "Unterminated string starting at" begin
        | String e s2 =>
            if Str.byte_is 117 e then
              match s2 with
              | String h1 (String h2 (String h3 (String h4 ((String _ _) as s6)))) =>
                  match hex4 h1 h2 h3 h4 with
                  | None => Bad "Invalid \uXXXX escape" s1
                  | Some uni =>
                      match s6 with
                      | String b ((String u (String g1 (String g2 (String g3 (String g4
                            ((String _ _) as s12)))))) as s7) =>
                          if high_surrogate uni && Str.byte_is 92 b && Str.byte_is 117 u then
                            match hex4 g1 g2 g3 g4 with
                            | None => Bad "Invalid \uXXXX escape" s7
                            | Some uni2 =>
                                if low_surrogate uni2
                                then prepend (chr (join_surrogates uni uni2))
                                             (scanstring begin s12)
                                else prepend (chr uni) (scanstring begin s6)
                            end
                          else prepend (chr uni) (scanstring begin s6)
                      | _ => prepend (chr uni) (scanstring begin s6)
                      end
                  end
              | _ => Bad "Invalid \uXXXX escape" s1
              end
            else
              match escape e with
              | Some x => prepend (String x EmptyString) (scanstring begin s2)
              | None => Bad "Invalid \escape" s
              end
        end
      else if (nat_of_ascii c <=? 31)%nat then Bad "Invalid control character at" s
      else prepend (String c EmptyString) (scanstring begin s1)
  end.

(** The longest run of digits at the head of [s], and what follows. *)
Fixpoint digits (s : string) : string * string :=
  match s with
  | String c s' =>
      if digit c then let (d, r) := digits s' in (String c d, r) else (EmptyString, s)
  | EmptyString => (EmptyString, s)
  end.

(** [int(d)] for a run of digits, most significant first. *)
Fixpoint int_of_digits (acc : Z) (d : string) : Z :=
  match d with
  | String c d' => int_of_digits (acc * 10 + Z.of_nat (nat_of_ascii c - 48)) d'
  | EmptyString => acc
  end.

(** The fraction of [NUMBER_RE]: a dot and at least one digit. *)
Definition fraction (s : string) : string * string :=
  match s with
  | String c s' =>
      if Str.byte_is 46 c then
        match digits s' with
        | (EmptyString, _) => (EmptyString, s)
        | (d, r) => (String c d, r)
        end
      else (EmptyString, s)
  | EmptyString => (EmptyString, s)
  end.

(** The exponent of [NUMBER_RE]: [e] or [E], an optional sign and at least
    one digit. *)
Definition exponent (s : string) : string * string :=
  match s with
  | String e s' =>
      if Str.byte_is 101 e || Str.byte_is 69 e then
        match s' with
        | String g s'' =>
            if Str.byte_is 43 g || Str.byte_is 45 g then
              match digits s'' with
              | (EmptyString, _) => (EmptyString, s)
              | (d, r) => (String e (String g d), r)
              end
            else
              match digits s' with
              | (EmptyString, _) => (EmptyString, s)
              | (d, r) => (String e d, r)
              end
        | EmptyString => (EmptyString, s)
        end
      else (EmptyString, s)
  | EmptyString => (EmptyString, s)
  end.

(** The integer part of [NUMBER_RE], an optional sign and then either a
    single zero or a run of digits that starts with a non-zero one: the
    sign, the digits and what follows. *)
Definition integer (s : string) : option (bool * string * string) :=
  let (neg, s0) :=
    match s with
    | String c s' => if Str.byte_is 45 c then (true, s') else (false, s)
    | EmptyString => (false, s)
    end in
  match s0 with
  | String c s' =>
      if Str.byte_is 48 c then Some (neg, String c EmptyString, s')
      else if digit c then let (d, r) := digits s0 in Some (neg, d, r)
      else None
  | EmptyString => None
  end.

(** [NUMBER_RE] and the conversion of what it matched: an [int] when there
    is neither fraction nor exponent, a [float] otherwise. *)
Definition match_number (s : string) : scan json :=
  match integer s with
  | None => Stop s
  | Some (neg, d, r) =>
      let (f, r1) := fraction r in
      let (e, r2) := exponent r1 in
      match f, e with
      | EmptyString, EmptyString =>
          Found (JInt (if neg then - int_of_digits 0 d else int_of_digits 0 d)) r2
      | _, _ => Found (JFloat ((if neg then "-" else "") ++ d ++ f ++ e)) r2
      end
  end.

(** The constants and the numbers: what [scan_once] tries when the text
    opens neither a string, an object nor an array. *)
Definition scan_atom (s : string) : scan json :=
  if Str.startswith "null" s then Found JNull (Str.drop 4 s)
  else if Str.startswith "true" s then Found (JBool true) (Str.drop 4 s)
  else if Str.startswith "false" s then Found (JBool false) (Str.drop 5 s)
  else if Str.startswith "NaN" s then Found (JFloat "NaN") (Str.drop 3 s)
  else if Str.startswith "Infinity" s then Found (JFloat "Infinity") (Str.drop 8 s)
  else if Str.startswith "-Infinity" s then Found (JFloat "-Infinity") (Str.drop 9 s)
  else match_number s.

(** [scan_once], [JSONArray] and [JSONObject].  [fuel] bounds the calls
    that are still allowed; [array_items] and [object_items] are the loops,
    entered where a value, respectively a key, is due. *)
Fixpoint scan_once (fuel : nat) (s : string) : scan json :=
  match fuel with
  | O => TooDeep
  | S fuel' =>
      match s with
      | EmptyString => Stop s
      | String c s1 =>
          if Str.byte_is 34 c then scan_map JStr (scanstring s s1)
          else if Str.byte_is 123 c then
            match skip_ws s1 with
            | String c' s2 =>
                if Str.byte_is 125 c' then Found (JObj []) s2
                else scan_map JObj (object_items fuel' (skip_ws s1))
            | EmptyString => scan_map JObj (object_items fuel' (skip_ws s1))
            end
          else if Str.byte_is 91 c then
            match skip_ws s1 with
            | String c' s2 =>
                if Str.byte_is 93 c' then Found (JArr []) s2
                else scan_map JArr (array_items fuel' (skip_ws s1))
            | EmptyString => scan_map JArr (array_items fuel' (skip_ws s1))
            end
          else scan_atom s
      end
  end

with array_items (fuel : nat) (s : string) : scan (list json) :=
  match fuel with
  | O => TooDeep
  | S fuel' =>
      match scan_once fuel' s with
      | Found v r =>
          match skip_ws r with
          | String c r' =>
              if Str.byte_is 93 c then Found [v] r'
              else if Str.byte_is 44 c then
                scan_map (cons v) (array_items fuel' (skip_ws r'))
              else Bad "Expecting ',' delimiter" (skip_ws r)
          | EmptyString => Bad "Expecting ',' delimiter" EmptyString
          end
      | Stop p => Stop p
      | Bad m p => Bad m p
      | TooDeep => TooDeep
      end
  end

with object_items (fuel : nat) (s : string) : scan (list (string * json)) :=
  match fuel with
  | O => TooDeep
  | S fuel' =>
      match s with
      | String c s1 =>
          if Str.byte_is 34 c then
            match scanstring s s1 with
            | Found k r =>
                match skip_ws r with
                | String c' r' =>
                    if Str.byte_is 58 c' then
                      match scan_once fuel' (skip_ws r') with
                      | Found v r2 =>
                          match skip_ws r2 with
                          | String c2 r3 =>
                              if Str.byte_is 125 c2 then Found [(k, v)] r3
                              else if Str.byte_is 44 c2 then
                                scan_map (cons (k, v))
                                         (object_items fuel' (skip_ws r3))
                              else Bad "Expecting ',' delimiter" (skip_ws r2)
                          | EmptyString => Bad "Expecting ',' delimiter" EmptyString
                          end
                      | Stop p => Stop p
                      | Bad m p => Bad m p
                      | TooDeep => TooDeep
                      end
                    else Bad "Expecting ':' delimiter" (skip_ws r)
                | EmptyString => Bad "Expecting ':' delimiter" EmptyString
                end
            | Stop p => Stop p
            | Bad m p => Bad m p
            | TooDeep => TooDeep
            end
          else Bad "Expecting property name enclosed in double quotes" s
      | EmptyString => Bad "Expecting property name enclosed in double quotes" s
      end
  end.

(** [dict(pairs)]: a later pair with a key already seen replaces the value
    and keeps the place. *)
Fixpoint dict_of_pairs (acc pairs : list (string * json)) : list (string * json) :=
  match pairs with
  | [] => acc
  | (k, v) :: rest => dict_of_pairs (Dict.set k v acc) rest
  end.

(** The objects of a decoded value turned into dicts. *)
Fixpoint dicts (v : json) : json :=
  match v with
  | JArr l => JArr (map dicts l)
  | JObj d =>
      JObj (dict_of_pairs []
              (map (fun p => match p with (k, x) => (k, dicts x) end) d))
  | _ => v
  end.

(** [str(e)] of a [JSONDecodeError] raised with [msg] at the position where
    [rest] remains of [doc]: the message, then line, column and offset,
    the latter two counted in characters. *)
Definition code_points (s : string) : nat :=
  List.length (filter (fun c => negb (Str.continuation c)) (list_ascii_of_string s)).

Fixpoint take (n : nat) (s : string) : string :=
  match n, s with
  | S n', String c s' => String c (take n' s')
  | _, _ => EmptyString
  end.

(** The text after the last line feed. *)
Definition last_line (s : string) : string :=
  match Str.partition nl (Str.rev s) with
  | Some (a, _) => Str.rev a
  | None => s
  end.

Definition errmsg (msg doc rest : string) : string :=
  let before := take (String.length doc - String.length rest) doc in
  let lineno := List.length (Str.split nl before) in
  let colno := S (code_points (last_line before)) in
  msg ++ ": line " ++ Str.of_int (Z.of_nat lineno)
      ++ " column " ++ Str.of_int (Z.of_nat colno)
      ++ " (char " ++ Str.of_int (Z.of_nat (code_points before)) ++ ")".

Definition decode_error (msg doc rest : string) : exn :=
  Exn JSONDecodeError (errmsg msg doc rest).

(** The byte order mark U+FEFF, in UTF-8. *)
Definition bom : string :=
  String (ascii_of_nat 239) (String (ascii_of_nat 187) (String (ascii_of_nat 191) EmptyString)).

(** The calls [scan_once] may need on a text of [n] bytes. *)
Definition fuel_for (n : nat) : nat := 2 * n + 2.

(** [json.loads(s)] for a [str]. *)
Definition loads (s : string) : outcome json :=
  if Str.startswith bom s then
    Raise (decode_error "Unexpected UTF-8 BOM (decode using utf-8-sig)" s s)
  else
    match scan_once (fuel_for (String.length s)) (skip_ws s) with
    | Found v rest =>
        match skip_ws rest with
        | EmptyString => Return (dicts v)
        | _ => Raise (decode_error "Extra data" s (skip_ws rest))
        end
    | Stop p => Raise (decode_error "Expecting value" s p)
    | Bad m p => Raise (decode_error m s p)
    | TooDeep =>
        Raise (Exn (Foreign "RecursionError" false)
                 "maximum recursion depth exceeded while decoding a JSON document")
    end.

End Decoder.

(* ================================================================== *)
(** * The extraction, as the specification words it *)

Module Fence.

(** The text after the first occurrence of [delim], if there is one. *)
Definition after (delim text : string) : option string :=
  match Str.partition delim text with
  | Some (_, rest) => Some rest
  | None => None
  end.

(** The text up to the next occurrence of [delim], all of it when there is
    none. *)
Definition up_to (delim text : string) : string :=
  match Str.partition delim text with
  | Some (inner, _) => inner
  | None => text
  end.

(** The content between the first [opening] and the [closing] that
    follows it. *)
Definition between (opening closing text : string) : string :=
  match after opening text with
  | Some rest => up_to closing rest
  | None => text
  end.

(** The candidate of the specification: the content of a block opened by
    the tagged delimiter up to the next delimiter; failing that, the
    content between the first pair of delimiters; failing that, the text. *)
Definition candidate (text : string) : string :=
  if Str.contains "```json" text then between "```json" "```" text
  else if Str.contains "```" text then between "```" "```" text
  else text.

(** The candidate the code takes: a block opened by the tagged delimiter
    ends at the next tagged delimiter, and the closing delimiter is looked
    for before that point only. *)
Definition candidate_cut (text : string) : string :=
  if Str.contains "```json" text then
    match after "```json" text with
    | Some rest => up_to "```" (up_to "```json" rest)
    | None => text
    end
  else if Str.contains "```" text then between "```" "```" text
  else text.

(** The last character of a text. *)
Fixpoint last (s : string) : option ascii :=
  match s with
  | EmptyString => None
  | String c EmptyString => Some c
  | String _ s' => last s'
  end.

Definition backquote : ascii := ascii_of_nat 96.

(** A fenced block: [```json], a line feed, the text, a line feed, [```]. *)
Definition wrap (j : string) : string :=
  "```json" ++ nl ++ j ++ nl ++ "```".

End Fence.

(* ================================================================== *)
(** * Vocabulary for the decoder *)

Module Lex.

(** A printable character of ASCII other than the space. *)
Definition plain (c : ascii) : bool :=
  (33 <=? nat_of_ascii c)%nat && (nat_of_ascii c <=? 126)%nat.

(** A character that can continue a number: a digit, the dot, [e], [E]. *)
Definition numchar (c : ascii) : bool :=
  Decoder.digit c || Str.byte_is 46 c || Str.byte_is 101 c || Str.byte_is 69 c.

(** The text is empty or starts with a character that does not satisfy
    [p]. *)
Definition head_not (p : ascii -> bool) (t : string) : bool :=
  match t with
  | EmptyString => true
  | String c _ => negb (p c)
  end.

(** A text before which a number ends: empty, or not starting with a
    character that could continue it. *)
Definition follow (t : string) : bool := head_not numchar t.

(** [e] or [E]. *)
Definition exp_mark (c : ascii) : bool := Str.byte_is 101 c || Str.byte_is 69 c.

(** A text of JSON whitespace only. *)
Fixpoint blank (s : string) : bool :=
  match s with
  | EmptyString => true
  | String c s' => Decoder.ws c && blank s'
  end.

(** The JSON whitespace at the head of a text. *)
Fixpoint spaces (s : string) : string :=
  match s with
  | String c s' => if Decoder.ws c then String c (spaces s') else EmptyString
  | EmptyString => EmptyString
  end.

(** A text made of digits only. *)
Fixpoint numeral (s : string) : bool :=
  match s with
  | EmptyString => true
  | String c s' => Decoder.digit c && numeral s'
  end.

(** What [scanstring] finds after an escape that denotes [uni]: a second
    escape that completes a surrogate pair, with the joined character and
    what follows it; nothing of the kind; or a second escape whose digits
    are wrong. *)
Inductive ahead : Type :=
| Pair (joined : N) (rest : string)
| Single
| BadAhead (at_ : string).

Definition look_ahead (uni : N) (s6 : string) : ahead :=
  match s6 with
  | String b ((String u (String g1 (String g2 (String g3 (String g4
                ((String _ _) as s12)))))) as s7) =>
      if Decoder.high_surrogate uni && Str.byte_is 92 b && Str.byte_is 117 u then
        match Decoder.hex4 g1 g2 g3 g4 with
        | None => BadAhead s7
        | Some uni2 =>
            if Decoder.low_surrogate uni2
            then Pair (Decoder.join_surrogates uni uni2) s12
            else Single
        end
      else Single
  | _ => Single
  end.

(** One round of [scanstring]: the closing quote, a piece of the string
    and where to go on, or an error. *)
Inductive step : Type :=
| Close (rest : string)
| Emit (piece rest : string)
| Fail (msg at_ : string).

Definition string_step (begin s : string) : step :=
  match s with
  | EmptyString => Fail "Unterminated string starting at" begin
  | String c s1 =>
      if Str.byte_is 34 c then Close s1
      else if Str.byte_is 92 c then
        match s1 with
        | EmptyString => Fail "Unterminated string starting at" begin
        | String e s2 =>
            if Str.byte_is 117 e then
              match s2 with
              | String h1 (String h2 (String h3 (String h4 ((String _ _) as s6)))) =>
                  match Decoder.hex4 h1 h2 h3 h4 with
                  | None => Fail "Invalid \uXXXX escape" s1
                  | Some uni =>
                      match look_ahead uni s6 with
                      | Pair j s12 => Emit (Decoder.chr j) s12
                      | Single => Emit (Decoder.chr uni) s6
                      | BadAhead s7 => Fail "Invalid \uXXXX escape" s7
                      end
                  end
              | _ => Fail "Invalid \uXXXX escape" s1
              end
            else
              match Decoder.escape e with
              | Some x => Emit (String x EmptyString) s2
              | None => Fail "Invalid \escape" s
              end
        end
      else if (nat_of_ascii c <=? 31)%nat then Fail "Invalid control character at" s
      else Emit (String c EmptyString) s1
  end.

(** The text ends with a character that satisfies [p]. *)
Definition ends (p : ascii -> bool) (a : string) : Prop :=
  exists y d, a = y ++ String d EmptyString /\ p d = true.

(** A part of a number: it is the head of the text, it is empty or
    starts with its opening character and ends with a digit, and it is
    read again before any text that starts neither with a digit nor, when
    the part is empty, with the opening character. *)
Definition part_local (read : string -> string * string) (opens : ascii -> bool)
    (s f r : string) : Prop :=
  s = f ++ r
  /\ (f = "" \/ (ends Decoder.digit f /\ head_not opens f = false))
  /\ forall t, head_not Decoder.digit t = true ->
               (f = "" -> head_not opens t = true) ->
               read (f ++ t) = (f, t).

(** What [scan_once] reads with [n] calls left is the head of the text,
    ends with a plain character, and is read again, with enough calls
    left, before any text that cannot continue a number. *)
Definition scan_local (n : nat) : Prop :=
  forall s v r, Decoder.scan_once n s = Decoder.Found v r ->
  exists a,
    s = a ++ r /\ ends plain a
    /\ forall t m, follow t = true -> 2 * String.length a <= m ->
                   Decoder.scan_once m (a ++ t) = Decoder.Found v t.

(** The same for the two loops, which read up to the closing character. *)
Definition items_local {A : Type} (items : nat -> string -> Decoder.scan A)
    (closing : nat) (n : nat) : Prop :=
  forall s l r, items n s = Decoder.Found l r ->
  exists a,
    s = a ++ r /\ ends (Str.byte_is closing) a
    /\ forall t m, 2 * String.length a <= m -> items m (a ++ t) = Decoder.Found l t.

End Lex.

(* ================================================================== *)
(** * Reading a result *)

(** [v[k1][k2]...] on nested dicts, [None] where a key is absent. *)
Fixpoint path (keys : list string) (v : json) : option json :=
  match keys with
  | [] => Some v
  | k :: keys' =>
      match v with
      | JObj d =>
          match Dict.get k d with
          | Some x => path keys' x
          | None => None
          end
      | _ => None
      end
  end.

(** What the loop appends for an example: its [reasoning], or the empty
    string. *)
Definition reasoning_of (ex : json) : json :=
  match path ["reasoning"] ex with Some x => x | None => JStr "" end.

(** A field of every entry of a list of dicts. *)
Definition column (k : string) (entries : list json) : list (option json) :=
  map (path [k]) entries.

Definition is_dict (v : json) : bool :=
  match v with JObj _ => true | _ => false end.

Definition has_key (k : string) (v : json) : bool :=
  match path [k] v with Some _ => true | None => false end.

(** The key [k] is there, and so is the [text] of every example found
    under it. *)
Definition examples_present (k : string) (data : json) : bool :=
  match path [k] data with
  | Some v =>
      match iterate v with
      | Return l => forallb (has_key "text") l
      | Raise _ => false
      end
  | None => false
  end.

(** What the result carries as summary: the [analysis_summary], or the
    empty string. *)
Definition summary_of (data : json) : json :=
  match path ["analysis_summary"] data with Some x => x | None => JStr "" end.

(** The keys the formatter looks up without a default are all there. *)
Definition required_present (data : json) : bool :=
  examples_present "positive_examples" data
  && examples_present "negative_examples" data
  && match path ["sentiment_distribution"] data with
     | Some sd => has_key "positive" sd && has_key "negative" sd && has_key "neutral" sd
     | None => false
     end.

(** The payload has the shape the prompt asks for wherever a key is
    present: a dict, whose example lists are lists of dicts and whose
    distribution is a dict. *)
Definition examples_shaped (k : string) (data : json) : bool :=
  match path [k] data with
  | Some (JArr l) => forallb is_dict l
  | Some _ => false
  | None => true
  end.

Definition shaped (data : json) : bool :=
  is_dict data
  && examples_shaped "positive_examples" data
  && examples_shaped "negative_examples" data
  && match path ["sentiment_distribution"] data with
     | Some sd => is_dict sd
     | None => true
     end.

(** Where [format_response] can raise [e] on [data]: at the lookup of one
    of its three keys, at the start of a loop, at the [text] of an example,
    or at a key of the distribution. *)
Inductive raised_by (data : json) (e : exn) : Prop :=
| missing_key (k : string) :
    getitem data k = Raise e -> raised_by data e
| not_iterable (k : string) (v : json) :
    In k ["positive_examples"; "negative_examples"] ->
    getitem data k = Return v -> iterate v = Raise e -> raised_by data e
| bad_example (k : string) (v : json) (l : list json) (ex : json) :
    In k ["positive_examples"; "negative_examples"] ->
    getitem data k = Return v -> iterate v = Return l -> In ex l ->
    getitem ex "text" = Raise e -> raised_by data e
| bad_distribution (sd : json) (k : string) :
    getitem data "sentiment_distribution" = Return sd ->
    getitem sd k = Raise e -> raised_by data e.

(* ================================================================== *)
(** * Sample inputs *)

Module Sample.

Definition float_str (literal : string) : string := literal.
Definition str_repr (s : string) : string := sq ++ s ++ sq.

Definition clock (k : nat) : datetime := Datetime 2024 3 9 14 5 k 0.

Definition example (text : string) : json :=
  JObj [ ("text", JStr text); ("reasoning", JStr "because") ].

Definition five : list json :=
  [ example "a"; example "b"; example "c"; example "d"; example "e" ].

Definition distribution : json :=
  JObj [ ("positive", JInt 150); ("negative", JInt (-20)); ("neutral", JInt 7) ].

Definition payload : json :=
  JObj [ ("sentiment_distribution", distribution);
         ("positive_examples", JArr five);
         ("negative_examples", JArr five) ].

(** One example on each side, the second without a [reasoning]. *)
Definition short_text : string :=
  "{" ++ q "sentiment_distribution" ++ ": {" ++ q "positive" ++ ": 60, "
      ++ q "negative" ++ ": 30, " ++ q "neutral" ++ ": 10}, "
      ++ q "positive_examples" ++ ": [{" ++ q "text" ++ ": " ++ q "good" ++ ", "
      ++ q "reasoning" ++ ": " ++ q "cheap" ++ "}], "
      ++ q "negative_examples" ++ ": [{" ++ q "text" ++ ": " ++ q "bad" ++ "}]}".

(** No [neutral] in the distribution. *)
Definition incomplete_text : string :=
  "{" ++ q "sentiment_distribution" ++ ": {" ++ q "positive" ++ ": 60, "
      ++ q "negative" ++ ": 40}, "
      ++ q "positive_examples" ++ ": [], "
      ++ q "negative_examples" ++ ": []}".

(** A block whose content is followed by two backquotes and a second
    tagged delimiter. *)
Definition overlapping : string := "```json1`````json".

(** A JSON string that holds three backquotes. *)
Definition backquotes : string := dq ++ "```" ++ dq.

(** An environment with a key, whose remote model answers [text]. *)
Definition answering (text : string) : env :=
  Env (Some "secret") (fun _ => Return text) clock.

(** An environment with a key, whose remote model fails. *)
Definition failing (e : exn) : env :=
  Env (Some "secret") (fun _ => Raise e) clock.

(** An environment without a key. *)
Definition keyless : env :=
  Env None (fun _ => Return short_text) clock.

Definition fresh : world := World 0 [] [].

Definition topic_request (topic : string) : request :=
  Body (JObj [ ("topic", JStr topic) ]).

(** What [format_response] makes of [payload], and the world it leaves. *)
Definition formatted : json :=
  Eval vm_compute in
    match fst (format_response float_str str_repr (JStr "tea") payload
                 (answering "") fresh) with
    | Return r => r
    | Raise _ => JNull
    end.

Definition formatted_world : world :=
  Eval vm_compute in
    snd (format_response float_str str_repr (JStr "tea") payload
           (answering "") fresh).

End Sample.

(* ================================================================== *)
(** * Reading a response *)

(** The keys of a dict, in the order in which they were inserted. *)
Definition keys (v : json) : list string :=
  match v with
  | JObj d => map fst d
  | _ => []
  end.

(** The values for which [not topic] holds, floats apart. *)
Definition falsy : list json :=
  [ JNull; JBool false; JInt 0; JStr ""; JArr []; JObj [] ].

(** The [author] of the entry at index [i] of a group numbered from
    [first], as a column of authors holds it. *)
Definition author_of (first : Z) (i : nat) : option json :=
  Some (JStr ("user_" ++ Str.of_int (Z.of_nat i + first))).

(** The value is a list. *)
Definition is_list (v : json) : bool :=
  match v with JArr _ => true | _ => false end.

(* ================================================================== *)
(** * Tags and the template of the prompt *)

Module Tag.

(** A character with which a JSON text can start: the quote, a bracket, a
    brace, the minus sign, a digit, or the first letter of [null], [true],
    [false], [NaN] and [Infinity]. *)
Definition opens (c : ascii) : bool :=
  Str.byte_is 34 c || Str.byte_is 123 c || Str.byte_is 91 c || Str.byte_is 45 c
  || Decoder.digit c
  || Str.byte_is 110 c || Str.byte_is 116 c || Str.byte_is 102 c
  || Str.byte_is 78 c || Str.byte_is 73 c.

End Tag.

Module Template.

(** The prompt up to the topic, and the prompt after it. *)
Definition head : string :=
  "You are a social sentiment analyst. Analyze public opinion about: " ++ dq.

Definition tail : string :=
  Str.drop (String.length head) (prompt (fun l => l) (fun s => s) (JStr "")).

End Template.

(* ================================================================== *)
(** * Further inputs *)

Module Scenario.

(** A clock that passes midnight after its first reading, and an
    environment with that clock. *)
Definition midnight (k : nat) : datetime :=
  match k with
  | O => Datetime 2024 12 31 23 59 59 0
  | _ => Datetime 2025 1 1 0 0 0 k
  end.

Definition overnight : env :=
  Env (Some "secret") (fun _ => Return "") midnight.

(** One example on each side, with a field the formatter does not know. *)
Definition one_each : json :=
  JObj [ ("sentiment_distribution", Sample.distribution);
         ("positive_examples",
           JArr [ JObj [ ("text", JStr "good"); ("likes", JInt 3) ] ]);
         ("negative_examples", JArr [ JObj [ ("text", JStr "bad") ] ]);
         ("model", JStr "m") ].

(** What [format_response] makes of it overnight. *)
Definition one_each_formatted : json :=
  Eval vm_compute in
    match fst (format_response Sample.float_str Sample.str_repr (JStr "tea")
                 one_each overnight Sample.fresh) with
    | Return r => r
    | Raise _ => JNull
    end.

(** Six positive examples and one negative one. *)
Definition six_and_one : json :=
  JObj [ ("sentiment_distribution", Sample.distribution);
         ("positive_examples", JArr (Sample.example "f" :: Sample.five));
         ("negative_examples", JArr [ Sample.example "z" ]) ].

Definition six_and_one_formatted : json :=
  Eval vm_compute in
    match fst (format_response Sample.float_str Sample.str_repr (JStr "tea")
                 six_and_one overnight Sample.fresh) with
    | Return r => r
    | Raise _ => JNull
    end.

(** What the remote call may raise: a [JSONDecodeError] of another
    library, and an interrupt, which does not derive from [Exception]. *)
Definition remote_decode_error : exn :=
  Exn (Foreign "requests.exceptions.JSONDecodeError" true)
    "Expecting value: line 1 column 1 (char 0)".

Definition interrupt : exn := Exn (Exiting "KeyboardInterrupt") "".

(** An answer whose [positive_examples] is a number, and what it parses
    to. *)
Definition examples_a_number_text : string :=
  "{" ++ q "positive_examples" ++ ": 5}".

Definition examples_a_number : list (string * json) :=
  [ ("positive_examples", JInt 5) ].

(** An answer whose bare block is closed by five backquotes. *)
Definition overlapping_bare : string := "```1`````".

(** A payload whose distribution has no [neutral]. *)
Definition no_neutral : list (string * json) :=
  [ ("sentiment_distribution",
      JObj [ ("positive", JInt 60); ("negative", JInt 40) ]);
    ("positive_examples", JArr []);
    ("negative_examples", JArr [ Sample.example "z" ]) ].

(** A payload whose second positive example has no [text]. *)
Definition no_text : list (string * json) :=
  [ ("positive_examples",
      JArr [ Sample.example "a"; JObj [ ("reasoning", JStr "r") ];
             Sample.example "c" ]) ].


End Scenario.

(* ================================================================== *)
(** * Strings: cutting at a separator *)

Module StrFacts.
Import Str.

Lemma append_nil_r (s : string) : s ++ "" = s.
Proof. induction s; simpl; congruence. Qed.

Lemma append_assoc (a b c : string) : (a ++ b) ++ c = a ++ b ++ c.
Proof. induction a; simpl; congruence. Qed.

Lemma length_append (a b : string) :
  String.length (a ++ b) = String.length a + String.length b.
Proof. induction a; simpl; congruence. Qed.

Lemma startswith_split (p s : string) :
  startswith p s = true -> s = p ++ drop (String.length p) s.
Proof.
  revert s; induction p as [|a p IH]; intros s H; simpl in *.
  - reflexivity.
  - destruct s as [|b s]; [discriminate|].
    apply andb_true_iff in H as [Hab Hp].
    apply Ascii.eqb_eq in Hab; subst b.
    f_equal. now apply IH.
Qed.

Lemma startswith_append (p s : string) : startswith p (p ++ s) = true.
Proof.
  induction p as [|a p IH]; simpl; [reflexivity|].
  now rewrite Ascii.eqb_refl, IH.
Qed.

Lemma startswith_extend (p s x : string) :
  startswith p s = true -> startswith p (s ++ x) = true.
Proof.
  revert s; induction p as [|a p IH]; intros s H; simpl in *; [reflexivity|].
  destruct s as [|b s]; [discriminate|]; simpl.
  apply andb_true_iff in H as [Hab Hp].
  now rewrite Hab, (IH _ Hp).
Qed.

Lemma startswith_long (p s x : string) :
  String.length p <= String.length s ->
  startswith p (s ++ x) = startswith p s.
Proof.
  revert s; induction p as [|a p IH]; intros s H; simpl in *; [reflexivity|].
  destruct s as [|b s]; simpl in *; [lia|].
  rewrite IH by lia. reflexivity.
Qed.

(** A cut splits the text around the separator. *)
Lemma partition_split {sep s a b : string} :
  partition sep s = Some (a, b) -> s = a ++ sep ++ b.
Proof.
  revert a b; induction s as [|c s IH]; intros a b H.
  - simpl in H. destruct (startswith sep "") eqn:E; [|discriminate].
    injection H as <- <-. simpl. now apply startswith_split.
  - cbn [partition] in H.
    destruct (startswith sep (String c s)) eqn:E.
    + injection H as <- <-. simpl. now apply startswith_split.
    + destruct (partition sep s) as [[a' b']|] eqn:P; [|discriminate].
      injection H as <- <-. simpl. f_equal. now apply IH.
Qed.

Lemma partition_shorter {sep s a b : string} :
  sep <> "" -> partition sep s = Some (a, b) ->
  String.length b < String.length s.
Proof.
  intros Hs H. apply partition_split in H. subst s.
  rewrite !length_append. destruct sep; [congruence|]. simpl. lia.
Qed.

(** The piece before a cut does not contain the separator. *)
Lemma partition_before {sep s a b : string} :
  sep <> "" -> partition sep s = Some (a, b) -> partition sep a = None.
Proof.
  intros Hs. revert a b; induction s as [|c s IH]; intros a b H.
  - simpl in H. destruct sep; [congruence|]. simpl in H. discriminate.
  - cbn [partition] in H.
    destruct (startswith sep (String c s)) eqn:E.
    + injection H as <- <-. destruct sep; [congruence|]. reflexivity.
    + destruct (partition sep s) as [[a' b']|] eqn:P; [|discriminate].
      injection H as <- <-.
      cbn [partition].
      destruct (startswith sep (String c a')) eqn:E'.
      * pose proof (partition_split P) as Hs'. subst s.
        change (String c (a' ++ sep ++ b')) with (String c a' ++ sep ++ b') in E.
        rewrite (startswith_extend _ _ _ E') in E. discriminate.
      * now rewrite (IH _ _ eq_refl).
Qed.

(** An occurrence of the separator is found, no later than where it is. *)
Lemma partition_finds (sep a b : string) :
  exists a' b', partition sep (a ++ sep ++ b) = Some (a', b')
                /\ String.length a' <= String.length a.
Proof.
  induction a as [|c a IH].
  - simpl. exists "", (drop (String.length sep) (sep ++ b)).
    split; [|simpl; lia].
    destruct (sep ++ b) eqn:E; simpl.
    + destruct sep; [reflexivity|discriminate].
    + rewrite <- E, startswith_append. reflexivity.
  - destruct IH as (a' & b' & P & L).
    change (String c a ++ sep ++ b) with (String c (a ++ sep ++ b)).
    cbn [partition].
    destruct (startswith sep (String c (a ++ sep ++ b))).
    + eexists _, _. split; [reflexivity|simpl; lia].
    + rewrite P. eexists _, _. split; [reflexivity|simpl; lia].
Qed.

Lemma split_fuel_enough {sep : string} :
  sep <> "" ->
  forall n m s, String.length s <= n -> String.length s <= m ->
                split_fuel n sep s = split_fuel m sep s.
Proof.
  intros Hs. induction n as [|n IH]; intros m s Ln Lm.
  - destruct s; simpl in Ln; [|lia].
    destruct m; simpl; [reflexivity|].
    destruct sep; [congruence|]. reflexivity.
  - destruct m as [|m].
    + destruct s; simpl in Lm; [|lia]. simpl.
      destruct sep; [congruence|]. reflexivity.
    + cbn [split_fuel].
      destruct (partition sep s) as [[a b]|] eqn:P; [|reflexivity].
      pose proof (partition_shorter Hs P) as Lb.
      rewrite (IH m b) by lia. reflexivity.
Qed.

(** [split] cuts once and goes on with what follows. *)
Lemma split_step {sep : string} (s : string) :
  sep <> "" ->
  split sep s = match partition sep s with
                | None => [s]
                | Some (a, b) => a :: split sep b
                end.
Proof.
  intros Hs. unfold split.
  destruct s as [|c s].
  - simpl. destruct sep; [congruence|]. reflexivity.
  - cbn [split_fuel String.length].
    destruct (partition sep (String c s)) as [[a b]|] eqn:P; [|reflexivity].
    pose proof (partition_shorter Hs P) as Lb. simpl in Lb.
    rewrite (split_fuel_enough Hs _ (String.length b) b) by lia. reflexivity.
Qed.

(** The piece at index 1, when the separator occurs: what follows the
    first occurrence, up to the next one. *)
Lemma split_second {sep s a b : string} :
  sep <> "" -> partition sep s = Some (a, b) ->
  list_index (split sep s) 1 = Return (Fence.up_to sep b).
Proof.
  intros Hs P. rewrite (split_step _ Hs), P. unfold list_index; simpl.
  rewrite (split_step _ Hs). unfold Fence.up_to.
  destruct (partition sep b) as [[a' b']|]; reflexivity.
Qed.

(** The piece at index 0: the text up to the first occurrence. *)
Lemma split_first {sep : string} (s : string) :
  sep <> "" -> list_index (split sep s) 0 = Return (Fence.up_to sep s).
Proof.
  intros Hs. rewrite (split_step _ Hs). unfold Fence.up_to.
  destruct (partition sep s) as [[a b]|]; reflexivity.
Qed.

Lemma up_to_idem {sep : string} (s : string) :
  sep <> "" -> Fence.up_to sep (Fence.up_to sep s) = Fence.up_to sep s.
Proof.
  intros Hs. unfold Fence.up_to at 2 3.
  destruct (partition sep s) as [[a b]|] eqn:P.
  - unfold Fence.up_to. now rewrite (partition_before Hs P).
  - unfold Fence.up_to. now rewrite P.
Qed.

End StrFacts.

(* ================================================================== *)
(** * Strings: stripping *)

Module StripFacts.
Import Str StrFacts.

Functional Scheme lstrip_ind := Induction for lstrip Sort Prop.
Functional Scheme lstrip_rev_ind := Induction for lstrip_rev Sort Prop.

Lemma rev_append_spec (s acc : string) : rev_append s acc = rev s ++ acc.
Proof.
  unfold rev. revert acc. induction s as [|c s IH]; intros acc; simpl.
  - reflexivity.
  - rewrite IH, (IH (String c "")), append_assoc. reflexivity.
Qed.

Lemma rev_cons (c : ascii) (s : string) : rev (String c s) = rev s ++ String c "".
Proof. unfold rev at 1. simpl. apply rev_append_spec. Qed.

Lemma rev_app (a b : string) : rev (a ++ b) = rev b ++ rev a.
Proof.
  induction a as [|c a IH]; simpl.
  - now rewrite append_nil_r.
  - now rewrite !rev_cons, IH, append_assoc.
Qed.

Lemma rev_involutive (s : string) : rev (rev s) = s.
Proof.
  induction s as [|c s IH]; [reflexivity|].
  now rewrite rev_cons, rev_app, IH.
Qed.

Lemma lstrip_length (s : string) : String.length (lstrip s) <= String.length s.
Proof. functional induction (lstrip s); simpl in *; lia. Qed.

Lemma lstrip_rev_length (s : string) :
  String.length (lstrip_rev s) <= String.length s.
Proof. functional induction (lstrip_rev s); simpl in *; lia. Qed.

Lemma lstrip_idem (s : string) : lstrip (lstrip s) = lstrip s.
Proof.
  functional induction (lstrip s); try assumption; try reflexivity;
    simpl; repeat match goal with H : _ = false |- _ => rewrite H; clear H end;
    reflexivity.
Qed.

Lemma lstrip_rev_idem (s : string) : lstrip_rev (lstrip_rev s) = lstrip_rev s.
Proof.
  functional induction (lstrip_rev s); try assumption; try reflexivity;
    simpl; repeat match goal with H : _ = false |- _ => rewrite H; clear H end;
    reflexivity.
Qed.

(** What [lstrip_rev] leaves is the end of its argument. *)
Lemma lstrip_rev_suffix (s : string) : exists u, s = u ++ lstrip_rev s.
Proof.
  functional induction (lstrip_rev s);
    try (now exists "");
    destruct IHs0 as [u Hu].
  - exists (String c1 u). simpl. now f_equal.
  - exists (String c1 (String c2 u)). simpl. now do 2 f_equal.
  - exists (String c1 (String c2 (String c3 u))). simpl. now do 3 f_equal.
Qed.

(** What [rstrip] leaves is the beginning of its argument. *)
Lemma rstrip_prefix (s : string) : exists w, s = rstrip s ++ w.
Proof.
  unfold rstrip. destruct (lstrip_rev_suffix (rev s)) as [u Hu].
  exists (rev u). rewrite <- rev_app, <- Hu. now rewrite rev_involutive.
Qed.

(** A text that [lstrip] leaves alone has beginnings it leaves alone. *)
Lemma lstrip_fixed_prefix (p w : string) :
  lstrip (p ++ w) = p ++ w -> lstrip p = p.
Proof.
  intros H.
  assert (L : forall x y : string,
             String.length x < String.length y -> lstrip x <> y).
  { intros x y Lxy E. pose proof (lstrip_length x) as Lx. rewrite E in Lx. lia. }
  destruct p as [|c1 p]; [reflexivity|].
  simpl in H.
  destruct (space1 c1) eqn:E1.
  { exfalso. apply (L (p ++ w) (String c1 (p ++ w))); [simpl; lia|exact H]. }
  destruct p as [|c2 p]; [simpl; now rewrite E1|].
  simpl in H.
  destruct (space2 c1 c2) eqn:E2.
  { exfalso.
    apply (L (p ++ w) (String c1 (String c2 (p ++ w)))); [simpl; lia|exact H]. }
  destruct p as [|c3 p]; [simpl; now rewrite E1, E2|].
  simpl in H.
  destruct (space3 c1 c2 c3) eqn:E3.
  { exfalso.
    apply (L (p ++ w) (String c1 (String c2 (String c3 (p ++ w)))));
      [simpl; lia|exact H]. }
  simpl. now rewrite E1, E2, E3.
Qed.

Lemma rstrip_idem (s : string) : rstrip (rstrip s) = rstrip s.
Proof. unfold rstrip. now rewrite rev_involutive, lstrip_rev_idem. Qed.

(** Stripping twice is stripping once. *)
Lemma strip_idem (s : string) : strip (strip s) = strip s.
Proof.
  unfold strip.
  destruct (rstrip_prefix (lstrip s)) as [w Hw].
  assert (F : lstrip (rstrip (lstrip s)) = rstrip (lstrip s)).
  { apply (lstrip_fixed_prefix _ w). rewrite <- Hw. apply lstrip_idem. }
  rewrite F. apply rstrip_idem.
Qed.

End StripFacts.

(* ================================================================== *)
(** * The monad *)

Module MFacts.

Lemma bind_return {A B} (m : M A) (f : A -> M B) E w b w' :
  bind m f E w = (Return b, w') ->
  exists a w1, m E w = (Return a, w1) /\ f a E w1 = (Return b, w').
Proof.
  unfold bind. destruct (m E w) as [[a|e] w1]; intros H.
  - now exists a, w1.
  - discriminate.
Qed.

Lemma bind_raise {A B} (m : M A) (f : A -> M B) E w e w' :
  bind m f E w = (Raise e, w') ->
  m E w = (Raise e, w')
  \/ exists a w1, m E w = (Return a, w1) /\ f a E w1 = (Raise e, w').
Proof.
  unfold bind. destruct (m E w) as [[a|e1] w1]; intros H.
  - right. now exists a, w1.
  - left. injection H as -> ->. reflexivity.
Qed.

Lemma bind_step {A B} (m : M A) (f : A -> M B) E w a w1 :
  m E w = (Return a, w1) -> bind m f E w = f a E w1.
Proof. unfold bind. now intros ->. Qed.

Lemma bind_fail {A B} (m : M A) (f : A -> M B) E w e w1 :
  m E w = (Raise e, w1) -> bind m f E w = (Raise e, w1).
Proof. unfold bind. now intros ->. Qed.

Lemma return_inj {A} (a b : A) : Return a = Return b -> a = b.
Proof. now intros [= ->]. Qed.

Lemma lift_run {A} (o : outcome A) E w : lift o E w = (o, w).
Proof. reflexivity. Qed.

Lemma lift_inv {A} (o x : outcome A) E w w' :
  lift o E w = (x, w') -> o = x /\ w' = w.
Proof. unfold lift. intros H. injection H as <- <-. now split. Qed.

Lemma ticked_0 (w : world) : ticked 0 w = w.
Proof. destruct w; unfold ticked; simpl. now rewrite Nat.add_0_r. Qed.

Lemma ticked_S (k : nat) (w : world) :
  ticked k (World (S (clock_reads w)) (remote_calls w) (printed w)) = ticked (S k) w.
Proof. unfold ticked; simpl. f_equal. lia. Qed.

End MFacts.

(* ================================================================== *)
(** * [format_response] *)

Module LookupFacts.

Lemma getitem_return (v : json) (k : string) (x : json) :
  getitem v k = Return x <-> path [k] v = Some x.
Proof.
  destruct v; simpl; try (split; discriminate).
  destruct (Dict.get k fields); split; congruence.
Qed.

Lemma getitem_dict {v : json} {k : string} {x : json} :
  getitem v k = Return x -> is_dict v = true.
Proof. destruct v; simpl; congruence. Qed.

(** A lookup that fails raises [KeyError] on a dict and [TypeError] on
    anything else. *)
Lemma getitem_raise (v : json) (k : string) (e : exn) :
  getitem v k = Raise e ->
  (is_dict v = true /\ path [k] v = None /\ e = key_error k)
  \/ (is_dict v = false /\ exn_cls e = TypeError).
Proof.
  destruct v; simpl; intros H; try (right; injection H as <-; now split).
  left. destruct (Dict.get k fields); [discriminate|].
  injection H as <-. now repeat split.
Qed.

Lemma getitem_has_key (v : json) (k : string) :
  has_key k v = true <-> exists x, getitem v k = Return x.
Proof.
  unfold has_key. split.
  - destruct (path [k] v) as [x|] eqn:P; [|discriminate].
    intros _. exists x. now apply getitem_return.
  - intros [x H]. apply getitem_return in H. now rewrite H.
Qed.

Lemma get_method_dict {v : json} (k : string) (d : json) :
  is_dict v = true ->
  get_method v k d = Return (match path [k] v with Some x => x | None => d end).
Proof.
  destruct v; simpl; try discriminate. intros _.
  now destruct (Dict.get k fields).
Qed.

Lemma iterate_raise (v : json) (e : exn) :
  iterate v = Raise e -> exn_cls e = TypeError.
Proof. destruct v; simpl; intros H; try discriminate; now injection H as <-. Qed.

End LookupFacts.

Module FormatFacts.
Import MFacts LookupFacts.

Ltac bind_ret H x w :=
  let H1 := fresh "Hm" in
  apply bind_return in H as (x & w & H1 & H).

Section Loop.

Variables (label : string) (base first : Z).

(** A loop that ends has read the clock once per example and has appended
    one entry per example, in order. *)
Lemma examples_loop_return : forall items i E w entries w',
  examples_loop label base first i items E w = (Return entries, w') ->
  w' = ticked (List.length items) w
  /\ List.length entries = List.length items
  /\ forall j ex, nth_error items j = Some ex ->
       exists text,
         getitem ex "text" = Return text
         /\ nth_error entries j =
              Some (example_entry label base first (i + j) text
                      (now E (clock_reads w + j)) (reasoning_of ex)).
Proof.
  induction items as [|ex rest IH]; intros i E w entries w' H.
  - simpl in H. unfold ret in H. injection H as <- <-.
    rewrite ticked_0. repeat split. intros [|j] ex Hj; discriminate.
  - cbn [examples_loop] in H.
    bind_ret H text w1. apply lift_inv in Hm as [G ->].
    bind_ret H t w2. unfold datetime_now in Hm. injection Hm as <- <-.
    bind_ret H reasoning w3. apply lift_inv in Hm as [R ->].
    bind_ret H es w4. unfold ret in H. injection H as <- <-.
    apply IH in Hm as (Hw & Hl & Hn).
    rewrite (get_method_dict _ _ (getitem_dict G)) in R.
    injection R as <-.
    split; [|split].
    + rewrite Hw. apply ticked_S.
    + simpl. now rewrite Hl.
    + intros [|j] ex' Hj; simpl in Hj.
      * injection Hj as <-. exists text. split; [exact G|].
        simpl. now rewrite !Nat.add_0_r.
      * destruct (Hn j ex' Hj) as (text' & G' & N').
        exists text'. split; [exact G'|]. simpl. rewrite N'.
        simpl. do 2 f_equal; [f_equal|f_equal]; lia.
Qed.

(** A loop that raises does so at the lookup of a [text]. *)
Lemma examples_loop_raise : forall items i E w e w',
  examples_loop label base first i items E w = (Raise e, w') ->
  exists ex, In ex items /\ getitem ex "text" = Raise e.
Proof.
  induction items as [|ex rest IH]; intros i E w e w' H.
  - discriminate.
  - cbn [examples_loop] in H.
    apply bind_raise in H as [H|(text & w1 & Hm & H)].
    { apply lift_inv in H as [G _]. exists ex. split; [now left|exact G]. }
    apply lift_inv in Hm as [G ->].
    apply bind_raise in H as [H|(t & w2 & Hm & H)]; [discriminate|].
    unfold datetime_now in Hm. injection Hm as <- <-.
    apply bind_raise in H as [H|(r & w3 & Hm & H)].
    { apply lift_inv in H as [R _].
      rewrite (get_method_dict _ _ (getitem_dict G)) in R. discriminate. }
    apply lift_inv in Hm as [_ ->].
    apply bind_raise in H as [H|(es & w4 & Hm & H)]; [|discriminate].
    apply IH in H as (ex' & I & G'). exists ex'. split; [now right|exact G'].
Qed.

(** The loop ends when every example has a [text]. *)
Lemma examples_loop_total : forall items i E w,
  forallb (has_key "text") items = true ->
  exists entries,
    examples_loop label base first i items E w
    = (Return entries, ticked (List.length items) w).
Proof.
  induction items as [|ex rest IH]; intros i E w F.
  - exists []. simpl. unfold ret. now rewrite ticked_0.
  - simpl in F. apply andb_true_iff in F as [K F].
    apply getitem_has_key in K as [text G].
    cbn [examples_loop]. unfold bind, lift, datetime_now, ret.
    rewrite G, (get_method_dict _ _ (getitem_dict G)).
    destruct (IH (S i) E (World (S (clock_reads w)) (remote_calls w) (printed w)) F)
      as [es Hes].
    rewrite Hes, ticked_S. eexists. reflexivity.
Qed.

End Loop.

Section Format.

Variables (float_str str_repr : string -> string).

Local Notation "'format'" := (format_response float_str str_repr).
Local Notation "'result'" := (result_dict float_str str_repr).

(** What a call that returns has looked up, and what it returns. *)
Lemma format_response_return topic data E w r w' :
  format topic data E w = (Return r, w') ->
  exists pos ps pe neg ns ne sd p n u,
    getitem data "positive_examples" = Return pos
    /\ iterate pos = Return ps
    /\ examples_loop "positive" 100 1 0 ps E w
       = (Return pe, ticked (List.length ps) w)
    /\ getitem data "negative_examples" = Return neg
    /\ iterate neg = Return ns
    /\ examples_loop "negative" 95 6 0 ns E (ticked (List.length ps) w)
       = (Return ne, ticked (List.length ns) (ticked (List.length ps) w))
    /\ getitem data "sentiment_distribution" = Return sd
    /\ getitem sd "positive" = Return p
    /\ getitem sd "negative" = Return n
    /\ getitem sd "neutral" = Return u
    /\ r = result topic p n u p p pe n n ne u (summary_of data)
             (now E (clock_reads w + List.length ps + List.length ns)).
Proof.
  intros H. unfold format_response in H.
  bind_ret H pos w1. apply lift_inv in Hm as [G1 ->].
  bind_ret H ps w1. apply lift_inv in Hm as [I1 ->].
  bind_ret H pe w1. pose proof (examples_loop_return _ _ _ _ _ _ _ _ _ Hm) as (-> & _ & _).
  bind_ret H neg w2. apply lift_inv in Hm0 as [G2 ->].
  bind_ret H ns w2. apply lift_inv in Hm0 as [I2 ->].
  bind_ret H ne w2. pose proof (examples_loop_return _ _ _ _ _ _ _ _ _ Hm0) as (-> & _ & _).
  bind_ret H sd w3. apply lift_inv in Hm1 as [G3 ->].
  bind_ret H p w3. apply lift_inv in Hm1 as [Gp ->].
  bind_ret H n w3. apply lift_inv in Hm1 as [Gn ->].
  bind_ret H u w3. apply lift_inv in Hm1 as [Gu ->].
  bind_ret H p2 w3. apply lift_inv in Hm1 as [Gp2 ->].
  bind_ret H p3 w3. apply lift_inv in Hm1 as [Gp3 ->].
  bind_ret H n2 w3. apply lift_inv in Hm1 as [Gn2 ->].
  bind_ret H n3 w3. apply lift_inv in Hm1 as [Gn3 ->].
  bind_ret H u2 w3. apply lift_inv in Hm1 as [Gu2 ->].
  bind_ret H sm w3. apply lift_inv in Hm1 as [Gs ->].
  bind_ret H t w3. unfold datetime_now in Hm1. injection Hm1 as <- <-.
  unfold ret in H. injection H as <- <-.
  rewrite Gp in Gp2, Gp3. injection Gp2 as <-. injection Gp3 as <-.
  rewrite Gn in Gn2, Gn3. injection Gn2 as <-. injection Gn3 as <-.
  rewrite Gu in Gu2. injection Gu2 as <-.
  rewrite (get_method_dict _ _ (getitem_dict G1)) in Gs. injection Gs as <-.
  exists pos, ps, pe, neg, ns, ne, sd, p, n, u.
  repeat (split; [assumption|]). reflexivity.
Qed.

(** A call that raises does so at one of its lookups. *)
Lemma format_response_raise topic data E w e w' :
  format topic data E w = (Raise e, w') -> raised_by data e.
Proof.
  intros H. unfold format_response in H.
  apply bind_raise in H as [H|(pos & ? & G1 & H)].
  { apply lift_inv in H as [H _]. eapply missing_key; eassumption. }
  apply lift_inv in G1 as [G1 ->].
  apply bind_raise in H as [H|(ps & ? & I1 & H)].
  { apply lift_inv in H as [H _].
    eapply not_iterable; [|eassumption..]; simpl; auto. }
  apply lift_inv in I1 as [I1 ->].
  apply bind_raise in H as [H|(pe & w1 & L1 & H)].
  { apply examples_loop_raise in H as (ex & I & H).
    eapply bad_example; [|eassumption..]; simpl; auto. }
  apply bind_raise in H as [H|(neg & ? & G2 & H)].
  { apply lift_inv in H as [H _]. eapply missing_key; eassumption. }
  apply lift_inv in G2 as [G2 ->].
  apply bind_raise in H as [H|(ns & ? & I2 & H)].
  { apply lift_inv in H as [H _].
    eapply not_iterable; [|eassumption..]; simpl; auto. }
  apply lift_inv in I2 as [I2 ->].
  apply bind_raise in H as [H|(ne & w2 & L2 & H)].
  { apply examples_loop_raise in H as (ex & I & H).
    eapply bad_example; [|eassumption..]; simpl; auto. }
  apply bind_raise in H as [H|(sd & ? & G3 & H)].
  { apply lift_inv in H as [H _]. eapply missing_key; eassumption. }
  apply lift_inv in G3 as [G3 ->].
  do 8 (apply bind_raise in H as [H|(? & ? & G & H)];
        [apply lift_inv in H as [H _]; eapply bad_distribution; eassumption
        |apply lift_inv in G as [_ ->]]).
  apply bind_raise in H as [H|(? & ? & G & H)].
  { apply lift_inv in H as [H _].
    rewrite (get_method_dict _ _ (getitem_dict G1)) in H. discriminate. }
  apply bind_raise in H as [H|(? & ? & ? & H)]; discriminate.
Qed.

(** A call returns when the required keys are there. *)
Lemma format_response_total topic data E w :
  required_present data = true ->
  exists r w', format topic data E w = (Return r, w').
Proof.
  unfold required_present, examples_present. intros H.
  apply andb_true_iff in H as [H H3]. apply andb_true_iff in H as [H1 H2].
  destruct (path ["positive_examples"] data) as [pos|] eqn:P1; [|discriminate].
  destruct (iterate pos) as [ps|] eqn:I1; [|discriminate].
  destruct (path ["negative_examples"] data) as [neg|] eqn:P2; [|discriminate].
  destruct (iterate neg) as [ns|] eqn:I2; [|discriminate].
  destruct (path ["sentiment_distribution"] data) as [sd|] eqn:P3; [|discriminate].
  apply andb_true_iff in H3 as [H3 Ku]. apply andb_true_iff in H3 as [Kp Kn].
  apply getitem_has_key in Kp as [p Gp], Kn as [n Gn], Ku as [u Gu].
  apply getitem_return in P1, P2, P3.
  unfold format_response, bind, lift. rewrite P1, I1.
  destruct (examples_loop_total "positive" 100 1 ps 0 E w H1) as [pe ->].
  rewrite P2, I2.
  destruct (examples_loop_total "negative" 95 6 ns 0 E
              (ticked (List.length ps) w) H2) as [ne ->].
  rewrite P3, Gp, Gn, Gu, (get_method_dict _ _ (getitem_dict P1)).
  unfold datetime_now, ret. eexists _, _. reflexivity.
Qed.

(** A call that returns found the required keys. *)
Lemma format_response_required topic data E w r w' :
  format topic data E w = (Return r, w') -> required_present data = true.
Proof.
  intros H.
  apply format_response_return in H
    as (pos & ps & pe & neg & ns & ne & sd & p & n & u
        & G1 & I1 & L1 & G2 & I2 & L2 & G3 & Gp & Gn & Gu & _).
  assert (T : forall label base first items i E w entries w',
             examples_loop label base first i items E w = (Return entries, w') ->
             forallb (has_key "text") items = true).
  { clear. intros label base first items i E w entries w' H.
    apply examples_loop_return in H as (_ & _ & H).
    apply forallb_forall. intros ex I.
    apply In_nth_error in I as [j Hj].
    destruct (H j ex Hj) as (text & G & _).
    apply getitem_has_key. now exists text. }
  unfold required_present, examples_present.
  apply getitem_return in G1 as ->, G2 as ->, G3 as ->.
  rewrite I1, I2, (T _ _ _ _ _ _ _ _ _ L1), (T _ _ _ _ _ _ _ _ _ L2). simpl.
  repeat (apply andb_true_iff; split); apply getitem_has_key; eauto.
Qed.

End Format.

(** An exception of [format_response] is a [KeyError] or a [TypeError]. *)
Lemma raised_by_class data e :
  raised_by data e -> exn_cls e = KeyError \/ exn_cls e = TypeError.
Proof.
  intros [k G|k v _ G I|k v l ex _ G I N T|sd k G K].
  - apply getitem_raise in G as [(_ & _ & ->)|[_ C]]; auto.
  - right. eapply iterate_raise; eassumption.
  - apply getitem_raise in T as [(_ & _ & ->)|[_ C]]; auto.
  - apply getitem_raise in K as [(_ & _ & ->)|[_ C]]; auto.
Qed.

(** On a payload of the expected shape it is a [KeyError]. *)
Lemma raised_by_shaped data e :
  shaped data = true -> raised_by data e -> exn_cls e = KeyError.
Proof.
  unfold shaped. intros S.
  apply andb_true_iff in S as [S S3]. apply andb_true_iff in S as [S S2].
  apply andb_true_iff in S as [D S1].
  assert (K : forall v k, is_dict v = true -> getitem v k = Raise e ->
                          exn_cls e = KeyError).
  { intros v k Dv G. apply getitem_raise in G as [(_ & _ & ->)|[F _]];
      [reflexivity|congruence]. }
  assert (Sk : forall k, In k ["positive_examples"; "negative_examples"] ->
                         examples_shaped k data = true).
  { intros k [<-|[<-|[]]]; assumption. }
  intros [k G|k v I G T|k v l ex I G T N X|sd k G Kd].
  - eapply K; eassumption.
  - exfalso. apply Sk in I. unfold examples_shaped in I.
    apply getitem_return in G. rewrite G in I.
    destruct v; discriminate.
  - apply Sk in I. unfold examples_shaped in I.
    apply getitem_return in G. rewrite G in I.
    destruct v; try discriminate. simpl in T. injection T as <-.
    rewrite forallb_forall in I. eapply K; [|eassumption]. now apply I.
  - apply getitem_return in G. rewrite G in S3. eapply K; eassumption.
Qed.

End FormatFacts.

(* ================================================================== *)
(** * The extraction *)

Module ExtractFacts.
Import Str StrFacts StripFacts.

Lemma fence_nonempty : "```" <> "".
Proof. discriminate. Qed.

Lemma tagged_nonempty : "```json" <> "".
Proof. discriminate. Qed.

(** What lines 58 to 61 compute. *)
Lemma extract_json_cut (t : string) :
  extract_json t
  = Return (if contains "```json" t || contains "```" t
            then strip (Fence.candidate_cut t) else t).
Proof.
  unfold extract_json, Fence.candidate_cut, Fence.between, Fence.after, contains.
  destruct (partition "```json" t) as [[a b]|] eqn:P; simpl.
  - rewrite (split_second tagged_nonempty P), (split_first _ fence_nonempty).
    reflexivity.
  - destruct (partition "```" t) as [[a b]|] eqn:Q; simpl; [|reflexivity].
    rewrite (split_second fence_nonempty Q), (split_first _ fence_nonempty).
    now rewrite (up_to_idem _ fence_nonempty).
Qed.

(** The extraction never raises. *)
Lemma extract_json_total (t : string) : exists c, extract_json t = Return c.
Proof. rewrite extract_json_cut. eexists. reflexivity. Qed.

Lemma drop_append (p s : string) : drop (String.length p) (p ++ s) = s.
Proof. induction p; simpl; auto. Qed.

(** A cut stays where it is when text is added at the end. *)
Lemma partition_extend (sep s x a b : string) :
  partition sep s = Some (a, b) -> partition sep (s ++ x) = Some (a, b ++ x).
Proof.
  revert a b. induction s as [|c s IH]; intros a b H.
  - simpl in H. destruct sep; [|discriminate]. simpl in H.
    injection H as <- <-. destruct x; reflexivity.
  - pose proof (partition_split H) as Hs.
    cbn [partition] in H. simpl append. cbn [partition].
    destruct (startswith sep (String c s)) eqn:E.
    + injection H as <- <-.
      change (String c (s ++ x)) with (String c s ++ x).
      rewrite (startswith_extend _ _ x E).
      rewrite (startswith_split _ _ E) at 1.
      now rewrite append_assoc, drop_append.
    + destruct (partition sep s) as [[a' b']|] eqn:P; [|discriminate].
      injection H as <- <-.
      change (String c (s ++ x)) with (String c s ++ x).
      rewrite startswith_long, E.
      * now rewrite (IH _ _ eq_refl).
      * rewrite Hs. simpl. rewrite !length_append. lia.
Qed.

(** Text without a closing delimiter, followed by text: the first closing
    delimiter is that of what follows, unless backquotes meet at the
    seam. *)
Lemma partition_seam (s t : string) :
  partition "```" s = None ->
  Fence.last s <> Some Fence.backquote \/ startswith "`" t = false ->
  partition "```" (s ++ t)
  = match partition "```" t with
    | Some (a, b) => Some (s ++ a, b)
    | None => None
    end.
Proof.
  induction s as [|c s IH]; intros N B.
  - simpl. now destruct (partition "```" t) as [[a b]|].
  - cbn [partition] in N.
    destruct (startswith "```" (String c s)) eqn:E; [discriminate|].
    destruct (partition "```" s) as [[a b]|] eqn:P; [discriminate|].
    assert (B' : Fence.last s <> Some Fence.backquote \/ startswith "`" t = false).
    { destruct B as [B|B]; [|now right].
      destruct s; [left; discriminate|left; exact B]. }
    specialize (IH eq_refl B').
    change (String c s ++ t) with (String c (s ++ t)). cbn [partition].
    assert (F : startswith "```" (String c (s ++ t)) = false).
    { clear IH B' P N. cbn [startswith] in E |- *.
      destruct (Ascii.eqb "`" c) eqn:C1; [|reflexivity].
      apply Ascii.eqb_eq in C1. subst c. cbn [andb] in E |- *.
      destruct s as [|c2 s].
      - destruct B as [B|B]; [exfalso; apply B; reflexivity|].
        cbn [append]. destruct t as [|x t]; [reflexivity|].
        cbn [startswith] in B |- *. rewrite andb_true_r in B. now rewrite B.
      - cbn [append startswith] in E |- *.
        destruct (Ascii.eqb "`" c2) eqn:C2; [|reflexivity].
        apply Ascii.eqb_eq in C2. subst c2. cbn [andb] in E |- *.
        destruct s as [|c3 s].
        + destruct B as [B|B]; [exfalso; apply B; reflexivity|].
          cbn [append]. destruct t as [|x t]; [reflexivity|].
          cbn [startswith] in B |- *. rewrite andb_true_r in B. now rewrite B.
        + cbn [append startswith] in E |- *.
          destruct (Ascii.eqb "`" c3); [discriminate|reflexivity]. }
    rewrite F, IH. now destruct (partition "```" t) as [[a b]|].
Qed.

(** The candidate of the code is that of the specification whenever the
    text between the tagged delimiter and the next tagged delimiter does
    not end in a backquote. *)
Lemma candidate_cut_agrees (t : string) :
  (forall rest, Fence.after "```json" t = Some rest ->
                Fence.last (Fence.up_to "```json" rest) <> Some Fence.backquote) ->
  Fence.candidate_cut t = Fence.candidate t.
Proof.
  intros H. unfold Fence.candidate_cut, Fence.candidate, Fence.between.
  destruct (contains "```json" t); [|reflexivity].
  destruct (Fence.after "```json" t) as [rest|] eqn:A; [|reflexivity].
  specialize (H rest eq_refl). unfold Fence.up_to in *.
  destruct (partition "```json" rest) as [[piece tail]|] eqn:P; [|reflexivity].
  pose proof (partition_split P) as ->.
  destruct (partition "```" piece) as [[a b]|] eqn:Q.
  - now rewrite (partition_extend _ _ _ _ _ Q).
  - rewrite (partition_seam _ _ Q (or_introl H)).
    change (partition "```" ("```json" ++ tail)) with (Some ("", "json" ++ tail)).
    cbv beta iota. symmetry. apply append_nil_r.
Qed.

End ExtractFacts.

(* ================================================================== *)
(** * The routes *)

Module RouteFacts.

Section Routes.

Variable json_loads : string -> outcome json.
Variables (float_str str_repr : string -> string).

(** [analyze_topic_with_gemini], step by step: the call is recorded, and
    an exception is raised again, after a line was printed if it derives
    from [Exception]. *)
Lemma analyze_topic_with_gemini_run topic E w :
  analyze_topic_with_gemini json_loads float_str str_repr topic E w
  = let p := prompt float_str str_repr topic in
    let failed e := (Raise e, reraised e (called p w)) in
    match generate_content E p with
    | Raise e => failed e
    | Return text =>
        match extract_json (Str.strip text) with
        | Raise e => failed e
        | Return c =>
            match json_loads c with
            | Return data => (Return data, called p w)
            | Raise e => failed e
            end
        end
    end.
Proof.
  unfold analyze_topic_with_gemini, try_except, bind, remote, lift, print,
    raise, reraised, logged, called.
  cbv zeta.
  destruct (generate_content E (prompt float_str str_repr topic)) as [text|e];
    [|destruct (is_exception e); reflexivity].
  destruct (extract_json (Str.strip text)) as [c|e];
    [|destruct (is_exception e); reflexivity].
  destruct (json_loads c) as [data|e];
    [reflexivity|destruct (is_exception e); reflexivity].
Qed.

(** What the handler itself raises derives from [Exception]. *)
Lemma get_json_exception req e : get_json req = Raise e -> is_exception e = true.
Proof. destruct req; simpl; intros H; [discriminate|]. now injection H as <-. Qed.

Lemma get_method_exception v k d e :
  get_method v k d = Raise e -> is_exception e = true.
Proof.
  destruct v; simpl; intros H; try (now injection H as <-).
  destruct (Dict.get k fields); discriminate.
Qed.

Lemma format_response_exception topic data E w e w' :
  format_response float_str str_repr topic data E w = (Raise e, w') ->
  is_exception e = true.
Proof.
  intros H. apply FormatFacts.format_response_raise in H.
  apply FormatFacts.raised_by_class in H.
  unfold is_exception. now destruct H as [-> | ->].
Qed.

(** [analyze_topic], step by step. *)
Lemma analyze_topic_run req E w :
  analyze_topic json_loads float_str str_repr req E w
  = match get_json req with
    | Raise e => (Return (error_response e), w)
    | Return data =>
        match get_method data "topic" (JStr "") with
        | Raise e => (Return (error_response e), w)
        | Return topic =>
            if negb (truthy float_str topic) then
              (Return (Response 400 (error_body "Topic is required")), w)
            else if env_missing (GEMINI_API_KEY E) then
              (Return (Response 500 (error_body "GEMINI_API_KEY not configured")), w)
            else
              match analyze_topic_with_gemini json_loads float_str str_repr topic E w with
              | (Raise e, w1) => handled e w1
              | (Return gemini_data, w1) =>
                  match format_response float_str str_repr topic gemini_data E w1 with
                  | (Raise e, w2) => (Return (error_response e), w2)
                  | (Return result, w2) => (Return (Response 200 result), w2)
                  end
              end
        end
    end.
Proof.
  unfold analyze_topic, try_except, handled, error_response.
  unfold bind at 1, lift at 1.
  destruct (get_json req) as [data|e] eqn:B.
  2:{ rewrite (get_json_exception _ _ B).
      unfold ret; destruct (is_decode_error e); reflexivity. }
  unfold bind at 1, lift at 1.
  destruct (get_method data "topic" (JStr "")) as [topic|e] eqn:T.
  2:{ rewrite (get_method_exception _ _ _ _ T).
      unfold ret; destruct (is_decode_error e); reflexivity. }
  destruct (negb (truthy float_str topic)); [reflexivity|].
  unfold bind at 1, environ_get_key at 1.
  destruct (env_missing (GEMINI_API_KEY E)); [reflexivity|].
  unfold bind at 1.
  destruct (analyze_topic_with_gemini json_loads float_str str_repr topic E w)
    as [[gemini_data|e] w1].
  2:{ destruct (is_exception e); [|reflexivity].
      unfold ret; destruct (is_decode_error e); reflexivity. }
  unfold bind at 1.
  destruct (format_response float_str str_repr topic gemini_data E w1)
    as [[result|e] w2] eqn:F; [reflexivity|].
  rewrite (format_response_exception _ _ _ _ _ _ F).
  unfold ret; destruct (is_decode_error e); reflexivity.
Qed.

(** An error response is neither of the two fixed answers. *)
Lemma error_response_other (e : exn) :
  error_response e <> Response 400 (error_body "Topic is required")
  /\ error_response e <> Response 500 (error_body "GEMINI_API_KEY not configured").
Proof.
  unfold error_response, error_body.
  split; destruct (is_decode_error e); simpl; intros H; discriminate H.
Qed.

Lemma error_response_other_failure (e : exn) :
  is_decode_error e = false ->
  error_response e = Response 500 (error_body ("Analysis failed: " ++ exn_str e)).
Proof. unfold error_response. now intros ->. Qed.

Lemma error_response_parse_failure (e : exn) :
  is_decode_error e = true ->
  error_response e
  = Response 500 (error_body ("Failed to parse AI response: " ++ exn_str e)).
Proof. unfold error_response. now intros ->. Qed.

(** A request with a topic and a key, answered by the remote model with a
    text that parses: the response is made from what [format_response]
    does with the parsed payload. *)
Lemma analyze_topic_formats req E w body topic text cand data :
  get_json req = Return body ->
  get_method body "topic" (JStr "") = Return topic ->
  truthy float_str topic = true ->
  env_missing (GEMINI_API_KEY E) = false ->
  generate_content E (prompt float_str str_repr topic) = Return text ->
  extract_json (Str.strip text) = Return cand ->
  json_loads cand = Return data ->
  analyze_topic json_loads float_str str_repr req E w
  = match format_response float_str str_repr topic data E
            (called (prompt float_str str_repr topic) w) with
    | (Raise e, w2) => (Return (error_response e), w2)
    | (Return result, w2) => (Return (Response 200 result), w2)
    end.
Proof.
  intros B T Tr K G X L.
  rewrite analyze_topic_run, B, T, Tr, K. cbn [negb].
  rewrite analyze_topic_with_gemini_run. cbv zeta. now rewrite G, X, L.
Qed.

End Routes.

End RouteFacts.

(* ================================================================== *)
(** * The decoder: what it reads does not depend on what follows *)

Module DecoderFacts.
Import Decoder Lex StrFacts.

(** [scanstring], one round at a time. *)
Lemma scanstring_step (begin s : string) :
  scanstring begin s
  = match string_step begin s with
    | Close r => Found "" r
    | Emit p r => prepend p (scanstring begin r)
    | Fail m a => Bad m a
    end.
Proof.
  destruct s as [|c s1]; [reflexivity|].
  cbn [scanstring string_step].
  destruct (Str.byte_is 34 c); [reflexivity|].
  destruct (Str.byte_is 92 c).
  2:{ destruct (nat_of_ascii c <=? 31)%nat; reflexivity. }
  destruct s1 as [|e s2]; [reflexivity|].
  destruct (Str.byte_is 117 e).
  2:{ destruct (escape e); reflexivity. }
  destruct s2 as [|h1 [|h2 [|h3 [|h4 [|x s6]]]]]; try reflexivity.
  destruct (hex4 h1 h2 h3 h4) as [uni|]; [|reflexivity].
  unfold look_ahead.
  destruct s6 as [|u [|g1 [|g2 [|g3 [|g4 [|y s12]]]]]]; try reflexivity.
  destruct (high_surrogate uni && Str.byte_is 92 x && Str.byte_is 117 u);
    [|reflexivity].
  destruct (hex4 g1 g2 g3 g4) as [uni2|]; [|reflexivity].
  destruct (low_surrogate uni2); reflexivity.
Qed.


Lemma byte_is_eq (n : nat) (c : ascii) :
  Str.byte_is n c = true -> nat_of_ascii c = n.
Proof. unfold Str.byte_is. apply Nat.eqb_eq. Qed.

Lemma byte_is_other (n m : nat) (c : ascii) :
  Str.byte_is n c = true -> n <> m -> Str.byte_is m c = false.
Proof.
  intros H N. apply byte_is_eq in H. unfold Str.byte_is.
  apply Nat.eqb_neq. congruence.
Qed.

Lemma byte_is_char (n : nat) (c : ascii) :
  Str.byte_is n c = true -> c = ascii_of_nat n.
Proof. intros H. apply byte_is_eq in H. subst n. now rewrite ascii_nat_embedding. Qed.

Lemma ends_app (p : ascii -> bool) (x a : string) : ends p a -> ends p (x ++ a).
Proof.
  intros (y & d & -> & H). exists (x ++ y), d. now rewrite append_assoc.
Qed.

Lemma ends_cons (p : ascii -> bool) (c : ascii) (a : string) :
  ends p a -> ends p (String c a).
Proof. apply (ends_app p (String c "")). Qed.

Lemma ends_nonempty (p : ascii -> bool) (a : string) : ends p a -> a <> "".
Proof. intros (y & d & -> & _). destruct y; discriminate. Qed.

Lemma ends_one (p : ascii -> bool) (d : ascii) : p d = true -> ends p (String d "").
Proof. intros H. now exists "", d. Qed.

Lemma ends_weaken (p q : ascii -> bool) (a : string) :
  (forall d, p d = true -> q d = true) -> ends p a -> ends q a.
Proof. intros W (y & d & -> & H). exists y, d. auto. Qed.

(** A pair found ahead is spelled by six characters, and is found again
    whatever follows them, as long as something does. *)
Lemma look_ahead_pair (uni j : N) (s s12 : string) :
  look_ahead uni s = Pair j s12 ->
  exists six,
    s = six ++ s12 /\ String.length six = 6 /\ s12 <> ""
    /\ forall x, x <> "" -> look_ahead uni (six ++ x) = Pair j x.
Proof.
  unfold look_ahead.
  destruct s as [|b [|u [|g1 [|g2 [|g3 [|g4 [|y s']]]]]]]; try discriminate.
  destruct (high_surrogate uni && Str.byte_is 92 b && Str.byte_is 117 u) eqn:C;
    [|discriminate].
  destruct (hex4 g1 g2 g3 g4) as [uni2|] eqn:X; [|discriminate].
  destruct (low_surrogate uni2) eqn:L; [|discriminate].
  intros H. injection H as <- <-.
  exists (String b (String u (String g1 (String g2 (String g3 (String g4 "")))))).
  repeat split; [discriminate|].
  intros x Nx. destruct x as [|y' x']; [congruence|].
  cbn [append]. now rewrite C, X, L.
Qed.

(** Nothing is found ahead unless a high surrogate is followed by a
    backslash and a [u]. *)
Lemma look_ahead_single1 (uni : N) (b : ascii) (x : string) :
  high_surrogate uni && Str.byte_is 92 b = false ->
  look_ahead uni (String b x) = Single.
Proof.
  intros C. unfold look_ahead.
  destruct x as [|u [|g1 [|g2 [|g3 [|g4 [|y s']]]]]]; try reflexivity.
  now rewrite C.
Qed.

Lemma look_ahead_single2 (uni : N) (b u : ascii) (x : string) :
  Str.byte_is 117 u = false ->
  look_ahead uni (String b (String u x)) = Single.
Proof.
  intros C. unfold look_ahead.
  destruct x as [|g1 [|g2 [|g3 [|g4 [|y s']]]]]; try reflexivity.
  now rewrite C, andb_false_r.
Qed.

(** What is found ahead of the tail of a string that ends properly does
    not depend on what follows that tail. *)
Lemma look_ahead_stable (uni : N) (a k r t : string) :
  a <> "" ->
  (forall b x, scanstring b (a ++ x) = Found k x) ->
  look_ahead uni (a ++ r) = Single -> look_ahead uni (a ++ t) = Single.
Proof.
  intros Na C.
  destruct a as [|b a]; [congruence|]. cbn [append].
  destruct (high_surrogate uni && Str.byte_is 92 b) eqn:C1.
  2:{ now rewrite !look_ahead_single1. }
  apply andb_true_iff in C1 as [_ B].
  specialize (C "" ""). rewrite append_nil_r, scanstring_step in C.
  cbn [string_step] in C.
  rewrite (byte_is_other _ 34 _ B), B in C by lia.
  destruct a as [|u a]; [discriminate|]. cbn [append].
  destruct (Str.byte_is 117 u) eqn:U.
  2:{ now rewrite !look_ahead_single2. }
  destruct a as [|g1 [|g2 [|g3 [|g4 [|y a]]]]]; try discriminate.
  clear C. cbn [append look_ahead].
  destruct (high_surrogate uni && Str.byte_is 92 b && Str.byte_is 117 u);
    [|reflexivity].
  destruct (hex4 g1 g2 g3 g4) as [uni2|]; [|discriminate].
  now destruct (low_surrogate uni2).
Qed.

(** A round that emits a piece consumes at least one character. *)
Lemma step_consumes (b s p r : string) :
  string_step b s = Emit p r -> String.length r < String.length s.
Proof.
  destruct s as [|c s1]; [discriminate|]. cbn [string_step].
  destruct (Str.byte_is 34 c); [discriminate|].
  destruct (Str.byte_is 92 c).
  2:{ destruct (nat_of_ascii c <=? 31)%nat; [discriminate|].
      intros H. injection H as <- <-. simpl. lia. }
  destruct s1 as [|e s2]; [discriminate|].
  destruct (Str.byte_is 117 e).
  2:{ destruct (escape e); [|discriminate].
      intros H. injection H as <- <-. simpl. lia. }
  destruct s2 as [|h1 [|h2 [|h3 [|h4 [|x s6]]]]]; try discriminate.
  destruct (hex4 h1 h2 h3 h4) as [uni|]; [|discriminate].
  destruct (look_ahead uni (String x s6)) as [j s12| |] eqn:LA; try discriminate.
  - intros H. injection H as <- <-.
    apply look_ahead_pair in LA as (six & E & L & _).
    apply (f_equal String.length) in E. rewrite length_append in E.
    simpl in *. lia.
  - intros H. injection H as <- <-. simpl. lia.
Qed.

(** A round that emits a piece does so whatever follows the tail of the
    string. *)
Lemma step_stable (b s p a k r : string) :
  string_step b s = Emit p (a ++ r) ->
  a <> "" ->
  (forall b' x, scanstring b' (a ++ x) = Found k x) ->
  exists a0,
    s = a0 ++ a ++ r
    /\ forall b' t, string_step b' (a0 ++ a ++ t) = Emit p (a ++ t).
Proof.
  intros H Na C.
  destruct s as [|c s1]; [discriminate|]. cbn [string_step] in H.
  destruct (Str.byte_is 34 c) eqn:Q; [discriminate|].
  destruct (Str.byte_is 92 c) eqn:B.
  2:{ destruct (nat_of_ascii c <=? 31)%nat eqn:Ctl; [discriminate|].
      injection H as <- <-. exists (String c ""). split; [reflexivity|].
      intros b' t. cbn [append string_step]. now rewrite Q, B, Ctl. }
  destruct s1 as [|e s2]; [discriminate|].
  destruct (Str.byte_is 117 e) eqn:U.
  2:{ destruct (escape e) as [x|] eqn:X; [|discriminate].
      injection H as <- <-. exists (String c (String e "")). split; [reflexivity|].
      intros b' t. cbn [append string_step]. now rewrite Q, B, U, X. }
  destruct s2 as [|h1 [|h2 [|h3 [|h4 [|x s6]]]]]; try discriminate.
  destruct (hex4 h1 h2 h3 h4) as [uni|] eqn:HX; [|discriminate].
  destruct (look_ahead uni (String x s6)) as [j s12| |] eqn:LA; try discriminate.
  - injection H as <- ->.
    apply look_ahead_pair in LA as (six & E & L & _ & Again).
    exists (String c (String e (String h1 (String h2 (String h3 (String h4 six)))))).
    split; [cbn [append]; now rewrite E|].
    intros b' t. cbn [append string_step]. rewrite Q, B, U.
    assert (Nt : a ++ t <> "") by (destruct a; [congruence|discriminate]).
    specialize (Again (a ++ t) Nt).
    destruct (six ++ a ++ t) as [|x' s6'] eqn:E6.
    { destruct six; [discriminate L|discriminate E6]. }
    now rewrite HX, Again.
  - injection H as <- E.
    exists (String c (String e (String h1 (String h2 (String h3 (String h4 "")))))).
    split; [cbn [append]; now rewrite E|].
    intros b' t. cbn [append string_step]. rewrite Q, B, U.
    rewrite E in LA. apply (look_ahead_stable uni a k r t Na C) in LA.
    destruct (a ++ t) as [|x' s6'] eqn:E6.
    { destruct a; [congruence|discriminate E6]. }
    now rewrite HX, LA.
Qed.

(** [scanstring] reads up to the closing quote, and reads the same
    whatever follows it. *)
Lemma scanstring_local : forall n s, String.length s <= n ->
  forall b k r, scanstring b s = Found k r ->
  exists a,
    s = a ++ r /\ ends (Str.byte_is 34) a
    /\ forall b' t, scanstring b' (a ++ t) = Found k t.
Proof.
  induction n as [|n IH]; intros s Ls b k r H.
  - destruct s; [discriminate H|simpl in Ls; lia].
  - rewrite scanstring_step in H.
    destruct (string_step b s) as [r0|p r1|m x] eqn:ST; [| |discriminate].
    + injection H as <- <-.
      destruct s as [|c s1]; [discriminate|]. cbn [string_step] in ST.
      destruct (Str.byte_is 34 c) eqn:Q.
      * injection ST as <-. exists (String c ""). repeat split.
        -- now apply ends_one.
        -- intros b' t. rewrite scanstring_step. cbn [append string_step].
           now rewrite Q.
      * exfalso. revert ST.
        destruct (Str.byte_is 92 c).
        2:{ destruct (nat_of_ascii c <=? 31)%nat; discriminate. }
        destruct s1 as [|e s2]; [discriminate|].
        destruct (Str.byte_is 117 e).
        2:{ destruct (escape e); discriminate. }
        destruct s2 as [|h1 [|h2 [|h3 [|h4 [|x s6]]]]]; try discriminate.
        destruct (hex4 h1 h2 h3 h4) as [uni|]; [|discriminate].
        destruct (look_ahead uni (String x s6)); discriminate.
    + destruct (scanstring b r1) as [k1 r'| | |] eqn:R1; try discriminate.
      cbn in H. injection H as <- <-.
      pose proof (step_consumes _ _ _ _ ST) as Lr.
      destruct (IH r1 ltac:(lia) b k1 r' R1) as (a1 & -> & E1 & C1).
      destruct (step_stable _ _ _ _ _ _ ST (ends_nonempty _ _ E1) C1)
        as (a0 & -> & Again).
      exists (a0 ++ a1). rewrite append_assoc. repeat split.
      * now apply ends_app.
      * intros b' t. rewrite append_assoc, scanstring_step, Again, C1.
        reflexivity.
Qed.


(** ** Numbers *)

Lemma follow_parts (t : string) :
  follow t = true ->
  head_not digit t = true /\ head_not (Str.byte_is 46) t = true
  /\ head_not exp_mark t = true.
Proof.
  unfold follow, head_not, numchar, exp_mark. destruct t as [|c t]; [auto|].
  intros H. apply negb_true_iff in H.
  apply orb_false_elim in H as [H E2]. apply orb_false_elim in H as [H E1].
  apply orb_false_elim in H as [D P]. now rewrite D, P, E1, E2.
Qed.

Lemma digits_spec : forall s d r,
  digits s = (d, r) ->
  s = d ++ r /\ numeral d = true /\ head_not digit r = true.
Proof.
  induction s as [|c s IH]; intros d r H; cbn [digits] in H.
  - injection H as <- <-. auto.
  - destruct (digit c) eqn:D.
    + destruct (digits s) as [d' r'] eqn:E. injection H as <- <-.
      destruct (IH _ _ eq_refl) as (-> & N & F).
      cbn [append numeral]. now rewrite D, N.
    + injection H as <- <-. cbn [append numeral head_not]. now rewrite D.
Qed.

Lemma digits_local : forall d t,
  numeral d = true -> head_not digit t = true -> digits (d ++ t) = (d, t).
Proof.
  induction d as [|c d IH]; intros t N F.
  - destruct t as [|x t]; [reflexivity|]. unfold head_not in F.
    apply negb_true_iff in F. cbn [append digits]. now rewrite F.
  - cbn [numeral] in N. apply andb_true_iff in N as [D N].
    cbn [append digits]. now rewrite D, (IH t N F).
Qed.

Lemma numeral_ends (d : string) :
  numeral d = true -> d <> "" -> ends digit d.
Proof.
  induction d as [|c d IH]; intros N Nd; [congruence|].
  cbn [numeral] in N. apply andb_true_iff in N as [D N].
  destruct d as [|c' d].
  - now apply ends_one.
  - apply (ends_app digit (String c "")). apply IH; [exact N|discriminate].
Qed.

Ltac empty_part none :=
  let H := fresh in
  let t := fresh in
  let F := fresh in
  intros H; injection H as <- <-;
  split; [reflexivity|split; [now left|intros t _ F; apply none; now apply F]].

Lemma fraction_local (s f r : string) :
  fraction s = (f, r) -> part_local fraction (Str.byte_is 46) s f r.
Proof.
  assert (none : forall t, head_not (Str.byte_is 46) t = true ->
                           fraction t = ("", t)).
  { intros [|c t] F; [reflexivity|]. unfold head_not in F.
    apply negb_true_iff in F. cbn [fraction]. now rewrite F. }
  unfold fraction, part_local. destruct s as [|c s].
  { empty_part none. }
  destruct (Str.byte_is 46 c) eqn:P.
  2:{ empty_part none. }
  destruct (digits s) as [d r'] eqn:D.
  destruct (digits_spec _ _ _ D) as (-> & N & F).
  destruct d as [|x d].
  { empty_part none. }
  intros H. injection H as <- <-. repeat split.
  - right. split.
    + apply (ends_app digit (String c "")). apply numeral_ends; [exact N|discriminate].
    + cbn [append head_not]. now rewrite P.
  - intros t Ft _. cbn [append]. rewrite P.
    change (String x (d ++ t)) with (String x d ++ t).
    now rewrite (digits_local _ _ N Ft).
Qed.

Lemma exponent_local (s e r : string) :
  exponent s = (e, r) -> part_local exponent exp_mark s e r.
Proof.
  assert (none : forall t, head_not exp_mark t = true -> exponent t = ("", t)).
  { intros [|c t] F; [reflexivity|]. unfold head_not, exp_mark in F.
    apply negb_true_iff in F. cbn [exponent]. now rewrite F. }
  unfold exponent, part_local. destruct s as [|c s].
  { empty_part none. }
  destruct (Str.byte_is 101 c || Str.byte_is 69 c) eqn:P.
  2:{ empty_part none. }
  assert (Hc : forall x, head_not exp_mark (String c x) = false).
  { intros x. unfold head_not, exp_mark. now rewrite P. }
  destruct s as [|g s].
  { empty_part none. }
  destruct (Str.byte_is 43 g || Str.byte_is 45 g) eqn:G.
  - destruct (digits s) as [d r'] eqn:D.
    destruct (digits_spec _ _ _ D) as (-> & N & F).
    destruct d as [|x d].
    { empty_part none. }
    intros H. injection H as <- <-. repeat split.
    + right. split; [|apply Hc].
      apply (ends_app digit (String c (String g ""))).
      apply numeral_ends; [exact N|discriminate].
    + intros t Ft _. cbn [append]. rewrite P, G.
      change (String x (d ++ t)) with (String x d ++ t).
      now rewrite (digits_local _ _ N Ft).
  - destruct (digits (String g s)) as [d r'] eqn:D.
    destruct (digits_spec _ _ _ D) as (E & N & F).
    destruct d as [|x d].
    { empty_part none. }
    simpl in E. injection E as <- ->.
    intros H. injection H as <- <-. repeat split.
    + right. split; [|apply Hc].
      apply (ends_app digit (String c "")).
      apply numeral_ends; [exact N|discriminate].
    + intros t Ft _. cbn [append]. rewrite P, G.
      change (String g (d ++ t)) with (String g d ++ t).
      now rewrite (digits_local _ _ N Ft).
Qed.


Lemma head_not_app (p : ascii -> bool) (f x : string) :
  f <> "" -> head_not p (f ++ x) = head_not p f.
Proof. destruct f; [congruence|reflexivity]. Qed.

Lemma opening_not_digit (f : string) :
  head_not (Str.byte_is 46) f = false \/ head_not exp_mark f = false ->
  head_not digit f = true /\ f <> "".
Proof.
  destruct f as [|c f]; [intros [H|H]; discriminate H|].
  unfold head_not, exp_mark. intros H. split; [|discriminate].
  apply negb_true_iff.
  destruct H as [H|H]; apply negb_false_iff in H.
  - apply byte_is_char in H. now subst c.
  - apply orb_true_iff in H as [H|H]; apply byte_is_char in H; now subst c.
Qed.

Lemma mark_not_dot (e : string) :
  head_not exp_mark e = false -> head_not (Str.byte_is 46) e = true.
Proof.
  destruct e as [|c e]; [discriminate|]. unfold head_not, exp_mark. intros H.
  apply negb_false_iff in H. apply negb_true_iff.
  apply orb_true_iff in H as [H|H]; apply byte_is_char in H; now subst c.
Qed.

(** The integer part: sign and digits head the text, the digits end with
    a digit, and they are read again before a text that does not start
    with a digit. *)
Lemma integer_local (s d r : string) (neg : bool) :
  integer s = Some (neg, d, r) ->
  let sign := if neg then "-" else "" in
  s = sign ++ d ++ r
  /\ ends digit d
  /\ forall t, head_not digit t = true -> integer (sign ++ d ++ t) = Some (neg, d, t).
Proof.
  assert (body : forall (neg : bool) s0 d r,
             match s0 with
             | String c s' =>
                 if Str.byte_is 48 c then Some (neg, String c "", s')
                 else if digit c then let (d, r) := digits s0 in Some (neg, d, r)
                      else None
             | "" => None
             end = Some (neg, d, r) ->
             s0 = d ++ r /\ ends digit d
             /\ forall t, head_not digit t = true ->
                  match d ++ t with
                  | String c s' =>
                      if Str.byte_is 48 c then Some (neg, String c "", s')
                      else if digit c then let (d, r) := digits (d ++ t) in Some (neg, d, r)
                           else None
                  | "" => None
                  end = Some (neg, d, t)).
  { clear. intros neg s0 d r H. destruct s0 as [|c s']; [discriminate|].
    destruct (Str.byte_is 48 c) eqn:Z.
    - injection H as <- <-. repeat split.
      + apply ends_one. apply byte_is_char in Z. now subst c.
      + intros t _. cbn [append]. now rewrite Z.
    - destruct (digit c) eqn:D; [|discriminate].
      destruct (digits (String c s')) as [d' r'] eqn:E. injection H as <- <-.
      destruct (digits_spec _ _ _ E) as (Es & N & F).
      destruct d' as [|x d'].
      { cbn [digits] in E. rewrite D in E. destruct (digits s'); discriminate. }
      cbn [append] in Es. injection Es as <- ->. repeat split.
      + apply numeral_ends; [exact N|discriminate].
      + intros t Ft. cbn [append]. rewrite Z, D.
        change (String c (d' ++ t)) with (String c d' ++ t).
        now rewrite (digits_local _ _ N Ft). }
  unfold integer. destruct s as [|c s'].
  { discriminate. }
  destruct (Str.byte_is 45 c) eqn:M.
  - intros H. destruct neg.
    2:{ destruct s' as [|c' s'']; [discriminate|].
        destruct (Str.byte_is 48 c'); [discriminate|].
        destruct (digit c'); [|discriminate].
        destruct (digits (String c' s'')); discriminate. }
    apply body in H as (-> & E & L). apply byte_is_char in M. subst c.
    repeat split; [exact E|].
    intros t Ft. cbn [append]. change (Str.byte_is 45 "-") with true. cbv iota.
    now apply L.
  - intros H. destruct neg.
    { destruct (Str.byte_is 48 c); [discriminate|].
      destruct (digit c); [|discriminate].
      destruct (digits (String c s')); discriminate. }
    pose proof (body false (String c s') d r H) as (E0 & E & L).
    repeat split; [exact E0|exact E|].
    intros t Ft. cbn [append]. specialize (L t Ft).
    destruct d as [|x d]; [now apply ends_nonempty in E|].
    cbn [append] in E0. injection E0 as <- _.
    cbn [append] in L |- *. now rewrite M.
Qed.

(** A number ends with a digit and is read again before any text that
    cannot continue it. *)
Lemma match_number_local (s r : string) (v : json) :
  match_number s = Found v r ->
  exists a,
    s = a ++ r /\ ends digit a
    /\ forall t, follow t = true -> match_number (a ++ t) = Found v t.
Proof.
  unfold match_number.
  destruct (integer s) as [[[neg d] r0]|] eqn:I; [|discriminate].
  destruct (fraction r0) as [f r1] eqn:Fr.
  destruct (exponent r1) as [e r2] eqn:Ex.
  apply integer_local in I as (-> & Ed & Li).
  apply fraction_local in Fr as (-> & Sf & Lf).
  apply exponent_local in Ex as (-> & Se & Le).
  intros H.
  assert (Hr : r2 = r) by (destruct f, e; now injection H).
  subst r2.
  set (sign := if neg then "-" else "") in *.
  exists (sign ++ d ++ f ++ e).
  assert (Hd : forall t, follow t = true -> head_not digit (e ++ t) = true
                                            /\ head_not digit (f ++ e ++ t) = true
                                            /\ (f = "" -> head_not (Str.byte_is 46) (e ++ t) = true)).
  { intros t Ft. apply follow_parts in Ft as (F1 & F2 & F3).
    assert (He : head_not digit (e ++ t) = true
                 /\ head_not (Str.byte_is 46) (e ++ t) = true).
    { destruct Se as [->|[_ O]]; [now split|].
      destruct (opening_not_digit e (or_intror O)) as [D Ne].
      rewrite !(head_not_app _ e t Ne). split; [exact D|now apply mark_not_dot]. }
    destruct He as [He1 He2]. repeat split; [exact He1| |now intros _].
    destruct Sf as [->|[_ O]]; [exact He1|].
    destruct (opening_not_digit f (or_introl O)) as [D Nf].
    now rewrite (head_not_app _ f _ Nf). }
  repeat split.
  - now rewrite !append_assoc.
  - destruct Se as [->|[Ee _]].
    + rewrite append_nil_r. destruct Sf as [->|[Ef _]].
      * rewrite append_nil_r. now apply ends_app.
      * now do 2 apply ends_app.
    + now do 3 apply ends_app.
  - intros t Ft. destruct (Hd t Ft) as (D1 & D2 & D3).
    pose proof Ft as Ft'. apply follow_parts in Ft' as (F1 & F2 & F3).
    rewrite !append_assoc. rewrite (Li _ D2), (Lf _ D1 D3), (Le _ F1 (fun _ => F3)).
    destruct f, e; injection H as <-; reflexivity.
Qed.


Lemma digit_plain (c : ascii) : digit c = true -> plain c = true.
Proof.
  unfold digit, plain. intros H. apply andb_true_iff in H as [L U].
  apply Nat.leb_le in L, U. apply andb_true_iff.
  split; apply Nat.leb_le; lia.
Qed.

(** A number starts like none of the constants. *)
Lemma integer_not_literal (x : string) (y : bool * string * string) :
  integer x = Some y ->
  Str.startswith "null" x = false /\ Str.startswith "true" x = false
  /\ Str.startswith "false" x = false /\ Str.startswith "NaN" x = false
  /\ Str.startswith "Infinity" x = false /\ Str.startswith "-Infinity" x = false.
Proof.
  assert (other : forall l c, digit c = true -> digit l = false ->
                              Ascii.eqb l c = false).
  { intros l c D L. destruct (Ascii.eqb l c) eqn:X; [|reflexivity].
    apply Ascii.eqb_eq in X. congruence. }
  assert (head : forall (neg : bool) c s',
             (if Str.byte_is 48 c then Some (neg, String c "", s')
              else if digit c then let (d, r) := digits (String c s') in Some (neg, d, r)
                   else None) = Some y -> digit c = true).
  { intros neg c s'. destruct (Str.byte_is 48 c) eqn:Z.
    - intros _. apply byte_is_char in Z. now subst c.
    - destruct (digit c); [reflexivity|discriminate]. }
  unfold integer. destruct x as [|c x']; [discriminate|].
  destruct (Str.byte_is 45 c) eqn:M.
  - destruct x' as [|c' x'']; [discriminate|]. intros H. apply head in H.
    apply byte_is_char in M. subst c. cbn [Str.startswith].
    rewrite (other "I"%char c' H eq_refl). repeat split.
  - intros H. apply head in H. cbn [Str.startswith].
    rewrite (other "n"%char c H eq_refl), (other "t"%char c H eq_refl),
      (other "f"%char c H eq_refl), (other "N"%char c H eq_refl),
      (other "I"%char c H eq_refl), (other "-"%char c H eq_refl).
    repeat split.
Qed.

(** A constant or a number ends with a plain character and is read again
    before any text that cannot continue a number. *)
Lemma scan_atom_local (s r : string) (v : json) :
  scan_atom s = Found v r ->
  exists a,
    s = a ++ r /\ ends plain a
    /\ forall t, follow t = true -> scan_atom (a ++ t) = Found v t.
Proof.
  unfold scan_atom.
  destruct (Str.startswith "null" s) eqn:E1.
  { intros H. injection H as <- <-. exists "null". split; [now apply startswith_split|].
    split; [exists "nul", "l"%char; now split|reflexivity]. }
  destruct (Str.startswith "true" s) eqn:E2.
  { intros H. injection H as <- <-. exists "true". split; [now apply startswith_split|].
    split; [exists "tru", "e"%char; now split|reflexivity]. }
  destruct (Str.startswith "false" s) eqn:E3.
  { intros H. injection H as <- <-. exists "false". split; [now apply startswith_split|].
    split; [exists "fals", "e"%char; now split|reflexivity]. }
  destruct (Str.startswith "NaN" s) eqn:E4.
  { intros H. injection H as <- <-. exists "NaN". split; [now apply startswith_split|].
    split; [exists "Na", "N"%char; now split|reflexivity]. }
  destruct (Str.startswith "Infinity" s) eqn:E5.
  { intros H. injection H as <- <-. exists "Infinity".
    split; [now apply startswith_split|].
    split; [exists "Infinit", "y"%char; now split|reflexivity]. }
  destruct (Str.startswith "-Infinity" s) eqn:E6.
  { intros H. injection H as <- <-. exists "-Infinity".
    split; [now apply startswith_split|].
    split; [exists "-Infinit", "y"%char; now split|reflexivity]. }
  intros H. apply match_number_local in H as (a & -> & E & L).
  exists a. split; [reflexivity|]. split.
  { eapply ends_weaken; [apply digit_plain|exact E]. }
  intros t Ft. specialize (L t Ft).
  assert (I : exists y, integer (a ++ t) = Some y).
  { unfold match_number in L. destruct (integer (a ++ t)); [eauto|discriminate]. }
  destruct I as [y I].
  destruct (integer_not_literal _ _ I) as (-> & -> & -> & -> & -> & ->).
  exact L.
Qed.

(** ** Whitespace *)

Lemma ws_not_numchar (c : ascii) : ws c = true -> numchar c = false.
Proof.
  unfold ws. intros H.
  repeat (apply orb_true_iff in H as [H|H]); apply byte_is_char in H; now subst c.
Qed.

Lemma skip_ws_blank (w x : string) : blank w = true -> skip_ws (w ++ x) = skip_ws x.
Proof.
  induction w as [|c w IH]; [reflexivity|]. cbn [blank]. intros H.
  apply andb_true_iff in H as [W B]. cbn [append skip_ws]. now rewrite W, IH.
Qed.

(** Whitespace is skipped up to a character that is none, whatever
    follows that character. *)
Lemma skip_ws_frame (s r : string) (c : ascii) :
  skip_ws s = String c r ->
  exists w,
    s = w ++ String c r /\ blank w = true /\ ws c = false
    /\ forall y, skip_ws (w ++ String c y) = String c y.
Proof.
  induction s as [|x s IH]; [discriminate|]. cbn [skip_ws].
  destruct (ws x) eqn:W.
  - intros H. destruct (IH H) as (w & -> & B & Wc & F).
    exists (String x w). cbn [append blank skip_ws]. rewrite W, B.
    repeat split; [exact Wc|]. intros y. apply F.
  - intros H. injection H as <- <-. exists "". cbn [append blank skip_ws].
    rewrite W. repeat split.
Qed.

Lemma skip_ws_none (s : string) : skip_ws s = "" -> blank s = true.
Proof.
  induction s as [|x s IH]; [reflexivity|]. cbn [skip_ws blank].
  destruct (ws x); [intros H; now rewrite IH|discriminate].
Qed.

Lemma follow_frame (w y : string) (c : ascii) :
  blank w = true -> numchar c = false -> follow (w ++ String c y) = true.
Proof.
  destruct w as [|x w]; cbn [append blank]; unfold follow, head_not.
  - intros _ ->. reflexivity.
  - intros H _. apply andb_true_iff in H as [W _].
    now rewrite (ws_not_numchar _ W).
Qed.

(** ** Values *)

Ltac norm := repeat (rewrite !append_assoc || cbn [append]).

Ltac len :=
  repeat match goal with H : ends _ _ |- _ => apply ends_nonempty in H end;
  repeat (progress (cbn [String.length] in *) || rewrite length_append in *);
  lia.

Ltac ends_tac :=
  repeat match goal with
         | |- ends _ (String _ (_ ++ _)) => apply ends_cons
         | |- ends _ (String _ (String _ _)) => apply ends_cons
         | |- ends _ (_ ++ _) => apply ends_app
         end.

Ltac literal_fact H :=
  let H' := fresh in
  pose proof H as H'; apply byte_is_char in H'; rewrite H'; reflexivity.

Lemma scan_once_local (n : nat) :
  items_local array_items 93 n -> items_local object_items 125 n ->
  scan_local (S n).
Proof.
  intros IHarr IHobj s v r H. cbn [scan_once] in H.
  destruct s as [|c s1]; [discriminate|].
  destruct (Str.byte_is 34 c) eqn:Q.
  { destruct (scanstring (String c s1) s1) as [k r'| | |] eqn:K; try discriminate.
    cbn in H. injection H as <- <-.
    destruct (scanstring_local _ s1 (le_n _) _ _ _ K) as (a' & -> & E & C).
    exists (String c a'). split; [reflexivity|]. split.
    { apply (ends_app plain (String c "")). eapply ends_weaken; [|exact E].
      intros d0 Hd. literal_fact Hd. }
    intros t m Ft Lm. destruct m as [|m]; [len|].
    cbn [append scan_once]. now rewrite Q, C. }
  destruct (Str.byte_is 123 c) eqn:O.
  { destruct (skip_ws s1) as [|c' s2] eqn:SK.
    { destruct n; discriminate. }
    destruct (skip_ws_frame _ _ _ SK) as (w & -> & B & Wc & F).
    destruct (Str.byte_is 125 c') eqn:CL.
    - injection H as <- <-. exists (String c (w ++ String c' "")).
      split; [now norm|]. split.
      { ends_tac. apply ends_one. literal_fact CL. }
      intros t m _ Lm. destruct m as [|m]; [len|].
      norm. cbn [scan_once]. now rewrite Q, O, F, CL.
    - destruct (object_items n (String c' s2)) as [d r'| | |] eqn:It;
        try discriminate.
      cbn in H. injection H as <- <-.
      destruct (IHobj _ _ _ It) as (a' & Ea & E & C).
      destruct a' as [|x a']; [now apply ends_nonempty in E|].
      cbn [append] in Ea, C. injection Ea as <- ->.
      exists (String c (w ++ String c' a')). split; [now norm|]. split.
      { ends_tac. eapply ends_weaken; [|exact E].
        intros d0 Hd. literal_fact Hd. }
      intros t m _ Lm. destruct m as [|m]; [len|].
      norm. cbn [scan_once]. rewrite Q, O, F, CL, C; [reflexivity|len]. }
  destruct (Str.byte_is 91 c) eqn:A.
  { destruct (skip_ws s1) as [|c' s2] eqn:SK.
    { destruct n as [|[|n]]; discriminate. }
    destruct (skip_ws_frame _ _ _ SK) as (w & -> & B & Wc & F).
    destruct (Str.byte_is 93 c') eqn:CL.
    - injection H as <- <-. exists (String c (w ++ String c' "")).
      split; [now norm|]. split.
      { ends_tac. apply ends_one. literal_fact CL. }
      intros t m _ Lm. destruct m as [|m]; [len|].
      norm. cbn [scan_once]. now rewrite Q, O, A, F, CL.
    - destruct (array_items n (String c' s2)) as [d r'| | |] eqn:It;
        try discriminate.
      cbn in H. injection H as <- <-.
      destruct (IHarr _ _ _ It) as (a' & Ea & E & C).
      destruct a' as [|x a']; [now apply ends_nonempty in E|].
      cbn [append] in Ea, C. injection Ea as <- ->.
      exists (String c (w ++ String c' a')). split; [now norm|]. split.
      { ends_tac. eapply ends_weaken; [|exact E].
        intros d0 Hd. literal_fact Hd. }
      intros t m _ Lm. destruct m as [|m]; [len|].
      norm. cbn [scan_once]. rewrite Q, O, A, F, CL, C; [reflexivity|len]. }
  apply scan_atom_local in H as (a & Ea & E & L).
  destruct a as [|x a]; [now apply ends_nonempty in E|].
  cbn [append] in Ea. injection Ea as <- ->.
  exists (String c a). split; [reflexivity|]. split; [exact E|].
  intros t m Ft Lm. destruct m as [|m]; [len|].
  cbn [append scan_once]. rewrite Q, O, A. now apply L.
Qed.

Lemma array_items_local (n : nat) :
  scan_local n -> items_local array_items 93 n ->
  items_local array_items 93 (S n).
Proof.
  intros IHscan IHarr s l r H. cbn [array_items] in H.
  destruct (scan_once n s) as [v r1| | |] eqn:V; try discriminate.
  destruct (IHscan _ _ _ V) as (a1 & -> & E1 & C1).
  destruct (skip_ws r1) as [|c r'] eqn:SK; [discriminate|].
  destruct (skip_ws_frame _ _ _ SK) as (w & -> & B & Wc & F).
  destruct (Str.byte_is 93 c) eqn:CL.
  - injection H as <- <-.
    assert (Nc : numchar c = false) by literal_fact CL.
    exists (a1 ++ w ++ String c ""). split; [now norm|]. split.
    { ends_tac. apply ends_one. exact CL. }
    intros t m Lm. destruct m as [|m]; [len|].
    norm. cbn [array_items].
    rewrite C1; [|now apply follow_frame|len]. now rewrite F, CL.
  - destruct (Str.byte_is 44 c) eqn:CM; [|discriminate].
    assert (Nc : numchar c = false) by literal_fact CM.
    destruct (array_items n (skip_ws r')) as [l' r2| | |] eqn:It; try discriminate.
    cbn in H. injection H as <- <-.
    destruct (IHarr _ _ _ It) as (a2 & Ea & E2 & C2).
    destruct a2 as [|x a2]; [now apply ends_nonempty in E2|].
    cbn [append] in Ea, C2.
    destruct (skip_ws_frame _ _ _ Ea) as (w2 & -> & B2 & Wx & F2).
    exists (a1 ++ w ++ String c (w2 ++ String x a2)). split; [now norm|]. split.
    { ends_tac. exact E2. }
    intros t m Lm. destruct m as [|m]; [len|].
    norm. cbn [array_items].
    rewrite C1; [|now apply follow_frame|len].
    rewrite F, CL, CM, F2, C2; [reflexivity|len].
Qed.

Lemma object_items_local (n : nat) :
  scan_local n -> items_local object_items 125 n ->
  items_local object_items 125 (S n).
Proof.
  intros IHscan IHobj s l r H. cbn [object_items] in H.
  destruct s as [|c s1]; [discriminate|].
  destruct (Str.byte_is 34 c) eqn:Q; [|discriminate].
  destruct (scanstring (String c s1) s1) as [k r0| | |] eqn:K; try discriminate.
  destruct (scanstring_local _ s1 (le_n _) _ _ _ K) as (ak & -> & Ek & Ck).
  destruct (skip_ws r0) as [|c1 r1] eqn:SK1; [discriminate|].
  destruct (skip_ws_frame _ _ _ SK1) as (w1 & -> & B1 & W1 & F1).
  destruct (Str.byte_is 58 c1) eqn:CO; [|discriminate].
  destruct (scan_once n (skip_ws r1)) as [v r2| | |] eqn:V; try discriminate.
  destruct (IHscan _ _ _ V) as (av & Ev & Eav & Cv).
  destruct av as [|x av]; [now apply ends_nonempty in Eav|].
  cbn [append] in Ev, Cv.
  destruct (skip_ws_frame _ _ _ Ev) as (w2 & -> & B2 & Wx & F2).
  destruct (skip_ws r2) as [|c2 r3] eqn:SK2; [discriminate|].
  destruct (skip_ws_frame _ _ _ SK2) as (w3 & -> & B3 & W3 & F3).
  destruct (Str.byte_is 125 c2) eqn:CL.
  - injection H as <- <-.
    assert (Nc : numchar c2 = false) by literal_fact CL.
    exists (String c (ak ++ w1 ++ String c1 (w2 ++ String x (av ++ w3 ++ String c2 "")))).
    split; [now norm|]. split.
    { ends_tac. apply ends_one. exact CL. }
    intros t m Lm. destruct m as [|m]; [len|].
    norm. cbn [object_items]. rewrite Q, Ck, F1, CO, F2.
    rewrite Cv; [|now apply follow_frame|len]. now rewrite F3, CL.
  - destruct (Str.byte_is 44 c2) eqn:CM; [|discriminate].
    assert (Nc : numchar c2 = false) by literal_fact CM.
    destruct (object_items n (skip_ws r3)) as [l' r4| | |] eqn:It; try discriminate.
    cbn in H. injection H as <- <-.
    destruct (IHobj _ _ _ It) as (a4 & Ea & E4 & C4).
    destruct a4 as [|y a4]; [now apply ends_nonempty in E4|].
    cbn [append] in Ea, C4.
    destruct (skip_ws_frame _ _ _ Ea) as (w4 & -> & B4 & Wy & F4).
    exists (String c (ak ++ w1 ++ String c1 (w2 ++ String x
              (av ++ w3 ++ String c2 (w4 ++ String y a4))))).
    split; [now norm|]. split.
    { ends_tac. exact E4. }
    intros t m Lm. destruct m as [|m]; [len|].
    norm. cbn [object_items]. rewrite Q, Ck, F1, CO, F2.
    rewrite Cv; [|now apply follow_frame|len].
    rewrite F3, CL, CM, F4, C4; [reflexivity|len].
Qed.

Lemma decoder_local (n : nat) :
  scan_local n /\ items_local array_items 93 n /\ items_local object_items 125 n.
Proof.
  induction n as [|n (IHs & IHa & IHo)].
  - repeat split; intros s v r H; discriminate H.
  - repeat split.
    + now apply scan_once_local.
    + now apply array_items_local.
    + now apply object_items_local.
Qed.


(** ** Stripping a document *)

Import StripFacts.

Lemma plain_bounds (c : ascii) :
  plain c = true -> 33 <= nat_of_ascii c /\ nat_of_ascii c <= 126.
Proof.
  unfold plain. intros H. apply andb_true_iff in H as [L U].
  apply Nat.leb_le in L, U. now split.
Qed.

Lemma plain_not (c : ascii) (n : nat) :
  plain c = true -> n < 33 \/ 126 < n -> Str.byte_is n c = false.
Proof.
  intros P N. apply plain_bounds in P. unfold Str.byte_is.
  apply Nat.eqb_neq. lia.
Qed.

Lemma plain_out (c : ascii) (lo hi : nat) :
  plain c = true -> hi < 33 \/ 126 < lo -> Str.byte_in lo hi c = false.
Proof.
  intros P N. apply plain_bounds in P. unfold Str.byte_in.
  apply andb_false_iff. rewrite !Nat.leb_gt. lia.
Qed.

Lemma plain_space1 (c : ascii) : plain c = true -> Str.space1 c = false.
Proof.
  intros P. unfold Str.space1.
  now rewrite !(plain_out c _ _ P) by lia.
Qed.

Lemma plain_space2_lead (c x : ascii) : plain c = true -> Str.space2 c x = false.
Proof.
  intros P. unfold Str.space2.
  now rewrite (plain_not c 194 P), andb_false_r by lia.
Qed.

Lemma plain_space2_last (c x : ascii) : plain c = true -> Str.space2 x c = false.
Proof.
  intros P. unfold Str.space2.
  now rewrite (plain_not c 133 P), (plain_not c 160 P) by lia.
Qed.

Lemma plain_space3_lead (c x y : ascii) : plain c = true -> Str.space3 c x y = false.
Proof.
  intros P. unfold Str.space3.
  now rewrite (plain_not c 225 P), (plain_not c 226 P), (plain_not c 227 P),
    !andb_false_r by lia.
Qed.

Lemma plain_space3_last (c x y : ascii) : plain c = true -> Str.space3 x y c = false.
Proof.
  intros P. unfold Str.space3.
  now rewrite (plain_not c 128 P), (plain_not c 168 P), (plain_not c 169 P),
    (plain_not c 175 P), (plain_not c 159 P), (plain_out c 128 138 P) by lia.
Qed.

Lemma ws_space1 (c : ascii) : ws c = true -> Str.space1 c = true.
Proof.
  unfold ws. intros H.
  repeat (apply orb_true_iff in H as [H|H]); apply byte_is_char in H; now subst c.
Qed.

(** [lstrip] removes JSON whitespace and stops at a plain character. *)
Lemma lstrip_blank_plain (w y : string) (x : ascii) :
  blank w = true -> plain x = true ->
  Str.lstrip (w ++ String x y) = String x y.
Proof.
  intros B P. induction w as [|c w IH].
  - cbn [append Str.lstrip]. rewrite (plain_space1 _ P).
    destruct y as [|c2 y]; [reflexivity|]. rewrite (plain_space2_lead _ c2 P).
    destruct y as [|c3 y]; [reflexivity|]. now rewrite (plain_space3_lead _ c2 c3 P).
  - cbn [blank] in B. apply andb_true_iff in B as [W B].
    cbn [append Str.lstrip]. rewrite (ws_space1 _ W). now apply IH.
Qed.

Lemma lstrip_rev_blank_plain (w y : string) (x : ascii) :
  blank w = true -> plain x = true ->
  Str.lstrip_rev (w ++ String x y) = String x y.
Proof.
  intros B P. induction w as [|c w IH].
  - cbn [append Str.lstrip_rev]. rewrite (plain_space1 _ P).
    destruct y as [|c2 y]; [reflexivity|]. rewrite (plain_space2_last _ c2 P).
    destruct y as [|c3 y]; [reflexivity|]. now rewrite (plain_space3_last _ c3 c2 P).
  - cbn [blank] in B. apply andb_true_iff in B as [W B].
    cbn [append Str.lstrip_rev]. rewrite (ws_space1 _ W). now apply IH.
Qed.

Lemma blank_app (a b : string) :
  blank a = true -> blank b = true -> blank (a ++ b) = true.
Proof.
  induction a as [|c a IH]; [auto|]. cbn [blank append]. intros H Hb.
  apply andb_true_iff in H as [W B]. now rewrite W, IH.
Qed.

Lemma blank_rev (s : string) : blank s = true -> blank (Str.rev s) = true.
Proof.
  induction s as [|c s IH]; [reflexivity|]. cbn [blank]. intros H.
  apply andb_true_iff in H as [W B]. rewrite rev_cons.
  apply blank_app; [now apply IH|]. cbn [blank]. now rewrite W.
Qed.

(** A text between JSON whitespace that starts and ends with a plain
    character is what [strip] leaves. *)
Lemma strip_core (w a rest y : string) (x d : ascii) :
  blank w = true -> blank rest = true ->
  plain x = true -> plain d = true ->
  String x a = y ++ String d "" ->
  Str.strip (w ++ String x a ++ rest) = String x a.
Proof.
  intros Bw Br Px Pd E. unfold Str.strip.
  change (w ++ String x a ++ rest) with (w ++ String x (a ++ rest)).
  rewrite (lstrip_blank_plain _ _ _ Bw Px).
  change (String x (a ++ rest)) with (String x a ++ rest).
  unfold Str.rstrip. rewrite E, rev_app, rev_app.
  change (Str.rev (String d "") ++ Str.rev y) with (String d (Str.rev y)).
  rewrite (lstrip_rev_blank_plain _ _ _ (blank_rev _ Br) Pd).
  rewrite rev_cons, rev_involutive. reflexivity.
Qed.

(** A value starts with a plain character. *)
Lemma scan_once_head (n : nat) (x : ascii) (s r : string) (v : json) :
  scan_once n (String x s) = Found v r -> plain x = true.
Proof.
  destruct n as [|n]; [discriminate|]. cbn [scan_once].
  destruct (Str.byte_is 34 x) eqn:Q; [intros _; literal_fact Q|].
  destruct (Str.byte_is 123 x) eqn:O; [intros _; literal_fact O|].
  destruct (Str.byte_is 91 x) eqn:A; [intros _; literal_fact A|].
  unfold scan_atom.
  assert (lit : forall l p, Str.startswith (String l p) (String x s) = true ->
                            plain l = true -> plain x = true).
  { intros l p H Pl. cbn [Str.startswith] in H. apply andb_true_iff in H as [H _].
    apply Ascii.eqb_eq in H. now subst. }
  destruct (Str.startswith "null" (String x s)) eqn:E1; [intros _; now apply (lit _ _ E1)|].
  destruct (Str.startswith "true" (String x s)) eqn:E2; [intros _; now apply (lit _ _ E2)|].
  destruct (Str.startswith "false" (String x s)) eqn:E3; [intros _; now apply (lit _ _ E3)|].
  destruct (Str.startswith "NaN" (String x s)) eqn:E4; [intros _; now apply (lit _ _ E4)|].
  destruct (Str.startswith "Infinity" (String x s)) eqn:E5;
    [intros _; now apply (lit _ _ E5)|].
  destruct (Str.startswith "-Infinity" (String x s)) eqn:E6;
    [intros _; now apply (lit _ _ E6)|].
  unfold match_number, integer.
  destruct (Str.byte_is 45 x) eqn:M; [intros _; literal_fact M|].
  destruct (Str.byte_is 48 x) eqn:Z; [intros _; literal_fact Z|].
  destruct (digit x) eqn:D; [intros _; now apply digit_plain|discriminate].
Qed.

(** A document that [json.loads] accepts is accepted, with the same
    result, when stripped. *)
Lemma loads_strip (doc : string) (v : json) :
  loads doc = Return v -> loads (Str.strip doc) = Return v.
Proof.
  unfold loads at 1.
  destruct (Str.startswith bom doc); [discriminate|].
  destruct (scan_once (fuel_for (String.length doc)) (skip_ws doc))
    as [v0 rest| | |] eqn:S; try discriminate.
  destruct (skip_ws rest) eqn:SR; [|discriminate].
  intros H. injection H as <-.
  destruct (decoder_local (fuel_for (String.length doc))) as (L & _ & _).
  destruct (L _ _ _ S) as (a & Ea & E & C).
  destruct a as [|x a]; [now apply ends_nonempty in E|].
  cbn [append] in Ea.
  destruct (skip_ws_frame _ _ _ Ea) as (w & Ed & Bw & Wx & F).
  rewrite Ea in S. pose proof (scan_once_head _ _ _ _ _ S) as Px.
  destruct E as (y & d & Ey & Pd).
  assert (St : Str.strip doc = String x a).
  { rewrite Ed. change (String x (a ++ rest)) with (String x a ++ rest).
    apply (strip_core w a rest y x d Bw (skip_ws_none _ SR) Px Pd Ey). }
  rewrite St. unfold loads.
  assert (B : Str.startswith bom (String x a) = false).
  { unfold bom. cbn [Str.startswith].
    destruct (Ascii.eqb (ascii_of_nat 239) x) eqn:X; [|reflexivity].
    apply Ascii.eqb_eq in X. subst x. discriminate Px. }
  rewrite B. cbn [skip_ws]. rewrite Wx.
  specialize (C "" (fuel_for (String.length (String x a))) eq_refl).
  rewrite append_nil_r in C. rewrite C; [reflexivity|].
  unfold fuel_for. lia.
Qed.

End DecoderFacts.

(* ================================================================== *)
(** * A document in a fenced block *)

Module WrapFacts.
Import Str StrFacts StripFacts ExtractFacts.

Lemma lstrip_line (s : string) :
  lstrip (s ++ nl)
  = match lstrip s with
    | "" => ""
    | l => l ++ nl
    end.
Proof.
  assert (N2 : forall c, space2 c (ascii_of_nat 10) = false) by reflexivity.
  assert (N3 : forall c c', space3 c c' (ascii_of_nat 10) = false) by reflexivity.
  unfold nl.
  functional induction (lstrip s); cbn [append lstrip];
    repeat match goal with
           | H : _ = true |- _ => rewrite H
           | H : _ = false |- _ => rewrite H
           end;
    rewrite ?N2, ?N3; auto.
Qed.

Lemma rstrip_line (s : string) : rstrip (s ++ nl) = rstrip s.
Proof. unfold rstrip. now rewrite rev_app. Qed.

(** A line feed on either side does not survive [strip]. *)
Lemma strip_lines (s : string) : strip (nl ++ s ++ nl) = strip s.
Proof.
  unfold strip. change (lstrip (nl ++ s ++ nl)) with (lstrip (s ++ nl)).
  rewrite lstrip_line. destruct (lstrip s) as [|c l]; [reflexivity|].
  apply rstrip_line.
Qed.

(** A fenced block starts and ends with a backquote: [strip] leaves it as
    it is. *)
Lemma strip_wrap (j : string) : strip (Fence.wrap j) = Fence.wrap j.
Proof.
  unfold Fence.wrap.
  pose proof (DecoderFacts.strip_core "" ("``json" ++ nl ++ j ++ nl ++ "```") ""
                ("```json" ++ nl ++ j ++ nl ++ "``") "`" "`"
                eq_refl eq_refl eq_refl eq_refl) as H.
  rewrite append_nil_r in H. apply H.
  cbn [append]. do 7 f_equal. now rewrite !append_assoc.
Qed.

(** The candidate taken from a fenced block whose content holds no
    delimiter: the content, between its two line feeds. *)
Lemma candidate_wrap (j : string) :
  contains "```" j = false ->
  Fence.candidate_cut (Fence.wrap j) = nl ++ j ++ nl.
Proof.
  unfold contains. destruct (partition "```" j) as [[a b]|] eqn:P; [discriminate|].
  intros _.
  assert (Inner : partition "```" (nl ++ j ++ nl ++ "```") = Some (nl ++ j ++ nl, "")).
  { change (nl ++ j ++ nl ++ "```") with (String (ascii_of_nat 10) (j ++ nl ++ "```")).
    cbn [partition]. change (startswith "```" (String (ascii_of_nat 10) (j ++ nl ++ "```")))
      with false. cbv iota.
    rewrite (partition_seam j (nl ++ "```") P (or_intror eq_refl)).
    change (partition "```" (nl ++ "```")) with (Some (nl, "")).
    reflexivity. }
  assert (Tagged : partition "```json" (nl ++ j ++ nl ++ "```") = None).
  { destruct (partition "```json" (nl ++ j ++ nl ++ "```")) as [[a b]|] eqn:Q;
      [|reflexivity].
    exfalso. pose proof (partition_split Q) as E.
    change (a ++ "```json" ++ b) with (a ++ "```" ++ ("json" ++ b)) in E.
    destruct (partition_finds "```" a ("json" ++ b)) as (a' & b' & F & L).
    rewrite <- E, Inner in F. injection F as <- <-.
    apply (f_equal String.length) in E.
    rewrite !length_append in E. rewrite ?length_append in L.
    cbn [String.length] in E, L. rewrite length_append in L.
    change (String.length nl) with 1 in *. lia. }
  unfold Fence.candidate_cut, Fence.wrap, contains, Fence.after.
  change (partition "```json" ("```json" ++ nl ++ j ++ nl ++ "```"))
    with (Some ("", nl ++ j ++ nl ++ "```")).
  cbv iota beta. unfold Fence.up_to. rewrite Tagged, Inner. reflexivity.
Qed.

End WrapFacts.

(* ================================================================== *)
(** * The response formatter: scores, authors, counts *)

Module ColumnFacts.
Import LookupFacts.


(** A column read off entry by entry. *)
Lemma column_of_nth (k : string) : forall (l : list json) (f : nat -> option json),
  (forall i, i < List.length l ->
             exists x, nth_error l i = Some x /\ path [k] x = f i) ->
  column k l = map f (seq 0 (List.length l)).
Proof.
  induction l as [|x l IH]; intros f H; [reflexivity|].
  cbn [List.length seq map]. unfold column in *. cbn [map].
  f_equal.
  - destruct (H 0) as (y & N & P); [simpl; lia|].
    simpl in N. now injection N as <-.
  - rewrite <- seq_shift, map_map. apply IH.
    intros i Hi. destruct (H (S i)) as (y & N & P); [simpl; lia|].
    now exists y.
Qed.

Lemma entry_fields label base first i text t reasoning :
  let entry := example_entry label base first i text t reasoning in
  path ["text"] entry = Some text
  /\ path ["sentiment"] entry = Some (JStr label)
  /\ path ["score"] entry = Some (JInt (base - Z.of_nat i * 15))
  /\ path ["author"] entry = Some (JStr ("user_" ++ Str.of_int (Z.of_nat i + first)))
  /\ path ["reasoning"] entry = Some reasoning.
Proof. repeat split. Qed.

Lemma column_length (k : string) (l : list json) :
  List.length (column k l) = List.length l.
Proof. unfold column. apply length_map. Qed.

End ColumnFacts.

Section FormatterClaims.
Import MFacts LookupFacts FormatFacts ColumnFacts.

Variables (float_str str_repr : string -> string).

(** What a returning call made of the two example lists: the entry of the
    example at index [i], built by [example_entry] from its [text]. *)
Lemma format_response_examples topic data E w r w' ps ns :
  format_response float_str str_repr topic data E w = (Return r, w') ->
  path ["positive_examples"] data = Some (JArr ps) ->
  path ["negative_examples"] data = Some (JArr ns) ->
  exists pe ne,
    path ["positive_perspective"; "examples"] r = Some (JArr pe)
    /\ path ["negative_perspective"; "examples"] r = Some (JArr ne)
    /\ List.length pe = List.length ps
    /\ List.length ne = List.length ns
    /\ (forall i ex, nth_error ps i = Some ex ->
          exists text t,
            getitem ex "text" = Return text
            /\ nth_error pe i
               = Some (example_entry "positive" 100 1 i text t (reasoning_of ex)))
    /\ (forall i ex, nth_error ns i = Some ex ->
          exists text t,
            getitem ex "text" = Return text
            /\ nth_error ne i
               = Some (example_entry "negative" 95 6 i text t (reasoning_of ex))).
Proof.
  intros H P1 P2.
  apply format_response_return in H
    as (pos & ps' & pe & neg & ns' & ne & sd & p & n & u
        & G1 & I1 & L1 & G2 & I2 & L2 & _ & _ & _ & _ & ->).
  apply getitem_return in G1, G2.
  rewrite P1 in G1. injection G1 as <-. simpl in I1. injection I1 as <-.
  rewrite P2 in G2. injection G2 as <-. simpl in I2. injection I2 as <-.
  apply examples_loop_return in L1 as (_ & Len1 & N1).
  apply examples_loop_return in L2 as (_ & Len2 & N2).
  exists pe, ne. repeat split; try assumption.
  - intros i ex Hi. destruct (N1 i ex Hi) as (text & G & N).
    exists text. eexists. split; [exact G|exact N].
  - intros i ex Hi. destruct (N2 i ex Hi) as (text & G & N).
    exists text. eexists. split; [exact G|exact N].
Qed.

End FormatterClaims.

(** C1.  Whenever [format_response] returns on a payload whose two example
    lists are [ps] and [ns], the entry at 0-based index [i] of the
    positive group has score [100 - 15*i] and author ["user_" + (i+1)], and
    that of the negative group has score [95 - 15*i] and author
    ["user_" + (i+6)], for lists of any length and without a lower bound on
    the score; for lists of five the scores are 100, 85, 70, 55, 40 and
    95, 80, 65, 50, 35. *)
Theorem C1_scores_and_authors :
  forall (float_str str_repr : string -> string) topic data E w r w' ps ns,
    format_response float_str str_repr topic data E w = (Return r, w') ->
    path ["positive_examples"] data = Some (JArr ps) ->
    path ["negative_examples"] data = Some (JArr ns) ->
    exists pe ne,
      path ["positive_perspective"; "examples"] r = Some (JArr pe)
      /\ path ["negative_perspective"; "examples"] r = Some (JArr ne)
      /\ column "score" pe
         = map (fun i => Some (JInt (100 - 15 * Z.of_nat i))) (seq 0 (List.length ps))
      /\ column "author" pe
         = map (fun i => Some (JStr ("user_" ++ Str.of_int (Z.of_nat i + 1))))
               (seq 0 (List.length ps))
      /\ column "score" ne
         = map (fun i => Some (JInt (95 - 15 * Z.of_nat i))) (seq 0 (List.length ns))
      /\ column "author" ne
         = map (fun i => Some (JStr ("user_" ++ Str.of_int (Z.of_nat i + 6))))
               (seq 0 (List.length ns))
      /\ (List.length ps = 5 ->
          column "score" pe
          = [Some (JInt 100); Some (JInt 85); Some (JInt 70); Some (JInt 55);
             Some (JInt 40)])
      /\ (List.length ns = 5 ->
          column "score" ne
          = [Some (JInt 95); Some (JInt 80); Some (JInt 65); Some (JInt 50);
             Some (JInt 35)]).
Proof.
  intros float_str str_repr topic data E w r w' ps ns H P1 P2.
  destruct (format_response_examples _ _ _ _ _ _ _ _ _ _ H P1 P2)
    as (pe & ne & R1 & R2 & L1 & L2 & N1 & N2).
  assert (nth_some : forall (l : list json) i, i < List.length l ->
                                               exists x, nth_error l i = Some x).
  { intros l i Hi. destruct (nth_error l i) eqn:X; [eauto|].
    apply nth_error_None in X. lia. }
  assert (S1 : column "score" pe
               = map (fun i => Some (JInt (100 - 15 * Z.of_nat i)))
                     (seq 0 (List.length ps))).
  { rewrite <- L1. apply ColumnFacts.column_of_nth. intros i Hi.
    rewrite L1 in Hi. destruct (nth_some ps i Hi) as [ex X].
    destruct (N1 i ex X) as (text & t & _ & N). eexists. split; [exact N|].
    destruct (ColumnFacts.entry_fields "positive" 100 1 i text t (reasoning_of ex))
      as (_ & _ & -> & _).
    do 2 f_equal. lia. }
  assert (S2 : column "score" ne
               = map (fun i => Some (JInt (95 - 15 * Z.of_nat i)))
                     (seq 0 (List.length ns))).
  { rewrite <- L2. apply ColumnFacts.column_of_nth. intros i Hi.
    rewrite L2 in Hi. destruct (nth_some ns i Hi) as [ex X].
    destruct (N2 i ex X) as (text & t & _ & N). eexists. split; [exact N|].
    destruct (ColumnFacts.entry_fields "negative" 95 6 i text t (reasoning_of ex))
      as (_ & _ & -> & _).
    do 2 f_equal. lia. }
  exists pe, ne. repeat split; try assumption.
  - rewrite <- L1. apply ColumnFacts.column_of_nth. intros i Hi.
    rewrite L1 in Hi. destruct (nth_some ps i Hi) as [ex X].
    destruct (N1 i ex X) as (text & t & _ & N). eexists. split; [exact N|].
    reflexivity.
  - rewrite <- L2. apply ColumnFacts.column_of_nth. intros i Hi.
    rewrite L2 in Hi. destruct (nth_some ns i Hi) as [ex X].
    destruct (N2 i ex X) as (text & t & _ & N). eexists. split; [exact N|].
    reflexivity.
  - intros Five. rewrite S1, Five. reflexivity.
  - intros Five. rewrite S2, Five. reflexivity.
Qed.

Lemma C1_scores_and_authors_witness :
  exists pe ne,
    column "score" pe
    = [Some (JInt 100); Some (JInt 85); Some (JInt 70); Some (JInt 55); Some (JInt 40)]
    /\ column "author" pe
       = [Some (JStr "user_1"); Some (JStr "user_2"); Some (JStr "user_3");
          Some (JStr "user_4"); Some (JStr "user_5")]
    /\ column "score" ne
       = [Some (JInt 95); Some (JInt 80); Some (JInt 65); Some (JInt 50); Some (JInt 35)]
    /\ column "author" ne
       = [Some (JStr "user_6"); Some (JStr "user_7"); Some (JStr "user_8");
          Some (JStr "user_9"); Some (JStr "user_10")].
Proof.
  assert (F : format_response Sample.float_str Sample.str_repr (JStr "tea")
                Sample.payload (Sample.answering "") Sample.fresh
              = (Return Sample.formatted, Sample.formatted_world))
    by (vm_compute; reflexivity).
  destruct (C1_scores_and_authors Sample.float_str Sample.str_repr (JStr "tea")
              Sample.payload (Sample.answering "") Sample.fresh
              Sample.formatted Sample.formatted_world Sample.five Sample.five
              F eq_refl eq_refl)
    as (pe & ne & _ & _ & S1 & A1 & S2 & A2 & _).
  exists pe, ne. repeat split; assumption.
Defined.

(** C4, as stated, fails: a request succeeds with one example in each
    group when the remote model returns one example on each side. *)
Lemma C4_counterexample :
  exists r w' pe ne,
    analyze_topic Decoder.loads Sample.float_str Sample.str_repr
      (Sample.topic_request "tea") (Sample.answering Sample.short_text) Sample.fresh
    = (Return (Response 200 r), w')
    /\ path ["positive_perspective"; "examples"] r = Some (JArr pe)
    /\ path ["negative_perspective"; "examples"] r = Some (JArr ne)
    /\ List.length pe = 1 /\ List.length ne = 1
    /\ List.length pe <> 5 /\ List.length ne <> 5.
Proof.
  do 4 eexists. split; [vm_compute; reflexivity|].
  repeat split; discriminate.
Qed.

(** C4, amended.  Whenever [format_response] returns, each group holds one
    entry per entry of the corresponding upstream list, in the same order:
    as many as the upstream list has, five when it has five. *)
Theorem C4_one_entry_per_example :
  forall (float_str str_repr : string -> string) topic data E w r w' ps ns,
    format_response float_str str_repr topic data E w = (Return r, w') ->
    path ["positive_examples"] data = Some (JArr ps) ->
    path ["negative_examples"] data = Some (JArr ns) ->
    exists pe ne,
      path ["positive_perspective"; "examples"] r = Some (JArr pe)
      /\ path ["negative_perspective"; "examples"] r = Some (JArr ne)
      /\ List.length pe = List.length ps
      /\ List.length ne = List.length ns
      /\ column "text" pe = column "text" ps
      /\ column "text" ne = column "text" ns
      /\ (List.length ps = 5 -> List.length pe = 5)
      /\ (List.length ns = 5 -> List.length ne = 5).
Proof.
  intros float_str str_repr topic data E w r w' ps ns H P1 P2.
  destruct (format_response_examples _ _ _ _ _ _ _ _ _ _ H P1 P2)
    as (pe & ne & R1 & R2 & L1 & L2 & N1 & N2).
  assert (same : forall label base first (xs es : list json),
             List.length es = List.length xs ->
             (forall i ex, nth_error xs i = Some ex ->
                exists text t,
                  getitem ex "text" = Return text
                  /\ nth_error es i
                     = Some (example_entry label base first i text t (reasoning_of ex))) ->
             column "text" es = column "text" xs).
  { intros label base first xs es L N.
    apply nth_error_ext. intros i. unfold column. rewrite !nth_error_map.
    destruct (nth_error xs i) as [ex|] eqn:X.
    - destruct (N i ex X) as (text & t & G & ->).
      apply LookupFacts.getitem_return in G. cbn [option_map]. rewrite G.
      reflexivity.
    - apply nth_error_None in X. rewrite <- L in X.
      apply nth_error_None in X. now rewrite X. }
  exists pe, ne. repeat split; try assumption.
  - eapply same; eassumption.
  - eapply same; eassumption.
  - intros Five. now rewrite L1.
  - intros Five. now rewrite L2.
Qed.

Lemma C4_one_entry_per_example_witness :
  exists pe ne,
    List.length pe = 5 /\ List.length ne = 5
    /\ column "text" pe
       = [Some (JStr "a"); Some (JStr "b"); Some (JStr "c"); Some (JStr "d");
          Some (JStr "e")]
    /\ column "text" ne = column "text" pe.
Proof.
  assert (F : format_response Sample.float_str Sample.str_repr (JStr "tea")
                Sample.payload (Sample.answering "") Sample.fresh
              = (Return Sample.formatted, Sample.formatted_world))
    by (vm_compute; reflexivity).
  destruct (C4_one_entry_per_example Sample.float_str Sample.str_repr (JStr "tea")
              Sample.payload (Sample.answering "") Sample.fresh
              Sample.formatted Sample.formatted_world Sample.five Sample.five
              F eq_refl eq_refl)
    as (pe & ne & _ & _ & L1 & L2 & T1 & T2 & _).
  exists pe, ne. repeat split; try assumption.
  now rewrite T1, T2.
Defined.



(* ================================================================== *)
(** * The routes: status codes and error messages *)

(** C2.  A body that is an object without [topic], or with an empty one,
    is answered 400 "Topic is required" in every environment, with or
    without [GEMINI_API_KEY]; and the answer is 500 "GEMINI_API_KEY not
    configured" exactly when the body is an object whose [topic] is
    non-empty (truthy) and the key is unset or empty. *)
Theorem C2_topic_before_credential :
  forall (json_loads : string -> outcome json)
         (float_str str_repr : string -> string) req E w,
    (forall d, req = Body (JObj d) ->
               Dict.get "topic" d = None \/ Dict.get "topic" d = Some (JStr "") ->
               analyze_topic json_loads float_str str_repr req E w
               = (Return (Response 400 (JObj [("error", JStr "Topic is required")])), w))
    /\ (fst (analyze_topic json_loads float_str str_repr req E w)
        = Return (Response 500 (JObj [("error", JStr "GEMINI_API_KEY not configured")]))
        <-> exists d topic,
              req = Body (JObj d)
              /\ get_method (JObj d) "topic" (JStr "") = Return topic
              /\ truthy float_str topic = true
              /\ env_missing (GEMINI_API_KEY E) = true).
Proof.
  intros json_loads float_str str_repr req E w. split.
  - intros d -> [T|T]; rewrite RouteFacts.analyze_topic_run; simpl; now rewrite T.
  - rewrite RouteFacts.analyze_topic_run. split.
    + assert (other : forall e,
                 Return (error_response e)
                 = Return (Response 500 (JObj [("error", JStr "GEMINI_API_KEY not configured")])) ->
                 False).
      { intros e H. apply MFacts.return_inj in H.
        exact (proj2 (RouteFacts.error_response_other e) H). }
      destruct req as [data|name msg]; cbn [get_json fst].
      2:{ intros H. now apply other in H. }
      destruct (get_method data "topic" (JStr "")) as [topic|e] eqn:T.
      2:{ intros H. now apply other in H. }
      destruct (truthy float_str topic) eqn:Tr; cbn [negb fst]; [|discriminate].
      destruct (env_missing (GEMINI_API_KEY E)) eqn:K.
      * intros _. destruct data; try discriminate. now exists fields, topic.
      * destruct (analyze_topic_with_gemini json_loads float_str str_repr topic E w)
          as [[data'|e] w1]; cbn [fst].
        2:{ unfold handled. destruct (is_exception e); cbn [fst];
              [|discriminate].
            intros H. now apply other in H. }
        destruct (format_response float_str str_repr topic data' E w1)
          as [[r|e] w2]; cbn [fst]; [discriminate|].
        intros H. now apply other in H.
    + intros (d & topic & -> & T & Tr & K).
      cbn [get_json]. now rewrite T, Tr, K.
Qed.

Lemma C2_topic_before_credential_witness :
  analyze_topic Decoder.loads Sample.float_str Sample.str_repr
    (Sample.topic_request "") Sample.keyless Sample.fresh
  = (Return (Response 400 (JObj [("error", JStr "Topic is required")])), Sample.fresh)
  /\ fst (analyze_topic Decoder.loads Sample.float_str Sample.str_repr
            (Sample.topic_request "tea") Sample.keyless Sample.fresh)
     = Return (Response 500 (JObj [("error", JStr "GEMINI_API_KEY not configured")])).
Proof.
  split.
  - apply (proj1 (C2_topic_before_credential Decoder.loads Sample.float_str
                    Sample.str_repr (Sample.topic_request "") Sample.keyless
                    Sample.fresh) [("topic", JStr "")] eq_refl).
    right. reflexivity.
  - apply (proj2 (C2_topic_before_credential Decoder.loads Sample.float_str
                    Sample.str_repr (Sample.topic_request "tea") Sample.keyless
                    Sample.fresh)).
    exists [("topic", JStr "tea")], (JStr "tea"). repeat split.
Defined.

(** C7.  In every environment [GET /health] answers 200 with [status]
    "healthy" and [gemini_configured] true exactly when [GEMINI_API_KEY] is
    set to a non-empty value; it leaves the world as it found it, so no
    call to the remote model is made. *)
Theorem C7_health_check :
  forall E w,
    health_check E w
    = (Return (Response 200
                 (JObj [("status", JStr "healthy");
                        ("gemini_configured",
                          JBool (negb (env_missing (GEMINI_API_KEY E))))])),
       w)
    /\ (negb (env_missing (GEMINI_API_KEY E)) = true
        <-> exists k, GEMINI_API_KEY E = Some k /\ k <> "")
    /\ remote_calls (snd (health_check E w)) = remote_calls w.
Proof.
  intros E w. repeat split.
  - destruct (GEMINI_API_KEY E) as [[|c k]|]; simpl; try discriminate.
    intros _. eexists. split; [reflexivity|discriminate].
  - intros (k & -> & N). destruct k; [congruence|reflexivity].
Qed.

(** C10.  A request whose body is not a JSON object (no body or invalid
    JSON, for which [get_json] raises or returns [None], or a JSON value
    other than an object) fails where the topic is read, and is answered
    500 "Analysis failed: <message>", not 400. *)
Theorem C10_body_not_an_object :
  forall (json_loads : string -> outcome json)
         (float_str str_repr : string -> string) req E w,
    object_body req = false ->
    exists e,
      (get_json req = Raise e
       \/ exists data, get_json req = Return data
                       /\ get_method data "topic" (JStr "") = Raise e)
      /\ analyze_topic json_loads float_str str_repr req E w
         = (Return (Response 500 (JObj [("error", JStr ("Analysis failed: " ++ exn_str e))])), w)
      /\ Response 500 (JObj [("error", JStr ("Analysis failed: " ++ exn_str e))])
         <> Response 400 (JObj [("error", JStr "Topic is required")]).
Proof.
  intros json_loads float_str str_repr req E w H.
  rewrite RouteFacts.analyze_topic_run.
  destruct req as [data|name msg]; simpl.
  - destruct data; try discriminate H; simpl;
      (eexists; split; [right; eexists; split; reflexivity|split; [reflexivity|discriminate]]).
  - eexists. split; [left; reflexivity|split; [reflexivity|discriminate]].
Qed.

Lemma C10_body_not_an_object_witness :
  analyze_topic Decoder.loads Sample.float_str Sample.str_repr
    (Body JNull) Sample.keyless Sample.fresh
  = (Return (Response 500
               (JObj [("error", JStr ("Analysis failed: " ++ sq ++ "NoneType" ++ sq
                            ++ " object has no attribute " ++ sq ++ "get" ++ sq))])),
     Sample.fresh).
Proof.
  destruct (C10_body_not_an_object Decoder.loads Sample.float_str Sample.str_repr
              (Body JNull) Sample.keyless Sample.fresh eq_refl)
    as (e & [G|(data & G & T)] & R & _).
  - discriminate G.
  - injection G as <-. injection T as <-. exact R.
Defined.

(** C6, as stated, fails: a failure other than that of parsing the
    extracted text is answered with the parse-failure message when its
    exception is a [JSONDecodeError].  Here the remote call itself raises
    one; no text was returned, none was extracted, and the answer is
    "Failed to parse AI response", not "Analysis failed". *)
Lemma C6_counterexample :
  generate_content (Sample.failing Scenario.remote_decode_error)
    (prompt Sample.float_str Sample.str_repr (JStr "tea"))
  = Raise Scenario.remote_decode_error
  /\ fst (analyze_topic Decoder.loads Sample.float_str Sample.str_repr
            (Sample.topic_request "tea")
            (Sample.failing Scenario.remote_decode_error) Sample.fresh)
     = Return (Response 500
                 (JObj [("error",
                         JStr "Failed to parse AI response: Expecting value: line 1 column 1 (char 0)")]))
  /\ fst (analyze_topic Decoder.loads Sample.float_str Sample.str_repr
            (Sample.topic_request "tea")
            (Sample.failing Scenario.remote_decode_error) Sample.fresh)
     <> Return (Response 500
                  (JObj [("error",
                          JStr ("Analysis failed: "
                                ++ exn_str Scenario.remote_decode_error))])).
Proof. repeat split. discriminate. Qed.

(** C6, amended.  For a request that reaches the remote model (a topic, a
    key), failures are told apart by the class of the exception, not by
    the step that failed.  When the remote call raises [e], or
    [json.loads] raises [e] on the extracted text: if [e] is a
    [JSONDecodeError] the answer is 500 "Failed to parse AI response: "
    followed by [str(e)]; if it is any other exception that derives from
    [Exception] the answer is 500 "Analysis failed: " followed by
    [str(e)]; and if it does not derive from [Exception] there is no
    answer, the handler raises [e].  When [format_response] raises, the
    answer is 500 "Analysis failed: " followed by [str(e)].  The two
    messages are never the same. *)
Theorem C6_failures_told_apart_by_class :
  forall (json_loads : string -> outcome json)
         (float_str str_repr : string -> string) req E w body topic,
    get_json req = Return body ->
    get_method body "topic" (JStr "") = Return topic ->
    truthy float_str topic = true ->
    env_missing (GEMINI_API_KEY E) = false ->
    (forall e,
        generate_content E (prompt float_str str_repr topic) = Raise e
        \/ (exists text cand,
               generate_content E (prompt float_str str_repr topic) = Return text
               /\ extract_json (Str.strip text) = Return cand
               /\ json_loads cand = Raise e) ->
        (is_decode_error e = true ->
         analyze_topic json_loads float_str str_repr req E w
         = (Return (Response 500
                      (JObj [("error",
                              JStr ("Failed to parse AI response: " ++ exn_str e))])),
            reraised e (called (prompt float_str str_repr topic) w)))
        /\ (is_decode_error e = false -> is_exception e = true ->
            analyze_topic json_loads float_str str_repr req E w
            = (Return (Response 500
                         (JObj [("error", JStr ("Analysis failed: " ++ exn_str e))])),
               reraised e (called (prompt float_str str_repr topic) w)))
        /\ (is_exception e = false ->
            analyze_topic json_loads float_str str_repr req E w
            = (Raise e, called (prompt float_str str_repr topic) w)))
    /\ (forall text cand data e w',
          generate_content E (prompt float_str str_repr topic) = Return text ->
          extract_json (Str.strip text) = Return cand ->
          json_loads cand = Return data ->
          format_response float_str str_repr topic data E
            (called (prompt float_str str_repr topic) w) = (Raise e, w') ->
          analyze_topic json_loads float_str str_repr req E w
          = (Return (Response 500
                       (JObj [("error", JStr ("Analysis failed: " ++ exn_str e))])),
             w'))
    /\ (forall m m', "Failed to parse AI response: " ++ m <> "Analysis failed: " ++ m')
    /\ (forall e, exn_cls e = JSONDecodeError ->
                  is_decode_error e = true /\ is_exception e = true).
Proof.
  intros json_loads float_str str_repr req E w body topic B T Tr K.
  split; [|split; [|split]].
  - intros e F.
    assert (Run : analyze_topic json_loads float_str str_repr req E w
                  = handled e (reraised e (called (prompt float_str str_repr topic) w))).
    { rewrite RouteFacts.analyze_topic_run, B, T, Tr, K. cbn [negb].
      rewrite RouteFacts.analyze_topic_with_gemini_run. cbv zeta.
      destruct F as [G|(text & cand & G & X & L)].
      - now rewrite G.
      - now rewrite G, X, L. }
    rewrite Run. unfold handled, reraised. repeat split.
    + intros D. assert (Ex : is_exception e = true).
      { unfold is_decode_error in D. unfold is_exception.
        destruct (exn_cls e); try reflexivity; discriminate D. }
      rewrite Ex. now rewrite RouteFacts.error_response_parse_failure.
    + intros D Ex. rewrite Ex. now rewrite RouteFacts.error_response_other_failure.
    + intros Ex. now rewrite Ex.
  - intros text cand data e w' G X L F.
    rewrite (RouteFacts.analyze_topic_formats json_loads float_str str_repr
               req E w body topic text cand data B T Tr K G X L), F.
    rewrite RouteFacts.error_response_other_failure; [reflexivity|].
    apply FormatFacts.format_response_raise in F.
    apply FormatFacts.raised_by_class in F.
    unfold is_decode_error. now destruct F as [-> | ->].
  - intros m m'. discriminate.
  - intros e C. unfold is_decode_error, is_exception. now rewrite C.
Qed.

Lemma C6_failures_told_apart_by_class_witness :
  fst (analyze_topic Decoder.loads Sample.float_str Sample.str_repr
         (Sample.topic_request "tea") (Sample.answering "Sorry, no idea.")
         Sample.fresh)
  = Return (Response 500
              (JObj [("error",
                      JStr "Failed to parse AI response: Expecting value: line 1 column 1 (char 0)")]))
  /\ fst (analyze_topic Decoder.loads Sample.float_str Sample.str_repr
            (Sample.topic_request "tea")
            (Sample.failing (Exn (Foreign "ResourceExhausted" false) "429 quota"))
            Sample.fresh)
     = Return (Response 500 (JObj [("error", JStr "Analysis failed: 429 quota")]))
  /\ fst (analyze_topic Decoder.loads Sample.float_str Sample.str_repr
            (Sample.topic_request "tea") (Sample.failing Scenario.interrupt)
            Sample.fresh)
     = Raise Scenario.interrupt.
Proof.
  split; [|split].
  - destruct (proj1 (C6_failures_told_apart_by_class Decoder.loads Sample.float_str
                       Sample.str_repr (Sample.topic_request "tea")
                       (Sample.answering "Sorry, no idea.") Sample.fresh
                       _ (JStr "tea") eq_refl eq_refl eq_refl eq_refl)
                (Decoder.decode_error "Expecting value" "Sorry, no idea."
                   "Sorry, no idea."))
      as (P & _).
    { right. exists "Sorry, no idea.", "Sorry, no idea.". repeat split. }
    now rewrite (P eq_refl).
  - destruct (proj1 (C6_failures_told_apart_by_class Decoder.loads Sample.float_str
                       Sample.str_repr (Sample.topic_request "tea")
                       (Sample.failing
                          (Exn (Foreign "ResourceExhausted" false) "429 quota"))
                       Sample.fresh
                       _ (JStr "tea") eq_refl eq_refl eq_refl eq_refl)
                (Exn (Foreign "ResourceExhausted" false) "429 quota"))
      as (_ & P & _); [now left|].
    now rewrite (P eq_refl eq_refl).
  - destruct (proj1 (C6_failures_told_apart_by_class Decoder.loads Sample.float_str
                       Sample.str_repr (Sample.topic_request "tea")
                       (Sample.failing Scenario.interrupt) Sample.fresh
                       _ (JStr "tea") eq_refl eq_refl eq_refl eq_refl)
                Scenario.interrupt)
      as (_ & _ & P); [now left|].
    now rewrite (P eq_refl).
Defined.

(** C9, as stated, fails: with the number 5 for [positive_examples] and
    no [negative_examples] a required key is absent, but what
    [format_response] raises is no key-lookup error: the first loop cannot
    start, and the error is the [TypeError] "'int' object is not
    iterable", which the endpoint reports. *)
Lemma C9_counterexample :
  Decoder.loads Scenario.examples_a_number_text
  = Return (JObj Scenario.examples_a_number)
  /\ Dict.get "negative_examples" Scenario.examples_a_number = None
  /\ required_present (JObj Scenario.examples_a_number) = false
  /\ fst (format_response Sample.float_str Sample.str_repr (JStr "tea")
            (JObj Scenario.examples_a_number)
            (Sample.answering Scenario.examples_a_number_text) Sample.fresh)
     = Raise (Exn TypeError "'int' object is not iterable")
  /\ exn_cls (Exn TypeError "'int' object is not iterable") <> KeyError
  /\ fst (analyze_topic Decoder.loads Sample.float_str Sample.str_repr
            (Sample.topic_request "tea")
            (Sample.answering Scenario.examples_a_number_text) Sample.fresh)
     = Return (Response 500
                 (JObj [("error",
                         JStr "Analysis failed: 'int' object is not iterable")])).
Proof. repeat split; try (vm_compute; reflexivity). discriminate. Qed.

(** C9, amended.  For a request that reaches the formatter with the parsed
    payload [data]: if one of [positive_examples], [negative_examples],
    [sentiment_distribution], its [positive], [negative] and [neutral], or
    the [text] of an example is missing, [format_response] raises, a
    [KeyError] when the payload has the expected shape otherwise (an
    object whose example lists are lists of objects and whose distribution
    is an object), a [KeyError] or a [TypeError] in general, and the
    answer is 500 "Analysis failed: <message>", not the parse-failure
    message; if none is missing the answer is 200, with the empty string
    for an absent [analysis_summary] and for the absent [reasoning] of an
    example. *)
Theorem C9_required_keys :
  forall (json_loads : string -> outcome json)
         (float_str str_repr : string -> string)
         req E w body topic text cand data,
    get_json req = Return body ->
    get_method body "topic" (JStr "") = Return topic ->
    truthy float_str topic = true ->
    env_missing (GEMINI_API_KEY E) = false ->
    generate_content E (prompt float_str str_repr topic) = Return text ->
    extract_json (Str.strip text) = Return cand ->
    json_loads cand = Return data ->
    (required_present data = false ->
     exists e w',
       format_response float_str str_repr topic data E
         (called (prompt float_str str_repr topic) w) = (Raise e, w')
       /\ (exn_cls e = KeyError \/ exn_cls e = TypeError)
       /\ (shaped data = true -> exn_cls e = KeyError)
       /\ analyze_topic json_loads float_str str_repr req E w
          = (Return (Response 500 (JObj [("error", JStr ("Analysis failed: " ++ exn_str e))])),
             w'))
    /\ (required_present data = true ->
        exists r w',
          analyze_topic json_loads float_str str_repr req E w
          = (Return (Response 200 r), w')
          /\ path ["analysis_summary"] r = Some (summary_of data)
          /\ (path ["analysis_summary"] data = None ->
              path ["analysis_summary"] r = Some (JStr ""))
          /\ (forall ps, path ["positive_examples"] data = Some (JArr ps) ->
                exists pe,
                  path ["positive_perspective"; "examples"] r = Some (JArr pe)
                  /\ column "reasoning" pe
                     = map (fun ex => Some (reasoning_of ex)) ps)
          /\ (forall ns, path ["negative_examples"] data = Some (JArr ns) ->
                exists ne,
                  path ["negative_perspective"; "examples"] r = Some (JArr ne)
                  /\ column "reasoning" ne
                     = map (fun ex => Some (reasoning_of ex)) ns)
          /\ (forall ex, path ["reasoning"] ex = None -> reasoning_of ex = JStr "")).
Proof.
  intros json_loads float_str str_repr req E w body topic text cand data
         B T Tr K G X L.
  pose proof (RouteFacts.analyze_topic_formats json_loads float_str str_repr
                req E w body topic text cand data B T Tr K G X L) as Run.
  split; intros R.
  - destruct (format_response float_str str_repr topic data E
                (called (prompt float_str str_repr topic) w))
      as [[r|e] w'] eqn:F.
    { apply FormatFacts.format_response_required in F. congruence. }
    exists e, w'.
    pose proof (FormatFacts.format_response_raise _ _ _ _ _ _ _ _ F) as Why.
    pose proof (FormatFacts.raised_by_class _ _ Why) as C.
    repeat split; try assumption.
    + intros S. now apply (FormatFacts.raised_by_shaped data).
    + rewrite Run, RouteFacts.error_response_other_failure; [reflexivity|].
      unfold is_decode_error. now destruct C as [-> | ->].
  - destruct (FormatFacts.format_response_total float_str str_repr topic data E
                (called (prompt float_str str_repr topic) w) R) as (r & w' & F).
    exists r, w'. rewrite Run, F.
    apply FormatFacts.format_response_return in F
      as (pos & ps' & pe & neg & ns' & ne & sd & p & n & u
          & G1 & I1 & L1 & G2 & I2 & L2 & _ & _ & _ & _ & ->).
    assert (reasons : forall label base first i0 (xs es : list json) E0 w0 w1,
               examples_loop label base first i0 xs E0 w0 = (Return es, w1) ->
               column "reasoning" es = map (fun ex => Some (reasoning_of ex)) xs).
    { clear. intros label base first i0 xs es E0 w0 w1 H.
      apply FormatFacts.examples_loop_return in H as (_ & Len & N).
      apply nth_error_ext. intros i. unfold column. rewrite !nth_error_map.
      destruct (nth_error xs i) as [ex|] eqn:Hi.
      - destruct (N i ex Hi) as (tx & _ & ->). reflexivity.
      - apply nth_error_None in Hi. rewrite <- Len in Hi.
        apply nth_error_None in Hi. now rewrite Hi. }
    apply LookupFacts.getitem_return in G1, G2.
    repeat split.
    + unfold summary_of. now intros ->.
    + intros ps P1. rewrite P1 in G1. injection G1 as <-.
      simpl in I1. injection I1 as <-.
      exists pe. split; [reflexivity|]. eapply reasons; eassumption.
    + intros ns P2. rewrite P2 in G2. injection G2 as <-.
      simpl in I2. injection I2 as <-.
      exists ne. split; [reflexivity|]. eapply reasons; eassumption.
    + intros ex P. unfold reasoning_of. now rewrite P.
Qed.

Lemma C9_required_keys_witness :
  exists w',
    analyze_topic Decoder.loads Sample.float_str Sample.str_repr
      (Sample.topic_request "tea") (Sample.answering Sample.incomplete_text)
      Sample.fresh
    = (Return (Response 500
                 (JObj [("error", JStr ("Analysis failed: " ++ sq ++ "neutral" ++ sq))])),
       w').
Proof.
  edestruct (C9_required_keys Decoder.loads Sample.float_str Sample.str_repr
               (Sample.topic_request "tea")
               (Sample.answering Sample.incomplete_text) Sample.fresh)
    as [Missing _].
  - reflexivity.
  - reflexivity.
  - reflexivity.
  - reflexivity.
  - reflexivity.
  - vm_compute. reflexivity.
  - vm_compute. reflexivity.
  - destruct Missing as (e & w' & F & _ & _ & Run); [vm_compute; reflexivity|].
    vm_compute in F. injection F as <- <-.
    exists (World 0 [prompt Sample.float_str Sample.str_repr (JStr "tea")] []).
    exact Run.
Defined.

(* ================================================================== *)
(** * The client: which text is parsed *)

(** C3.  The code misses what the claim says on the answer
    [```json1`````json], where two backquotes and a second tagged
    delimiter follow the closing delimiter.  The content between the
    tagged delimiter and the next delimiter is [1], which parses.  The
    code cuts at the next tagged delimiter first and looks for the closing
    delimiter in what is left, [1``]: it finds none, parses [1``] and
    fails with "Extra data".  The branch for a bare delimiter, on the
    answer of the same shape [```1`````], takes [1]. *)
Theorem C3_tagged_block_cut_late :
  extract_json (Str.strip Sample.overlapping) = Return "1``"
  /\ Str.strip (Fence.candidate (Str.strip Sample.overlapping)) = "1"
  /\ fst (analyze_topic_with_gemini Decoder.loads Sample.float_str Sample.str_repr
            (JStr "tea") (Sample.answering Sample.overlapping) Sample.fresh)
     = Raise (Decoder.decode_error "Extra data" "1``" "``")
  /\ Decoder.loads (Str.strip (Fence.candidate (Str.strip Sample.overlapping)))
     = Return (JInt 1)
  /\ extract_json (Str.strip Scenario.overlapping_bare) = Return "1"
  /\ Str.strip (Fence.candidate (Str.strip Scenario.overlapping_bare)) = "1".
Proof. repeat split; vm_compute; reflexivity. Qed.

(** C5, as stated, fails: a JSON text that holds the delimiter, here the
    string of three backquotes, parses on its own, but from the fenced
    block only the text up to that delimiter is taken, and it does not
    parse. *)
Lemma C5_counterexample :
  Decoder.loads Sample.backquotes = Return (JStr "```")
  /\ extract_json (Str.strip (Fence.wrap Sample.backquotes)) = Return dq
  /\ fst (analyze_topic_with_gemini Decoder.loads Sample.float_str Sample.str_repr
            (JStr "tea") (Sample.answering (Fence.wrap Sample.backquotes))
            Sample.fresh)
     = Raise (Decoder.decode_error "Unterminated string starting at" dq dq)
  /\ fst (analyze_topic_with_gemini Decoder.loads Sample.float_str Sample.str_repr
            (JStr "tea") (Sample.answering (Fence.wrap Sample.backquotes))
            Sample.fresh)
     <> Decoder.loads Sample.backquotes.
Proof.
  repeat split; try (vm_compute; reflexivity).
  vm_compute. discriminate.
Qed.

(** C5, amended.  For every JSON text [J] that does not contain the
    delimiter: from the answer that wraps [J] in a fenced block the client
    extracts [J] stripped, and parsing it yields the object that parsing
    [J] directly yields. *)
Theorem C5_fenced_round_trip :
  forall (float_str str_repr : string -> string) topic E w J v,
    Decoder.loads J = Return v ->
    Str.contains "```" J = false ->
    generate_content E (prompt float_str str_repr topic) = Return (Fence.wrap J) ->
    extract_json (Str.strip (Fence.wrap J)) = Return (Str.strip J)
    /\ fst (analyze_topic_with_gemini Decoder.loads float_str str_repr topic E w)
       = Return v.
Proof.
  intros float_str str_repr topic E w J v L N G.
  assert (X : extract_json (Str.strip (Fence.wrap J)) = Return (Str.strip J)).
  { rewrite WrapFacts.strip_wrap, ExtractFacts.extract_json_cut.
    change (Str.contains "```json" (Fence.wrap J)) with true. cbn [orb].
    now rewrite (WrapFacts.candidate_wrap J N), WrapFacts.strip_lines. }
  split; [exact X|].
  rewrite RouteFacts.analyze_topic_with_gemini_run. cbv zeta.
  now rewrite G, X, (DecoderFacts.loads_strip J v L).
Qed.

Lemma C5_fenced_round_trip_witness :
  fst (analyze_topic_with_gemini Decoder.loads Sample.float_str Sample.str_repr
         (JStr "tea")
         (Sample.answering (Fence.wrap (" " ++ Sample.incomplete_text ++ nl)))
         Sample.fresh)
  = Decoder.loads Sample.incomplete_text.
Proof.
  refine (proj2 (C5_fenced_round_trip Sample.float_str Sample.str_repr (JStr "tea")
                   (Sample.answering (Fence.wrap (" " ++ Sample.incomplete_text ++ nl)))
                   Sample.fresh (" " ++ Sample.incomplete_text ++ nl)
                   _ _ _ _)).
  - vm_compute. reflexivity.
  - vm_compute. reflexivity.
  - reflexivity.
Defined.

(* ================================================================== *)
(** * What a request leaves behind *)

Module EffectFacts.
Import MFacts LookupFacts FormatFacts.

Section Effects.

Variables (float_str str_repr : string -> string).

(** A loop reads the clock and does nothing else, whether it ends or
    raises. *)
Lemma examples_loop_ticks label base first : forall items i E w,
  exists k,
    k <= List.length items
    /\ snd (examples_loop label base first i items E w) = ticked k w.
Proof.
  induction items as [|ex rest IH]; intros i E w.
  - exists 0. split; [lia|]. simpl. now rewrite ticked_0.
  - cbn [examples_loop]. unfold bind at 1, lift at 1.
    destruct (getitem ex "text") as [text|e] eqn:G.
    2:{ exists 0. split; [lia|]. simpl. now rewrite ticked_0. }
    unfold bind at 1, datetime_now at 1.
    unfold bind at 1, lift at 1.
    rewrite (get_method_dict _ _ (getitem_dict G)).
    destruct (IH (S i) E (World (S (clock_reads w)) (remote_calls w) (printed w)))
      as (k & Lk & Hk).
    unfold bind at 1.
    destruct (examples_loop label base first (S i) rest E
                (World (S (clock_reads w)) (remote_calls w) (printed w)))
      as [[es|e] w1]; cbn [snd] in *; subst w1; exists (S k);
      (split; [simpl; lia|]); unfold ret; cbn [snd]; apply ticked_S.
Qed.

Lemma ticked_ticked (a b : nat) (w : world) : ticked a (ticked b w) = ticked (b + a) w.
Proof. unfold ticked; simpl. f_equal. lia. Qed.

(** [format_response] reads the clock and does nothing else. *)
Lemma format_response_ticks topic data E w :
  exists k, snd (format_response float_str str_repr topic data E w) = ticked k w.
Proof.
  unfold format_response.
  unfold bind at 1, lift at 1.
  destruct (getitem data "positive_examples") as [pos|e];
    [|exists 0; cbn [snd]; now rewrite ticked_0].
  unfold bind at 1, lift at 1.
  destruct (iterate pos) as [ps|e];
    [|exists 0; cbn [snd]; now rewrite ticked_0].
  unfold bind at 1.
  destruct (examples_loop_ticks "positive" 100 1 ps 0 E w) as (k1 & _ & H1).
  destruct (examples_loop "positive" 100 1 0 ps E w) as [[pe|e] w1];
    cbn [snd] in H1; subst w1; [|now exists k1].
  unfold bind at 1, lift at 1.
  destruct (getitem data "negative_examples") as [neg|e]; [|now exists k1].
  unfold bind at 1, lift at 1.
  destruct (iterate neg) as [ns|e]; [|now exists k1].
  unfold bind at 1.
  destruct (examples_loop_ticks "negative" 95 6 ns 0 E (ticked k1 w)) as (k2 & _ & H2).
  destruct (examples_loop "negative" 95 6 0 ns E (ticked k1 w)) as [[ne|e] w2];
    cbn [snd] in H2; subst w2; rewrite ticked_ticked; [|now eexists].
  unfold bind at 1, lift at 1.
  destruct (getitem data "sentiment_distribution") as [sd|e]; [|now eexists].
  repeat (unfold bind at 1, lift at 1;
          match goal with
          | |- context [getitem sd ?k] => destruct (getitem sd k); [|now eexists]
          end).
  unfold bind at 1, lift at 1.
  destruct (get_method data "analysis_summary" (JStr "")); [|now eexists].
  unfold bind at 1, datetime_now at 1, ret. cbn [snd].
  exists (S (k1 + k2)). unfold ticked; simpl. f_equal. lia.
Qed.

(** A call that returns has read the clock once per example and once
    more. *)
Lemma format_response_world topic data E w r w' ps ns :
  format_response float_str str_repr topic data E w = (Return r, w') ->
  path ["positive_examples"] data = Some (JArr ps) ->
  path ["negative_examples"] data = Some (JArr ns) ->
  w' = ticked (List.length ps + List.length ns + 1) w.
Proof.
  intros H P1 P2. pose proof H as H0.
  apply format_response_return in H0
    as (pos & ps' & pe & neg & ns' & ne & sd & p & n & u
        & G1 & I1 & L1 & G2 & I2 & L2 & G3 & Gp & Gn & Gu & _).
  apply getitem_return in G1, G2. rewrite P1 in G1. rewrite P2 in G2.
  injection G1 as <-. injection G2 as <-.
  simpl in I1, I2. injection I1 as <-. injection I2 as <-.
  apply getitem_return in P1, P2.
  unfold format_response in H.
  unfold bind at 1, lift at 1 in H. rewrite P1 in H.
  unfold bind at 1, lift at 1 in H. cbn [iterate] in H.
  unfold bind at 1 in H. rewrite L1 in H.
  unfold bind at 1, lift at 1 in H. rewrite P2 in H.
  unfold bind at 1, lift at 1 in H. cbn [iterate] in H.
  unfold bind at 1 in H. rewrite L2 in H.
  unfold bind at 1, lift at 1 in H. rewrite G3 in H.
  unfold bind, lift in H. rewrite Gp, Gn, Gu in H.
  destruct (get_method data "analysis_summary" (JStr "")); [|discriminate].
  unfold datetime_now, ret in H. injection H as _ <-.
  unfold ticked; simpl. f_equal. lia.
Qed.

(** [format_response], step by step. *)
Lemma format_response_run topic data E w :
  format_response float_str str_repr topic data E w
  = match getitem data "positive_examples" with
    | Raise e => (Raise e, w)
    | Return pos =>
    match iterate pos with
    | Raise e => (Raise e, w)
    | Return ps =>
    match examples_loop "positive" 100 1 0 ps E w with
    | (Raise e, w1) => (Raise e, w1)
    | (Return pe, w1) =>
    match getitem data "negative_examples" with
    | Raise e => (Raise e, w1)
    | Return neg =>
    match iterate neg with
    | Raise e => (Raise e, w1)
    | Return ns =>
    match examples_loop "negative" 95 6 0 ns E w1 with
    | (Raise e, w2) => (Raise e, w2)
    | (Return ne, w2) =>
    match getitem data "sentiment_distribution" with
    | Raise e => (Raise e, w2)
    | Return sd =>
    match getitem sd "positive" with
    | Raise e => (Raise e, w2)
    | Return p =>
    match getitem sd "negative" with
    | Raise e => (Raise e, w2)
    | Return n =>
    match getitem sd "neutral" with
    | Raise e => (Raise e, w2)
    | Return u =>
        (Return (result_dict float_str str_repr topic p n u p p pe n n ne u
                   (summary_of data) (now E (clock_reads w2))),
         World (S (clock_reads w2)) (remote_calls w2) (printed w2))
    end end end end end end end end end end.
Proof.
  unfold format_response.
  unfold bind at 1, lift at 1.
  destruct (getitem data "positive_examples") as [pos|e] eqn:G1; [|reflexivity].
  unfold bind at 1, lift at 1. destruct (iterate pos) as [ps|e]; [|reflexivity].
  unfold bind at 1.
  destruct (examples_loop "positive" 100 1 0 ps E w) as [[pe|e] w1]; [|reflexivity].
  unfold bind at 1, lift at 1.
  destruct (getitem data "negative_examples") as [neg|e]; [|reflexivity].
  unfold bind at 1, lift at 1. destruct (iterate neg) as [ns|e]; [|reflexivity].
  unfold bind at 1.
  destruct (examples_loop "negative" 95 6 0 ns E w1) as [[ne|e] w2]; [|reflexivity].
  unfold bind at 1, lift at 1.
  destruct (getitem data "sentiment_distribution") as [sd|e]; [|reflexivity].
  unfold bind, lift.
  destruct (getitem sd "positive") as [p|e]; [|reflexivity].
  destruct (getitem sd "negative") as [n|e]; [|reflexivity].
  destruct (getitem sd "neutral") as [u|e]; [|reflexivity].
  rewrite (get_method_dict _ _ (getitem_dict G1)). reflexivity.
Qed.

(** The entries of a loop that ends are made by [example_entry]. *)
Lemma examples_loop_entries label base first items E w entries w' :
  examples_loop label base first 0 items E w = (Return entries, w') ->
  forall x, In x entries ->
    exists i ex text,
      nth_error items i = Some ex
      /\ getitem ex "text" = Return text
      /\ x = example_entry label base first i text (now E (clock_reads w + i))
               (reasoning_of ex).
Proof.
  intros H x I.
  apply examples_loop_return in H as (_ & L & N).
  apply In_nth_error in I as [i Hi].
  assert (Li : i < List.length items).
  { rewrite <- L. apply nth_error_Some. congruence. }
  destruct (nth_error items i) as [ex|] eqn:X;
    [|apply nth_error_None in X; lia].
  destruct (N i ex X) as (text & G & Ne). simpl in Ne.
  exists i, ex, text. repeat split; try assumption. congruence.
Qed.

(** What [examples_present] says, in terms of the lookups. *)
Lemma examples_present_inv (k : string) (data : json) :
  examples_present k data = true ->
  exists v l, getitem data k = Return v /\ iterate v = Return l
              /\ forallb (has_key "text") l = true.
Proof.
  unfold examples_present. intros H.
  destruct (path [k] data) as [v|] eqn:P; [|discriminate].
  destruct (iterate v) as [l|] eqn:I; [|discriminate].
  exists v, l. repeat split; try assumption. now apply getitem_return.
Qed.

(** A loop stops at the first example without a [text]. *)
Lemma examples_loop_stops label base first before ex rest e : forall i E w,
  forallb (has_key "text") before = true ->
  getitem ex "text" = Raise e ->
  fst (examples_loop label base first i (before ++ ex :: rest)%list E w) = Raise e.
Proof.
  induction before as [|b before IH]; intros i E w F G.
  - cbn [app examples_loop]. unfold bind at 1, lift at 1. now rewrite G.
  - cbn [forallb] in F. apply andb_true_iff in F as [Hb F].
    apply getitem_has_key in Hb as [text Gb].
    cbn [app examples_loop]. unfold bind at 1, lift at 1. rewrite Gb.
    unfold bind at 1, datetime_now at 1. unfold bind at 1, lift at 1.
    rewrite (get_method_dict _ _ (getitem_dict Gb)).
    unfold bind at 1.
    specialize (IH (S i) E (World (S (clock_reads w)) (remote_calls w) (printed w))
                  F G).
    destruct (examples_loop label base first (S i) (before ++ ex :: rest)%list E
                (World (S (clock_reads w)) (remote_calls w) (printed w)))
      as [[es|e'] w1]; cbn [fst] in *; [discriminate|exact IH].
Qed.

End Effects.

End EffectFacts.

(* ================================================================== *)
(** * The routes: what every request gets and what it costs *)

(** X1.  [POST /api/analyze] answers every request, unless the remote call
    or [json.loads] raises an exception that does not derive from
    [Exception].  Either the handler returns a response, whose status is
    200, 400 or 500 and which, when it is not 200, is a dict with the
    single key [error] and a string under it; or it raises, and what it
    raises is an exception that does not derive from [Exception] (a
    [KeyboardInterrupt], a [SystemExit]), raised by the remote call or by
    [json.loads] on the extracted text.  Nothing that the handler, the
    extraction or [format_response] raise themselves leaves it. *)
Theorem analyze_topic_answers_or_lets_through :
  forall (json_loads : string -> outcome json)
         (float_str str_repr : string -> string) req E w,
    (exists resp w',
        analyze_topic json_loads float_str str_repr req E w = (Return resp, w')
        /\ In (status resp) [200; 400; 500]
        /\ (status resp <> 200 -> exists m, body resp = JObj [("error", JStr m)]))
    \/ (exists e topic,
           fst (analyze_topic json_loads float_str str_repr req E w) = Raise e
           /\ is_exception e = false
           /\ (generate_content E (prompt float_str str_repr topic) = Raise e
               \/ exists text cand,
                    generate_content E (prompt float_str str_repr topic) = Return text
                    /\ extract_json (Str.strip text) = Return cand
                    /\ json_loads cand = Raise e)).
Proof.
  intros json_loads float_str str_repr req E w.
  rewrite RouteFacts.analyze_topic_run.
  assert (err : forall e (w1 : world),
             exists resp w',
               (Return (error_response e), w1) = (Return resp, w')
               /\ In (status resp) [200; 400; 500]
               /\ (status resp <> 200 ->
                   exists m, body resp = JObj [("error", JStr m)])).
  { intros e w1. exists (error_response e), w1. split; [reflexivity|].
    unfold error_response. cbn [status body]. split; [simpl; auto|].
    intros _. eexists. reflexivity. }
  destruct (get_json req) as [data|e]; [|left; apply err].
  destruct (get_method data "topic" (JStr "")) as [topic|e]; [|left; apply err].
  destruct (negb (truthy float_str topic)).
  { left. eexists _, _. split; [reflexivity|]. cbn [status body].
    split; [simpl; auto|]. intros _. eexists. reflexivity. }
  destruct (env_missing (GEMINI_API_KEY E)).
  { left. eexists _, _. split; [reflexivity|]. cbn [status body].
    split; [simpl; auto|]. intros _. eexists. reflexivity. }
  rewrite RouteFacts.analyze_topic_with_gemini_run. cbv zeta.
  assert (failed : forall e (w1 : world),
             generate_content E (prompt float_str str_repr topic) = Raise e
             \/ (exists text cand,
                    generate_content E (prompt float_str str_repr topic) = Return text
                    /\ extract_json (Str.strip text) = Return cand
                    /\ json_loads cand = Raise e) ->
             (exists resp w',
                 handled e w1 = (Return resp, w')
                 /\ In (status resp) [200; 400; 500]
                 /\ (status resp <> 200 ->
                     exists m, body resp = JObj [("error", JStr m)]))
             \/ (exists e0 topic0,
                    fst (handled e w1) = Raise e0
                    /\ is_exception e0 = false
                    /\ (generate_content E (prompt float_str str_repr topic0) = Raise e0
                        \/ exists text cand,
                             generate_content E (prompt float_str str_repr topic0)
                             = Return text
                             /\ extract_json (Str.strip text) = Return cand
                             /\ json_loads cand = Raise e0))).
  { intros e w1 F. unfold handled.
    destruct (is_exception e) eqn:Ex; [left; apply err|].
    right. now exists e, topic. }
  destruct (generate_content E (prompt float_str str_repr topic)) as [text|e] eqn:G;
    [|apply failed; now left].
  destruct (ExtractFacts.extract_json_total (Str.strip text)) as [c X]. rewrite X.
  destruct (json_loads c) as [payload|e] eqn:L;
    [|apply failed; right; now exists text, c].
  left.
  destruct (format_response float_str str_repr topic payload E
              (called (prompt float_str str_repr topic) w))
    as [[r|e] w2]; [|apply err].
  eexists _, _. split; [reflexivity|]. cbn [status].
  split; [simpl; auto|]. intros N. now contradiction N.
Qed.

(** X2.  A request costs at most one call of the remote model.  Either the
    handler leaves the world as it found it (no call, no clock reading,
    nothing printed), or the body gave a truthy topic, the key is set, and
    exactly one call was made, with the prompt built from that topic. *)
Theorem analyze_topic_calls_once_at_most :
  forall (json_loads : string -> outcome json)
         (float_str str_repr : string -> string) req E w,
    snd (analyze_topic json_loads float_str str_repr req E w) = w
    \/ exists data topic,
         get_json req = Return data
         /\ get_method data "topic" (JStr "") = Return topic
         /\ truthy float_str topic = true
         /\ env_missing (GEMINI_API_KEY E) = false
         /\ remote_calls (snd (analyze_topic json_loads float_str str_repr req E w))
            = (remote_calls w ++ [prompt float_str str_repr topic])%list.
Proof.
  intros json_loads float_str str_repr req E w.
  rewrite RouteFacts.analyze_topic_run.
  destruct (get_json req) as [data|e] eqn:B; [|now left].
  destruct (get_method data "topic" (JStr "")) as [topic|e] eqn:T; [|now left].
  destruct (truthy float_str topic) eqn:Tr; cbn [negb]; [|now left].
  destruct (env_missing (GEMINI_API_KEY E)) eqn:K; [now left|].
  right. exists data, topic. repeat split; try assumption; try reflexivity.
  rewrite RouteFacts.analyze_topic_with_gemini_run. cbv zeta.
  assert (failed : forall e,
             remote_calls
               (snd (handled e (reraised e
                       (called (prompt float_str str_repr topic) w))))
             = (remote_calls w ++ [prompt float_str str_repr topic])%list).
  { intros e. unfold handled, reraised. now destruct (is_exception e). }
  destruct (generate_content E (prompt float_str str_repr topic)) as [text|e];
    [|apply failed].
  destruct (extract_json (Str.strip text)) as [c|e]; [|apply failed].
  destruct (json_loads c) as [payload|e]; [|apply failed].
  destruct (EffectFacts.format_response_ticks float_str str_repr topic payload E
              (called (prompt float_str str_repr topic) w)) as [k Hk].
  destruct (format_response float_str str_repr topic payload E
              (called (prompt float_str str_repr topic) w)) as [[r|e] w2];
    cbn [snd] in *; subst w2; reflexivity.
Qed.

(** X3.  Whatever [analyze_topic_with_gemini] raises is the exception of
    the step that failed (the remote call or the parsing of the extracted
    text), raised again unchanged.  If that exception derives from
    [Exception], exactly one line "Gemini API Error: " followed by
    [str(e)] was printed before; if it does not (a [KeyboardInterrupt], a
    [SystemExit]), it passes through and nothing is printed.  A call that
    returns prints nothing.  In every case the remote model was called
    once and the clock was not read. *)
Theorem analyze_topic_with_gemini_logs_and_reraises :
  forall (json_loads : string -> outcome json)
         (float_str str_repr : string -> string) topic E w,
    remote_calls (snd (analyze_topic_with_gemini json_loads float_str str_repr topic E w))
    = (remote_calls w ++ [prompt float_str str_repr topic])%list
    /\ clock_reads (snd (analyze_topic_with_gemini json_loads float_str str_repr topic E w))
       = clock_reads w
    /\ match fst (analyze_topic_with_gemini json_loads float_str str_repr topic E w) with
       | Return _ =>
           printed (snd (analyze_topic_with_gemini json_loads float_str str_repr
                           topic E w))
           = printed w
       | Raise e =>
           printed (snd (analyze_topic_with_gemini json_loads float_str str_repr
                           topic E w))
           = (if is_exception e
              then (printed w ++ [("Gemini API Error: " ++ exn_str e)%string])%list
              else printed w)
           /\ (generate_content E (prompt float_str str_repr topic) = Raise e
               \/ exists text c,
                    generate_content E (prompt float_str str_repr topic) = Return text
                    /\ extract_json (Str.strip text) = Return c
                    /\ json_loads c = Raise e)
       end.
Proof.
  intros json_loads float_str str_repr topic E w.
  rewrite RouteFacts.analyze_topic_with_gemini_run. cbv zeta.
  assert (world_of : forall e,
             remote_calls (reraised e (called (prompt float_str str_repr topic) w))
             = (remote_calls w ++ [prompt float_str str_repr topic])%list
             /\ clock_reads (reraised e (called (prompt float_str str_repr topic) w))
                = clock_reads w
             /\ printed (reraised e (called (prompt float_str str_repr topic) w))
                = (if is_exception e
                   then (printed w ++ [("Gemini API Error: " ++ exn_str e)%string])%list
                   else printed w)).
  { intros e. unfold reraised. destruct (is_exception e); repeat split. }
  destruct (generate_content E (prompt float_str str_repr topic)) as [text|e] eqn:G.
  2:{ cbn [fst snd]. destruct (world_of e) as (R & C & P).
      repeat split; try assumption. now left. }
  destruct (ExtractFacts.extract_json_total (Str.strip text)) as [c X].
  rewrite X.
  destruct (json_loads c) as [payload|e] eqn:L; cbn [fst snd].
  - repeat split.
  - destruct (world_of e) as (R & C & P).
    repeat split; try assumption. right. now exists text, c.
Qed.

(** X4.  What the handler prints it also reports, and it prints for the
    failures of the client only.  Either nothing is printed, or exactly
    one line "Gemini API Error: " followed by [str(e)] is, for an
    exception that derives from [Exception], and then the response is the
    500 made from the same [e].  A failure of the body or of the topic, a
    falsy topic and a missing key leave the world as it was, and a
    failure of [format_response] prints nothing and is answered 500
    "Analysis failed: " followed by [str(e)]. *)
Theorem analyze_topic_reports_what_it_logs :
  forall (json_loads : string -> outcome json)
         (float_str str_repr : string -> string) req E w,
    (printed (snd (analyze_topic json_loads float_str str_repr req E w)) = printed w
     \/ exists e,
          printed (snd (analyze_topic json_loads float_str str_repr req E w))
          = (printed w ++ [("Gemini API Error: " ++ exn_str e)%string])%list
          /\ is_exception e = true
          /\ fst (analyze_topic json_loads float_str str_repr req E w)
             = Return (Response 500
                         (JObj [("error",
                                 JStr ((if is_decode_error e
                                        then "Failed to parse AI response: "
                                        else "Analysis failed: ") ++ exn_str e))])))
    /\ (forall e,
          get_json req = Raise e ->
          snd (analyze_topic json_loads float_str str_repr req E w) = w)
    /\ (forall data e,
          get_json req = Return data ->
          get_method data "topic" (JStr "") = Raise e ->
          snd (analyze_topic json_loads float_str str_repr req E w) = w)
    /\ (forall data topic,
          get_json req = Return data ->
          get_method data "topic" (JStr "") = Return topic ->
          truthy float_str topic = false \/ env_missing (GEMINI_API_KEY E) = true ->
          snd (analyze_topic json_loads float_str str_repr req E w) = w)
    /\ (forall data topic payload w1 e w2,
          get_json req = Return data ->
          get_method data "topic" (JStr "") = Return topic ->
          truthy float_str topic = true ->
          env_missing (GEMINI_API_KEY E) = false ->
          analyze_topic_with_gemini json_loads float_str str_repr topic E w
          = (Return payload, w1) ->
          format_response float_str str_repr topic payload E w1 = (Raise e, w2) ->
          printed (snd (analyze_topic json_loads float_str str_repr req E w))
          = printed w
          /\ fst (analyze_topic json_loads float_str str_repr req E w)
             = Return (Response 500
                         (JObj [("error", JStr ("Analysis failed: " ++ exn_str e))]))).
Proof.
  intros json_loads float_str str_repr req E w.
  split; [|split; [|split; [|split]]].
  - rewrite RouteFacts.analyze_topic_run.
    destruct (get_json req) as [data|e]; [|now left].
    destruct (get_method data "topic" (JStr "")) as [topic|e]; [|now left].
    destruct (negb (truthy float_str topic)); [now left|].
    destruct (env_missing (GEMINI_API_KEY E)); [now left|].
    rewrite RouteFacts.analyze_topic_with_gemini_run. cbv zeta.
    assert (failed : forall e,
               printed (snd (handled e (reraised e
                               (called (prompt float_str str_repr topic) w))))
               = printed w
               \/ exists e0,
                    printed (snd (handled e (reraised e
                                    (called (prompt float_str str_repr topic) w))))
                    = (printed w ++ [("Gemini API Error: " ++ exn_str e0)%string])%list
                    /\ is_exception e0 = true
                    /\ fst (handled e (reraised e
                               (called (prompt float_str str_repr topic) w)))
                       = Return (Response 500
                                   (JObj [("error",
                                           JStr ((if is_decode_error e0
                                                  then "Failed to parse AI response: "
                                                  else "Analysis failed: ")
                                                 ++ exn_str e0))]))).
    { intros e. unfold handled, reraised.
      destruct (is_exception e) eqn:Ex; [right|now left].
      exists e. repeat split. exact Ex. }
    destruct (generate_content E (prompt float_str str_repr topic)) as [text|e];
      [|apply failed].
    destruct (extract_json (Str.strip text)) as [c|e]; [|apply failed].
    destruct (json_loads c) as [payload|e]; [|apply failed].
    left.
    destruct (EffectFacts.format_response_ticks float_str str_repr topic payload E
                (called (prompt float_str str_repr topic) w)) as [k Hk].
    destruct (format_response float_str str_repr topic payload E
                (called (prompt float_str str_repr topic) w)) as [[r|e] w2];
      cbn [snd] in *; subst w2; reflexivity.
  - intros e B. rewrite RouteFacts.analyze_topic_run. now rewrite B.
  - intros data e B T. rewrite RouteFacts.analyze_topic_run. now rewrite B, T.
  - intros data topic B T H. rewrite RouteFacts.analyze_topic_run, B, T.
    destruct H as [Tr|K].
    + now rewrite Tr.
    + rewrite K. now destruct (negb (truthy float_str topic)).
  - intros data topic payload w1 e w2 B T Tr K C F.
    rewrite RouteFacts.analyze_topic_run, B, T, Tr, K. cbn [negb]. rewrite C, F.
    cbn [fst snd].
    assert (W1 : printed w1 = printed w).
    { rewrite RouteFacts.analyze_topic_with_gemini_run in C. cbv zeta in C.
      destruct (generate_content E (prompt float_str str_repr topic)); [|discriminate].
      destruct (extract_json (Str.strip a)); [|discriminate].
      destruct (json_loads a0); [|discriminate].
      injection C as _ <-. reflexivity. }
    destruct (EffectFacts.format_response_ticks float_str str_repr topic payload E w1)
      as [k Hk].
    rewrite F in Hk. cbn [snd] in Hk. subst w2. split; [exact W1|].
    rewrite RouteFacts.error_response_other_failure; [reflexivity|].
    apply FormatFacts.format_response_raise in F.
    apply FormatFacts.raised_by_class in F.
    unfold is_decode_error. now destruct F as [-> | ->].
Qed.

(** X5.  The answer is 400 exactly when the body is a JSON object whose
    [topic] (the empty string when absent) is falsy, and then it is
    "Topic is required" and nothing else happened.  Floats apart, the
    falsy topics are [null], [false], [0], the empty string, the empty
    list and the empty object: the topic is not trimmed, so a topic of
    blanks passes, and it need not be a string. *)
Theorem topic_required_exactly_when_falsy :
  forall (json_loads : string -> outcome json)
         (float_str str_repr : string -> string) req E w,
    ((exists b w',
         analyze_topic json_loads float_str str_repr req E w
         = (Return (Response 400 b), w'))
     <-> exists d topic,
           req = Body (JObj d)
           /\ get_method (JObj d) "topic" (JStr "") = Return topic
           /\ truthy float_str topic = false)
    /\ (forall b w',
           analyze_topic json_loads float_str str_repr req E w
           = (Return (Response 400 b), w') ->
           b = JObj [("error", JStr "Topic is required")] /\ w' = w)
    /\ (forall topic,
           (forall l, topic <> JFloat l) ->
           (truthy float_str topic = false <-> In topic falsy))
    /\ (forall s, s <> "" -> truthy float_str (JStr s) = true).
Proof.
  intros json_loads float_str str_repr req E w.
  assert (run : forall b w',
             analyze_topic json_loads float_str str_repr req E w
             = (Return (Response 400 b), w') ->
             (exists d topic,
                 req = Body (JObj d)
                 /\ get_method (JObj d) "topic" (JStr "") = Return topic
                 /\ truthy float_str topic = false)
             /\ b = JObj [("error", JStr "Topic is required")] /\ w' = w).
  { intros b w'. rewrite RouteFacts.analyze_topic_run.
    destruct (get_json req) as [data|e] eqn:B; [|discriminate].
    destruct (get_method data "topic" (JStr "")) as [topic|e] eqn:T; [|discriminate].
    destruct (truthy float_str topic) eqn:Tr; cbn [negb].
    - destruct (env_missing (GEMINI_API_KEY E)); [discriminate|].
      destruct (analyze_topic_with_gemini json_loads float_str str_repr topic E w)
        as [[payload|e] w1];
        [|unfold handled; destruct (is_exception e); discriminate].
      destruct (format_response float_str str_repr topic payload E w1)
        as [[r|e] w2]; discriminate.
    - intros H. injection H as <- <-. split; [|now split].
      destruct req as [data'|]; [|discriminate]. simpl in B. injection B as ->.
      destruct data; try discriminate. now exists fields, topic. }
  split; [split|split; [|split]].
  - intros (b & w' & H). now apply run in H.
  - intros (d & topic & -> & T & Tr).
    rewrite RouteFacts.analyze_topic_run. cbn [get_json]. rewrite T, Tr.
    cbn [negb]. now eexists _, _.
  - intros b w' H. now apply run in H.
  - intros topic NF. unfold falsy. split.
    + destruct topic as [|[|]|z|l|s|[|x l]|[|p d]]; simpl; try discriminate; auto 8.
      * intros H. apply negb_false_iff, Z.eqb_eq in H. subst. auto.
      * now contradiction (NF l).
      * intros H. apply negb_false_iff, String.eqb_eq in H. subst. auto 6.
    + intros H. simpl in H.
      repeat (destruct H as [<-|H]; [reflexivity|]). contradiction.
  - intros s Hs. simpl. apply negb_true_iff. now apply String.eqb_neq.
Qed.

(** X6.  The two routes agree on the key: for a request with a truthy
    topic, [POST /api/analyze] answers 500 "GEMINI_API_KEY not configured"
    exactly when [GET /health] reports [gemini_configured] false. *)
Theorem health_check_agrees_with_analyze :
  forall (json_loads : string -> outcome json)
         (float_str str_repr : string -> string) d topic E w w0,
    get_method (JObj d) "topic" (JStr "") = Return topic ->
    truthy float_str topic = true ->
    (fst (analyze_topic json_loads float_str str_repr (Body (JObj d)) E w)
     = Return (Response 500 (JObj [("error", JStr "GEMINI_API_KEY not configured")]))
     <-> exists b,
           fst (health_check E w0) = Return (Response 200 b)
           /\ path ["gemini_configured"] b = Some (JBool false)).
Proof.
  intros json_loads float_str str_repr d topic E w w0 T Tr.
  rewrite RouteFacts.analyze_topic_run. cbn [get_json]. rewrite T, Tr. cbn [negb].
  unfold health_check, bind, environ_get_key, ret. cbn [fst].
  destruct (env_missing (GEMINI_API_KEY E)) eqn:K; cbn [negb fst].
  - split; [|reflexivity]. intros _. eexists. split; reflexivity.
  - split.
    + intros H.
      destruct (analyze_topic_with_gemini json_loads float_str str_repr topic E w)
        as [[payload|e] w1].
      * destruct (format_response float_str str_repr topic payload E w1)
          as [[r|e] w2]; [discriminate|].
        cbn [fst] in H. apply MFacts.return_inj in H.
        now apply (proj2 (RouteFacts.error_response_other e)) in H.
      * unfold handled in H. destruct (is_exception e); [|discriminate H].
        cbn [fst] in H. apply MFacts.return_inj in H.
        now apply (proj2 (RouteFacts.error_response_other e)) in H.
    + intros (b & H & P). injection H as <-. discriminate P.
Qed.

Lemma health_check_agrees_with_analyze_witness :
  fst (analyze_topic Decoder.loads Sample.float_str Sample.str_repr
         (Body (JObj [("topic", JStr "tea")])) Sample.keyless Sample.fresh)
  = Return (Response 500 (JObj [("error", JStr "GEMINI_API_KEY not configured")]))
  <-> exists b,
        fst (health_check Sample.keyless Sample.fresh) = Return (Response 200 b)
        /\ path ["gemini_configured"] b = Some (JBool false).
Proof.
  apply (health_check_agrees_with_analyze Decoder.loads Sample.float_str
           Sample.str_repr [("topic", JStr "tea")] (JStr "tea") Sample.keyless
           Sample.fresh Sample.fresh); reflexivity.
Defined.

(* ================================================================== *)
(** * The response of the formatter: keys, clock, authors *)

Section FormatterShape.
Import MFacts LookupFacts FormatFacts ColumnFacts EffectFacts.

Variables (float_str str_repr : string -> string).

(** The two lists of entries of a result, with the facts of the loops that
    made them. *)
Lemma format_response_loops topic data E w r w' ps ns :
  format_response float_str str_repr topic data E w = (Return r, w') ->
  path ["positive_examples"] data = Some (JArr ps) ->
  path ["negative_examples"] data = Some (JArr ns) ->
  exists pe ne,
    path ["positive_perspective"; "examples"] r = Some (JArr pe)
    /\ path ["negative_perspective"; "examples"] r = Some (JArr ne)
    /\ examples_loop "positive" 100 1 0 ps E w
       = (Return pe, ticked (List.length ps) w)
    /\ examples_loop "negative" 95 6 0 ns E (ticked (List.length ps) w)
       = (Return ne, ticked (List.length ns) (ticked (List.length ps) w))
    /\ path ["timestamp"] r
       = Some (JStr (isoformat (now E (clock_reads w + List.length ps
                                        + List.length ns)))).
Proof.
  intros H P1 P2.
  apply format_response_return in H
    as (pos & ps' & pe & neg & ns' & ne & sd & p & n & u
        & G1 & I1 & L1 & G2 & I2 & L2 & G3 & Gp & Gn & Gu & ->).
  apply getitem_return in G1, G2. rewrite P1 in G1. rewrite P2 in G2.
  injection G1 as <-. injection G2 as <-.
  simpl in I1, I2. injection I1 as <-. injection I2 as <-.
  exists pe, ne. repeat split; assumption.
Qed.

(** A column of the entries of a loop that ends. *)
Lemma examples_loop_column label base first items E w entries w' k f :
  examples_loop label base first 0 items E w = (Return entries, w') ->
  (forall i text reasoning,
      path [k] (example_entry label base first i text
                  (now E (clock_reads w + i)) reasoning) = f i) ->
  column k entries = map f (seq 0 (List.length items)).
Proof.
  intros H F. apply examples_loop_return in H as (_ & L & N).
  rewrite <- L. apply column_of_nth. intros i Hi. rewrite L in Hi.
  destruct (nth_error items i) as [ex|] eqn:X;
    [|apply nth_error_None in X; lia].
  destruct (N i ex X) as (text & _ & Ne). simpl in Ne.
  eexists. split; [exact Ne|apply F].
Qed.

End FormatterShape.

(** X7.  A result of [format_response] is a dict with the ten keys
    [topic], [total_analyzed], [posts_analyzed], [sentiment_distribution],
    [positive_perspective], [negative_perspective], [neutral_count],
    [analysis_summary], [timestamp] and [powered_by] and no other: the
    topic is the one given, three values are fixed texts, each perspective
    has the keys [percentage], [count] and [examples], and the
    distribution has the keys [positive], [negative] and [neutral]; keys
    that the upstream payload has besides are not copied. *)
Theorem format_response_keys :
  forall (float_str str_repr : string -> string) topic data E w r w',
    format_response float_str str_repr topic data E w = (Return r, w') ->
    keys r
    = [ "topic"; "total_analyzed"; "posts_analyzed"; "sentiment_distribution";
        "positive_perspective"; "negative_perspective"; "neutral_count";
        "analysis_summary"; "timestamp"; "powered_by" ]
    /\ path ["topic"] r = Some topic
    /\ path ["total_analyzed"] r = Some (JStr "AI Analysis")
    /\ path ["posts_analyzed"] r = Some (JStr "Multiple Sources")
    /\ path ["powered_by"] r = Some (JStr "Gemini 2.0 Flash")
    /\ (exists sd, path ["sentiment_distribution"] r = Some sd
                   /\ keys sd = ["positive"; "negative"; "neutral"])
    /\ (exists pp, path ["positive_perspective"] r = Some pp
                   /\ keys pp = ["percentage"; "count"; "examples"])
    /\ (exists np, path ["negative_perspective"] r = Some np
                   /\ keys np = ["percentage"; "count"; "examples"]).
Proof.
  intros float_str str_repr topic data E w r w' H.
  apply FormatFacts.format_response_return in H
    as (pos & ps & pe & neg & ns & ne & sd & p & n & u & _ & _ & _ & _ & _ & _
        & _ & _ & _ & _ & ->).
  repeat split; eexists; split; reflexivity.
Qed.

Lemma format_response_keys_witness :
  keys Scenario.one_each_formatted
  = [ "topic"; "total_analyzed"; "posts_analyzed"; "sentiment_distribution";
      "positive_perspective"; "negative_perspective"; "neutral_count";
      "analysis_summary"; "timestamp"; "powered_by" ]
  /\ path ["topic"] Scenario.one_each_formatted = Some (JStr "tea")
  /\ path ["model"] Scenario.one_each = Some (JStr "m")
  /\ path ["model"] Scenario.one_each_formatted = None.
Proof.
  assert (F : format_response Sample.float_str Sample.str_repr (JStr "tea")
                Scenario.one_each Scenario.overnight Sample.fresh
              = (Return Scenario.one_each_formatted, ticked 3 Sample.fresh))
    by (vm_compute; reflexivity).
  destruct (format_response_keys Sample.float_str Sample.str_repr (JStr "tea")
              Scenario.one_each Scenario.overnight Sample.fresh _ _ F)
    as (K & T & _).
  split; [exact K|]. split; [exact T|]. split; reflexivity.
Defined.

(** X8.  In a result of [format_response] every entry of either group is a
    dict with the seven keys [text], [sentiment], [score], [type],
    [author], [created] and [reasoning] and no other; its [sentiment] is
    the name of its group and its [type] is "opinion".  Whatever else an
    upstream example holds is dropped. *)
Theorem example_entries_keys :
  forall (float_str str_repr : string -> string) topic data E w r w',
    format_response float_str str_repr topic data E w = (Return r, w') ->
    exists pe ne,
      path ["positive_perspective"; "examples"] r = Some (JArr pe)
      /\ path ["negative_perspective"; "examples"] r = Some (JArr ne)
      /\ Forall (fun x =>
                   keys x = [ "text"; "sentiment"; "score"; "type"; "author";
                              "created"; "reasoning" ]
                   /\ path ["sentiment"] x = Some (JStr "positive")
                   /\ path ["type"] x = Some (JStr "opinion")) pe
      /\ Forall (fun x =>
                   keys x = [ "text"; "sentiment"; "score"; "type"; "author";
                              "created"; "reasoning" ]
                   /\ path ["sentiment"] x = Some (JStr "negative")
                   /\ path ["type"] x = Some (JStr "opinion")) ne.
Proof.
  intros float_str str_repr topic data E w r w' H.
  apply FormatFacts.format_response_return in H
    as (pos & ps & pe & neg & ns & ne & sd & p & n & u & _ & _ & L1 & _ & _ & L2
        & _ & _ & _ & _ & ->).
  exists pe, ne. repeat split.
  - apply Forall_forall. intros x I.
    destruct (EffectFacts.examples_loop_entries _ _ _ _ _ _ _ _ L1 x I)
      as (i & ex & text & _ & _ & ->).
    repeat split.
  - apply Forall_forall. intros x I.
    destruct (EffectFacts.examples_loop_entries _ _ _ _ _ _ _ _ L2 x I)
      as (i & ex & text & _ & _ & ->).
    repeat split.
Qed.

Lemma example_entries_keys_witness :
  exists pe,
    path ["positive_perspective"; "examples"] Scenario.one_each_formatted
    = Some (JArr pe)
    /\ Forall (fun x =>
                 keys x = [ "text"; "sentiment"; "score"; "type"; "author";
                            "created"; "reasoning" ]
                 /\ path ["sentiment"] x = Some (JStr "positive")
                 /\ path ["type"] x = Some (JStr "opinion")) pe
    /\ column "likes" pe = [None].
Proof.
  assert (F : format_response Sample.float_str Sample.str_repr (JStr "tea")
                Scenario.one_each Scenario.overnight Sample.fresh
              = (Return Scenario.one_each_formatted, ticked 3 Sample.fresh))
    by (vm_compute; reflexivity).
  destruct (example_entries_keys Sample.float_str Sample.str_repr (JStr "tea")
              Scenario.one_each Scenario.overnight Sample.fresh _ _ F)
    as (pe & ne & P & _ & A & _).
  exists pe. repeat split; try assumption.
  vm_compute in P. injection P as <-. reflexivity.
Defined.

(** X9.  A call of [format_response] that returns has read the clock once
    for every example, in order, the positive ones first, and once more
    for the timestamp, and has done nothing else: the [created] of the
    positive entry at index [j] is the date of reading [j], that of the
    negative entry at index [j] the date of reading [len(positive) + j],
    and the [timestamp] is the last reading.  So the dates are not taken
    from one instant and can differ within a response. *)
Theorem format_response_clock :
  forall (float_str str_repr : string -> string) topic data E w r w' ps ns,
    format_response float_str str_repr topic data E w = (Return r, w') ->
    path ["positive_examples"] data = Some (JArr ps) ->
    path ["negative_examples"] data = Some (JArr ns) ->
    w' = ticked (List.length ps + List.length ns + 1) w
    /\ exists pe ne,
         path ["positive_perspective"; "examples"] r = Some (JArr pe)
         /\ path ["negative_perspective"; "examples"] r = Some (JArr ne)
         /\ column "created" pe
            = map (fun j => Some (JStr (strftime_ymd (now E (clock_reads w + j)))))
                  (seq 0 (List.length ps))
         /\ column "created" ne
            = map (fun j => Some (JStr (strftime_ymd
                                          (now E (clock_reads w + List.length ps + j)))))
                  (seq 0 (List.length ns))
         /\ path ["timestamp"] r
            = Some (JStr (isoformat (now E (clock_reads w + List.length ps
                                             + List.length ns)))).
Proof.
  intros float_str str_repr topic data E w r w' ps ns H P1 P2.
  split; [exact (EffectFacts.format_response_world _ _ _ _ _ _ _ _ _ _ H P1 P2)|].
  destruct (format_response_loops _ _ _ _ _ _ _ _ _ _ H P1 P2)
    as (pe & ne & R1 & R2 & L1 & L2 & T).
  exists pe, ne. repeat split; try assumption.
  - apply (examples_loop_column _ _ _ _ _ _ _ _ _ _ L1). reflexivity.
  - apply (examples_loop_column _ _ _ _ _ _ _ _ _ _ L2). reflexivity.
Qed.

Lemma format_response_clock_witness :
  exists pe ne,
    path ["positive_perspective"; "examples"] Scenario.one_each_formatted
    = Some (JArr pe)
    /\ path ["negative_perspective"; "examples"] Scenario.one_each_formatted
       = Some (JArr ne)
    /\ column "created" pe = [Some (JStr "2024-12-31")]
    /\ column "created" ne = [Some (JStr "2025-01-01")]
    /\ path ["timestamp"] Scenario.one_each_formatted
       = Some (JStr "2025-01-01T00:00:00.000002").
Proof.
  assert (F : format_response Sample.float_str Sample.str_repr (JStr "tea")
                Scenario.one_each Scenario.overnight Sample.fresh
              = (Return Scenario.one_each_formatted, ticked 3 Sample.fresh))
    by (vm_compute; reflexivity).
  destruct (format_response_clock Sample.float_str Sample.str_repr (JStr "tea")
              Scenario.one_each Scenario.overnight Sample.fresh _ _ _ _
              F eq_refl eq_refl)
    as (_ & pe & ne & R1 & R2 & C1 & C2 & T).
  exists pe, ne. repeat split; assumption.
Defined.

(* ================================================================== *)
(** * The formatter: payloads that it refuses *)

(** X10.  An answer of the remote model that parses but is not a JSON
    object (a list, a string, a number, [true], [false] or [null]) fails at
    the first lookup of [format_response] with a [TypeError], before the
    clock is read, and the request is answered 500 "Analysis failed: "
    followed by its message, not "Failed to parse AI response". *)
Theorem payload_not_an_object :
  forall (json_loads : string -> outcome json)
         (float_str str_repr : string -> string)
         req E w body topic text cand data,
    get_json req = Return body ->
    get_method body "topic" (JStr "") = Return topic ->
    truthy float_str topic = true ->
    env_missing (GEMINI_API_KEY E) = false ->
    generate_content E (prompt float_str str_repr topic) = Return text ->
    extract_json (Str.strip text) = Return cand ->
    json_loads cand = Return data ->
    is_dict data = false ->
    exists e,
      getitem data "positive_examples" = Raise e
      /\ exn_cls e = TypeError
      /\ analyze_topic json_loads float_str str_repr req E w
         = (Return (Response 500 (JObj [("error", JStr ("Analysis failed: " ++ exn_str e))])),
            called (prompt float_str str_repr topic) w).
Proof.
  intros json_loads float_str str_repr req E w body topic text cand data
         B T Tr K G X L D.
  rewrite (RouteFacts.analyze_topic_formats json_loads float_str str_repr
             req E w body topic text cand data B T Tr K G X L).
  rewrite EffectFacts.format_response_run.
  destruct (getitem data "positive_examples") as [pos|e] eqn:P.
  - apply LookupFacts.getitem_dict in P. congruence.
  - exists e.
    destruct (LookupFacts.getitem_raise _ _ _ P) as [(D' & _)|(_ & C)];
      [congruence|].
    repeat split; [exact C|].
    rewrite RouteFacts.error_response_other_failure; [reflexivity|].
    unfold is_decode_error. now rewrite C.
Qed.

Lemma payload_not_an_object_witness :
  exists e,
    getitem (JArr [JInt 1; JInt 2]) "positive_examples" = Raise e
    /\ exn_cls e = TypeError
    /\ analyze_topic Decoder.loads Sample.float_str Sample.str_repr
         (Sample.topic_request "tea") (Sample.answering "[1, 2]") Sample.fresh
       = (Return (Response 500
                    (JObj [("error", JStr ("Analysis failed: " ++ exn_str e))])),
          called (prompt Sample.float_str Sample.str_repr (JStr "tea")) Sample.fresh).
Proof.
  apply (payload_not_an_object Decoder.loads Sample.float_str Sample.str_repr
           (Sample.topic_request "tea") (Sample.answering "[1, 2]") Sample.fresh
           (JObj [("topic", JStr "tea")]) (JStr "tea") "[1, 2]" "[1, 2]"
           (JArr [JInt 1; JInt 2]));
    vm_compute; reflexivity.
Defined.

(** X11.  On a payload that is a JSON object, [format_response] names the
    first key it misses, in the order in which it looks: with no
    [positive_examples] it raises [KeyError] with the message
    ['positive_examples'], whatever else is missing; a positive example
    that is a dict without [text], those before it being complete, gives
    ['text']; with complete positive examples and no [negative_examples],
    ['negative_examples']; with both lists complete and no
    [sentiment_distribution], ['sentiment_distribution']; and with a
    distribution that is a dict, the first of [positive], [negative] and
    [neutral] that it lacks. *)
Theorem missing_key_is_named :
  forall (float_str str_repr : string -> string) topic d E w,
    (Dict.get "positive_examples" d = None ->
     format_response float_str str_repr topic (JObj d) E w
     = (Raise (key_error "positive_examples"), w))
    /\ (forall before ex rest,
           Dict.get "positive_examples" d = Some (JArr (before ++ ex :: rest)%list) ->
           forallb (has_key "text") before = true ->
           is_dict ex = true -> has_key "text" ex = false ->
           fst (format_response float_str str_repr topic (JObj d) E w)
           = Raise (key_error "text"))
    /\ (examples_present "positive_examples" (JObj d) = true ->
        Dict.get "negative_examples" d = None ->
        fst (format_response float_str str_repr topic (JObj d) E w)
        = Raise (key_error "negative_examples"))
    /\ (examples_present "positive_examples" (JObj d) = true ->
        examples_present "negative_examples" (JObj d) = true ->
        (Dict.get "sentiment_distribution" d = None ->
         fst (format_response float_str str_repr topic (JObj d) E w)
         = Raise (key_error "sentiment_distribution"))
        /\ (forall sd,
               Dict.get "sentiment_distribution" d = Some (JObj sd) ->
               (Dict.get "positive" sd = None ->
                fst (format_response float_str str_repr topic (JObj d) E w)
                = Raise (key_error "positive"))
               /\ (Dict.get "positive" sd <> None ->
                   Dict.get "negative" sd = None ->
                   fst (format_response float_str str_repr topic (JObj d) E w)
                   = Raise (key_error "negative"))
               /\ (Dict.get "positive" sd <> None ->
                   Dict.get "negative" sd <> None ->
                   Dict.get "neutral" sd = None ->
                   fst (format_response float_str str_repr topic (JObj d) E w)
                   = Raise (key_error "neutral"))))
    /\ (forall k, exn_cls (key_error k) = KeyError
                  /\ exn_str (key_error k) = sq ++ k ++ sq).
Proof.
  intros float_str str_repr topic d E w.
  assert (lookup : forall k x, Dict.get k d = Some x -> getitem (JObj d) k = Return x).
  { intros k x H. simpl. now rewrite H. }
  assert (miss : forall k l, Dict.get k l = None -> getitem (JObj l) k = Raise (key_error k)).
  { intros k l H. simpl. now rewrite H. }
  assert (loop : forall label base first k (w0 : world),
             examples_present k (JObj d) = true ->
             exists v l es,
               getitem (JObj d) k = Return v /\ iterate v = Return l
               /\ examples_loop label base first 0 l E w0
                  = (Return es, ticked (List.length l) w0)).
  { intros label base first k w0 H.
    apply EffectFacts.examples_present_inv in H as (v & l & G & I & F).
    destruct (FormatFacts.examples_loop_total label base first l 0 E w0 F) as [es L].
    now exists v, l, es. }
  split; [|split; [|split; [|split]]].
  - intros P. rewrite EffectFacts.format_response_run. now rewrite (miss _ _ P).
  - intros before ex rest P F D T.
    rewrite EffectFacts.format_response_run, (lookup _ _ P). cbn [iterate].
    assert (G : getitem ex "text" = Raise (key_error "text")).
    { destruct ex; try discriminate. unfold has_key in T. simpl in T. simpl.
      destruct (Dict.get "text" fields); [discriminate|reflexivity]. }
    pose proof (EffectFacts.examples_loop_stops "positive" 100 1 before ex rest _
                  0 E w F G) as S.
    destruct (examples_loop "positive" 100 1 0 (before ++ ex :: rest)%list E w)
      as [[es|e] w1]; cbn [fst] in *; [discriminate|].
    now injection S as ->.
  - intros P1 N.
    destruct (loop "positive" 100%Z 1%Z "positive_examples" w P1)
      as (v & l & es & G & I & L).
    rewrite EffectFacts.format_response_run, G, I, L. now rewrite (miss _ _ N).
  - intros P1 P2.
    destruct (loop "positive" 100%Z 1%Z "positive_examples" w P1)
      as (v1 & l1 & es1 & G1 & I1 & L1).
    destruct (loop "negative" 95%Z 6%Z "negative_examples"
                (ticked (List.length l1) w) P2)
      as (v2 & l2 & es2 & G2 & I2 & L2).
    rewrite EffectFacts.format_response_run, G1, I1, L1, G2, I2, L2.
    split.
    + intros N. now rewrite (miss _ _ N).
    + intros sd S. rewrite (lookup _ _ S). repeat split.
      * intros Np. now rewrite (miss _ _ Np).
      * intros Hp Nn.
        destruct (Dict.get "positive" sd) as [p|] eqn:Gp; [|congruence].
        assert (Gp' : getitem (JObj sd) "positive" = Return p)
          by (simpl; now rewrite Gp).
        rewrite Gp'. now rewrite (miss _ _ Nn).
      * intros Hp Hn Nu.
        destruct (Dict.get "positive" sd) as [p|] eqn:Gp; [|congruence].
        destruct (Dict.get "negative" sd) as [n|] eqn:Gn; [|congruence].
        assert (Gp' : getitem (JObj sd) "positive" = Return p)
          by (simpl; now rewrite Gp).
        assert (Gn' : getitem (JObj sd) "negative" = Return n)
          by (simpl; now rewrite Gn).
        rewrite Gp', Gn'. now rewrite (miss _ _ Nu).
  - intros k. split; reflexivity.
Qed.

Lemma missing_key_is_named_witness :
  fst (format_response Sample.float_str Sample.str_repr (JStr "tea")
         (JObj Scenario.no_neutral) Scenario.overnight Sample.fresh)
  = Raise (key_error "neutral")
  /\ fst (format_response Sample.float_str Sample.str_repr (JStr "tea")
            (JObj Scenario.no_text) Scenario.overnight Sample.fresh)
     = Raise (key_error "text")
  /\ exn_str (key_error "neutral") = sq ++ "neutral" ++ sq.
Proof.
  pose proof (missing_key_is_named Sample.float_str Sample.str_repr (JStr "tea")
                Scenario.no_neutral Scenario.overnight Sample.fresh)
    as (_ & _ & _ & D & M).
  pose proof (missing_key_is_named Sample.float_str Sample.str_repr (JStr "tea")
                Scenario.no_text Scenario.overnight Sample.fresh)
    as (_ & T & _).
  split; [|split].
  - destruct (D eq_refl eq_refl) as (_ & D').
    apply (D' [("positive", JInt 60); ("negative", JInt 40)] eq_refl);
      [discriminate|discriminate|reflexivity].
  - apply (T [Sample.example "a"] (JObj [("reasoning", JStr "r")])
             [Sample.example "c"]); reflexivity.
  - apply M.
Defined.

(* ================================================================== *)
(** * The formatter: the authors of the two groups *)

Module AuthorFacts.

Lemma to_int_proper (z : Z) :
  Z.to_int z <> Decimal.Pos Decimal.Nil /\ Z.to_int z <> Decimal.Neg Decimal.Nil.
Proof.
  split; intros H; pose proof (DecimalZ.of_to z) as O; rewrite H in O;
    simpl in O; subst z; discriminate H.
Qed.

(** [str] of an [int] tells the int. *)
Lemma of_int_inj (a b : Z) : Str.of_int a = Str.of_int b -> a = b.
Proof.
  unfold Str.of_int. intros H.
  apply DecimalZ.to_int_inj.
  destruct (to_int_proper a) as [A1 A2]. destruct (to_int_proper b) as [B1 B2].
  pose proof (NilZero.isi _ A1 A2) as Ia. pose proof (NilZero.isi _ B1 B2) as Ib.
  rewrite H in Ia. rewrite Ia in Ib. now injection Ib.
Qed.

Lemma author_of_eq (f g : Z) (i j : nat) :
  author_of f i = author_of g j <-> (Z.of_nat i + f = Z.of_nat j + g)%Z.
Proof.
  unfold author_of. split.
  - intros H. injection H as H. now apply of_int_inj.
  - now intros ->.
Qed.

Lemma nth_error_seq_map {A} (f : nat -> A) (n i : nat) :
  i < n -> nth_error (map f (seq 0 n)) i = Some (f i).
Proof.
  intros H. rewrite nth_error_map, nth_error_seq.
  destruct (Nat.ltb_spec i n); [reflexivity|lia].
Qed.

End AuthorFacts.

(** X12.  In a result of [format_response] the authors are numbered from 1
    in the positive group and from 6 in the negative one.  Within a group
    no two entries have the same author; the positive entry at index [i]
    and the negative entry at index [j] have the same author exactly when
    [i = j + 5]; so the authors of a response are pairwise distinct when
    there are at most five positive examples, and a sixth positive example
    shares [user_6] with the first negative one. *)
Theorem authors_overlap_from_the_sixth :
  forall (float_str str_repr : string -> string) topic data E w r w' ps ns,
    format_response float_str str_repr topic data E w = (Return r, w') ->
    path ["positive_examples"] data = Some (JArr ps) ->
    path ["negative_examples"] data = Some (JArr ns) ->
    exists pe ne,
      path ["positive_perspective"; "examples"] r = Some (JArr pe)
      /\ path ["negative_perspective"; "examples"] r = Some (JArr ne)
      /\ NoDup (column "author" pe)
      /\ NoDup (column "author" ne)
      /\ (forall i j, i < List.length ps -> j < List.length ns ->
            (nth_error (column "author" pe) i = nth_error (column "author" ne) j
             <-> i = j + 5))
      /\ (List.length ps <= 5 -> NoDup (column "author" pe ++ column "author" ne)%list).
Proof.
  intros float_str str_repr topic data E w r w' ps ns H P1 P2.
  destruct (format_response_loops _ _ _ _ _ _ _ _ _ _ H P1 P2)
    as (pe & ne & R1 & R2 & L1 & L2 & _).
  assert (A1 : column "author" pe
               = map (author_of 1) (seq 0 (List.length ps))).
  { apply (examples_loop_column _ _ _ _ _ _ _ _ _ _ L1). reflexivity. }
  assert (A2 : column "author" ne
               = map (author_of 6) (seq 0 (List.length ns))).
  { apply (examples_loop_column _ _ _ _ _ _ _ _ _ _ L2). reflexivity. }
  assert (inj : forall f, Injective (author_of f)).
  { intros f i j Hij. apply AuthorFacts.author_of_eq in Hij. lia. }
  assert (N1 : NoDup (column "author" pe)).
  { rewrite A1. apply Injective_map_NoDup; [apply inj|apply seq_NoDup]. }
  assert (N2 : NoDup (column "author" ne)).
  { rewrite A2. apply Injective_map_NoDup; [apply inj|apply seq_NoDup]. }
  exists pe, ne. repeat split; try assumption.
  - rewrite A1, A2, !AuthorFacts.nth_error_seq_map by assumption.
    intros Hij.
    assert (Hij' : author_of 1 i = author_of 6 j) by congruence.
    apply AuthorFacts.author_of_eq in Hij'. lia.
  - intros ->. rewrite A1, A2, !AuthorFacts.nth_error_seq_map by assumption.
    f_equal. apply (proj2 (AuthorFacts.author_of_eq 1 6 (j + 5) j)). lia.
  - intros Five. apply NoDup_app; try assumption.
    intros a Ia Ib. rewrite A1 in Ia. rewrite A2 in Ib.
    apply in_map_iff in Ia as (i & <- & Hi). apply in_map_iff in Ib as (j & Hj & Ij).
    apply in_seq in Hi, Ij. apply AuthorFacts.author_of_eq in Hj. lia.
Qed.

Lemma authors_overlap_from_the_sixth_witness :
  exists pe ne,
    path ["positive_perspective"; "examples"] Scenario.six_and_one_formatted
    = Some (JArr pe)
    /\ path ["negative_perspective"; "examples"] Scenario.six_and_one_formatted
       = Some (JArr ne)
    /\ nth_error (column "author" pe) 5 = nth_error (column "author" ne) 0
    /\ nth_error (column "author" pe) 5 = Some (Some (JStr "user_6")).
Proof.
  assert (F : format_response Sample.float_str Sample.str_repr (JStr "tea")
                Scenario.six_and_one Scenario.overnight Sample.fresh
              = (Return Scenario.six_and_one_formatted, ticked 8 Sample.fresh))
    by (vm_compute; reflexivity).
  destruct (authors_overlap_from_the_sixth Sample.float_str Sample.str_repr
              (JStr "tea") Scenario.six_and_one Scenario.overnight Sample.fresh
              _ _ _ _ F eq_refl eq_refl)
    as (pe & ne & R1 & R2 & _ & _ & O & _).
  exists pe, ne. split; [exact R1|]. split; [exact R2|]. split.
  - apply (O 5 0); simpl; lia.
  - vm_compute in R1. injection R1 as <-. reflexivity.
Defined.

(* ================================================================== *)
(** * Strings: occurrences *)

Module OccurFacts.
Import Str StrFacts StripFacts ExtractFacts.

(** An occurrence in a text is one in any text around it. *)
Lemma contains_middle (sep u x w : string) :
  contains sep x = true -> contains sep (u ++ x ++ w) = true.
Proof.
  unfold contains.
  destruct (partition sep x) as [[a b]|] eqn:P; [|discriminate]. intros _.
  apply partition_split in P. subst x.
  destruct (partition_finds sep (u ++ a) (b ++ w)) as (a' & b' & F & _).
  rewrite !append_assoc in *. now rewrite F.
Qed.

Lemma contains_none_middle (sep u x w : string) :
  contains sep (u ++ x ++ w) = false -> contains sep x = false.
Proof.
  intros H. destruct (contains sep x) eqn:C; [|reflexivity].
  now rewrite (contains_middle sep u x w C) in H.
Qed.

Lemma lstrip_suffix (s : string) : exists u, s = u ++ lstrip s.
Proof.
  functional induction (lstrip s);
    try (now exists "");
    destruct IHs0 as [u Hu].
  - exists (String c1 u). simpl. now f_equal.
  - exists (String c1 (String c2 u)). simpl. now do 2 f_equal.
  - exists (String c1 (String c2 (String c3 u))). simpl. now do 3 f_equal.
Qed.

(** [strip] leaves a part of the text. *)
Lemma strip_middle (s : string) : exists u w, s = u ++ strip s ++ w.
Proof.
  unfold strip. destruct (lstrip_suffix s) as [u Hu].
  destruct (rstrip_prefix (lstrip s)) as [w Hw].
  exists u, w. now rewrite <- Hw.
Qed.

Lemma contains_none_strip (sep s : string) :
  contains sep s = false -> contains sep (strip s) = false.
Proof.
  destruct (strip_middle s) as (u & w & E). intros H. rewrite E in H.
  now apply contains_none_middle in H.
Qed.

(** The text up to the next separator does not hold the separator. *)
Lemma contains_none_up_to (sep s : string) :
  sep <> "" -> contains sep (Fence.up_to sep s) = false.
Proof.
  intros Hs. unfold Fence.up_to, contains.
  destruct (partition sep s) as [[a b]|] eqn:P.
  - now rewrite (partition_before Hs P).
  - now rewrite P.
Qed.

(** A tagged delimiter is a delimiter. *)
Lemma tagged_is_fence (s : string) :
  contains "```json" s = true -> contains "```" s = true.
Proof.
  unfold contains at 1.
  destruct (partition "```json" s) as [[a b]|] eqn:P; [|discriminate]. intros _.
  apply partition_split in P. subst s.
  change (a ++ "```json" ++ b) with (a ++ "```" ++ ("json" ++ b)).
  unfold contains.
  destruct (partition_finds "```" a ("json" ++ b)) as (a' & b' & F & _).
  now rewrite F.
Qed.

Lemma no_fence_no_tag (s : string) :
  contains "```" s = false -> contains "```json" s = false.
Proof.
  intros H. destruct (contains "```json" s) eqn:C; [|reflexivity].
  now rewrite (tagged_is_fence s C) in H.
Qed.

Lemma startswith_app (p q s : string) :
  startswith (p ++ q) s = startswith p s && startswith q (drop (String.length p) s).
Proof.
  revert s. induction p as [|a p IH]; intros s.
  - reflexivity.
  - destruct s as [|b s]; [reflexivity|]. cbn [append startswith String.length drop].
    now rewrite IH, andb_assoc.
Qed.

Lemma drop_drop (a b : nat) (s : string) : drop a (drop b s) = drop (b + a) s.
Proof.
  revert s. induction b as [|b IH]; intros s; [reflexivity|].
  destruct s as [|c s]; [now destruct a|]. apply IH.
Qed.

(** The first delimiter, when [json] follows it, is the first tagged
    delimiter. *)
Lemma partition_tagged : forall s a b,
  partition "```" s = Some (a, b) -> startswith "json" b = true ->
  partition "```json" s = Some (a, drop 4 b).
Proof.
  induction s as [|c s IH]; intros a b P J; [discriminate P|].
  pose proof (startswith_app "```" "json" (String c s)) as T.
  change ("```" ++ "json") with "```json" in T.
  change (String.length "```") with 3 in T.
  cbn [partition] in P.
  destruct (startswith "```" (String c s)) eqn:F.
  - injection P as <- <-.
    assert (J' : startswith "json" (drop 3 (String c s)) = true) by exact J.
    rewrite J' in T. cbn [partition]. rewrite T.
    change (String.length "```json") with (3 + 4).
    rewrite <- drop_drop. reflexivity.
  - destruct (partition "```" s) as [[a0 b0]|] eqn:P0; [|discriminate].
    injection P as <- <-. cbn [andb] in T.
    cbn [partition]. rewrite T. now rewrite (IH _ _ eq_refl J).
Qed.

Lemma partition_head (sep s : string) :
  startswith sep s = true -> partition sep s = Some ("", drop (String.length sep) s).
Proof. intros H. destruct s; cbn [partition]; now rewrite H. Qed.

(** A cut depends on the text up to the separator only. *)
Lemma partition_here (sep a b x : string) :
  partition sep (a ++ sep ++ b) = Some (a, b) ->
  partition sep (a ++ sep ++ x) = Some (a, x).
Proof.
  induction a as [|c a IH]; intros P.
  - cbn [append]. rewrite (partition_head _ _ (startswith_append sep x)).
    now rewrite drop_append.
  - cbn [append] in *. cbn [partition] in *.
    assert (L : String.length sep <= String.length (String c (a ++ sep))).
    { cbn [String.length]. rewrite length_append. lia. }
    assert (Eb : String c (a ++ sep ++ b) = String c (a ++ sep) ++ b)
      by (cbn [append]; now rewrite append_assoc).
    assert (Ex : String c (a ++ sep ++ x) = String c (a ++ sep) ++ x)
      by (cbn [append]; now rewrite append_assoc).
    rewrite Eb in P. rewrite Ex.
    rewrite (startswith_long sep _ b L) in P.
    rewrite (startswith_long sep _ x L).
    destruct (startswith sep (String c (a ++ sep))); [discriminate P|].
    destruct (partition sep (a ++ sep ++ b)) as [[a0 b0]|] eqn:Q; [|discriminate].
    injection P as -> ->. rewrite (IH eq_refl). reflexivity.
Qed.

(** The first tagged delimiter stands at the first delimiter or after it,
    when no backquote follows the first delimiter. *)
Lemma tagged_after_fence : forall s a b a' b',
  partition "```" s = Some (a, b) -> startswith "`" b = false ->
  partition "```json" s = Some (a', b') ->
  a' = a \/ exists x, a' = a ++ "```" ++ x.
Proof.
  induction s as [|c s IH]; intros a b a' b' P B Q; [discriminate P|].
  pose proof (startswith_app "```" "json" (String c s)) as T.
  change ("```" ++ "json") with "```json" in T.
  cbn [partition] in P, Q.
  destruct (startswith "```" (String c s)) eqn:F.
  - injection P as <- Hb.
    destruct (startswith "```json" (String c s)); [injection Q as <- _; now left|].
    destruct (partition "```json" s) as [[a0 b0]|] eqn:Q0; [|discriminate].
    injection Q as <- <-. right.
    assert (E : String c s = "```" ++ b)
      by (rewrite <- Hb; apply (startswith_split _ _ F)).
    apply partition_split in Q0.
    cbn [append] in E. injection E as -> E. rewrite E in Q0. clear - Q0 B.
    destruct a0 as [|c1 [|c2 x]]; cbn [append] in Q0.
    + injection Q0 as Q0. rewrite Q0 in B. discriminate B.
    + injection Q0 as _ Q0. rewrite Q0 in B. discriminate B.
    + injection Q0 as <- <- _. now exists x.
  - destruct (partition "```" s) as [[a0 b0]|] eqn:P0; [|discriminate].
    injection P as <- <-. cbn [andb] in T. rewrite T in Q.
    destruct (partition "```json" s) as [[a1 b1]|] eqn:Q0; [|discriminate].
    injection Q as <- <-.
    destruct (IH _ _ _ _ eq_refl B eq_refl) as [->|[x ->]]; [now left|].
    right. now exists x.
Qed.

(** The content of a block: the text up to the first delimiter is what
    line 59 cuts out, whatever follows, when no backquote follows that
    delimiter. *)
Lemma cut_block (s a b : string) :
  partition "```" s = Some (a, b) -> startswith "`" b = false ->
  Fence.up_to "```" (Fence.up_to "```json" s) = a.
Proof.
  intros P B. unfold Fence.up_to at 2.
  destruct (partition "```json" s) as [[a' b']|] eqn:Q.
  - destruct (tagged_after_fence _ _ _ _ _ P B Q) as [->|[x ->]].
    + unfold Fence.up_to. now rewrite (partition_before fence_nonempty P).
    + pose proof (partition_split P) as E. rewrite E in P.
      unfold Fence.up_to. now rewrite (partition_here _ _ _ x P).
  - unfold Fence.up_to. now rewrite P.
Qed.

(** Text without a delimiter that does not end in a backquote, followed by
    a delimiter: the first delimiter is that one. *)
Lemma fence_after_prose (pre y : string) :
  contains "```" pre = false -> Fence.last pre <> Some Fence.backquote ->
  partition "```" (pre ++ "```" ++ y) = Some (pre, y).
Proof.
  unfold contains. destruct (partition "```" pre) as [[a b]|] eqn:P; [discriminate|].
  intros _ L. rewrite (partition_seam pre ("```" ++ y) P (or_introl L)).
  rewrite (partition_head "```" ("```" ++ y) (startswith_append _ _)), drop_append.
  now rewrite append_nil_r.
Qed.

End OccurFacts.

(* ================================================================== *)
(** * The client: answers with and without a block *)

Module BlockFacts.
Import Str StrFacts StripFacts ExtractFacts OccurFacts.

(** A text without a delimiter is taken as it is. *)
Lemma extract_json_bare (t : string) :
  contains "```" t = false -> extract_json t = Return t.
Proof.
  intros H. rewrite extract_json_cut.
  now rewrite (no_fence_no_tag t H), H.
Qed.

(** A block opened by the tagged delimiter after prose. *)
Lemma extract_json_tagged (pre rest : string) :
  contains "```" pre = false -> Fence.last pre <> Some Fence.backquote ->
  extract_json (pre ++ "```json" ++ rest)
  = Return (strip (Fence.up_to "```" (Fence.up_to "```json" rest))).
Proof.
  intros N L.
  pose proof (fence_after_prose pre ("json" ++ rest) N L) as P.
  apply partition_tagged in P; [|reflexivity].
  change (drop 4 ("json" ++ rest)) with rest in P.
  change (pre ++ "```" ++ "json" ++ rest) with (pre ++ "```json" ++ rest) in P.
  rewrite extract_json_cut.
  unfold Fence.candidate_cut, Fence.after, contains at 1 3. rewrite P.
  reflexivity.
Qed.

(** A block opened by a bare delimiter after prose, in a text without a
    tagged delimiter. *)
Lemma extract_json_untagged (pre rest : string) :
  contains "```json" (pre ++ "```" ++ rest) = false ->
  contains "```" pre = false -> Fence.last pre <> Some Fence.backquote ->
  extract_json (pre ++ "```" ++ rest) = Return (strip (Fence.up_to "```" rest)).
Proof.
  intros T N L.
  pose proof (fence_after_prose pre rest N L) as P.
  rewrite extract_json_cut, T.
  unfold Fence.candidate_cut. rewrite T.
  unfold contains, Fence.between, Fence.after. rewrite P. reflexivity.
Qed.

Lemma up_to_none (sep s : string) :
  contains sep s = false -> Fence.up_to sep s = s.
Proof.
  unfold contains, Fence.up_to. now destruct (partition sep s) as [[a b]|].
Qed.

End BlockFacts.

(** X13.  An answer without a delimiter is parsed as it is: when the text
    of the answer is a JSON document, with or without whitespace around it,
    the client returns what [json.loads] makes of that document, and
    nothing is printed. *)
Theorem bare_answer_is_parsed :
  forall (float_str str_repr : string -> string) topic E w J v,
    Decoder.loads J = Return v ->
    Str.contains "```" J = false ->
    generate_content E (prompt float_str str_repr topic) = Return J ->
    extract_json (Str.strip J) = Return (Str.strip J)
    /\ analyze_topic_with_gemini Decoder.loads float_str str_repr topic E w
       = (Return v, called (prompt float_str str_repr topic) w).
Proof.
  intros float_str str_repr topic E w J v L N G.
  assert (X : extract_json (Str.strip J) = Return (Str.strip J))
    by (apply BlockFacts.extract_json_bare; now apply OccurFacts.contains_none_strip).
  split; [exact X|].
  rewrite RouteFacts.analyze_topic_with_gemini_run. cbv zeta.
  now rewrite G, X, (DecoderFacts.loads_strip J v L).
Qed.

Lemma bare_answer_is_parsed_witness :
  fst (analyze_topic_with_gemini Decoder.loads Sample.float_str Sample.str_repr
         (JStr "tea") (Sample.answering (" " ++ nl ++ "[1, 2]" ++ nl)) Sample.fresh)
  = Return (JArr [JInt 1; JInt 2]).
Proof.
  rewrite (proj2 (bare_answer_is_parsed Sample.float_str Sample.str_repr (JStr "tea")
                    (Sample.answering (" " ++ nl ++ "[1, 2]" ++ nl)) Sample.fresh
                    (" " ++ nl ++ "[1, 2]" ++ nl) (JArr [JInt 1; JInt 2])
                    eq_refl eq_refl eq_refl)).
  reflexivity.
Defined.

(** X14.  Text around a tagged block is ignored.  When the stripped answer
    is some text, the tagged delimiter, a content, a delimiter and more
    text, where the text before and the content hold no delimiter and do
    not end in a backquote and what follows the closing delimiter does not
    start with one, the text parsed is the content, stripped: whatever
    comes after the block, further blocks included, plays no part. *)
Theorem tagged_block_amid_prose :
  forall (json_loads : string -> outcome json)
         (float_str str_repr : string -> string) topic E w text pre mid post,
    generate_content E (prompt float_str str_repr topic) = Return text ->
    Str.strip text = pre ++ "```json" ++ mid ++ "```" ++ post ->
    Str.contains "```" pre = false -> Fence.last pre <> Some Fence.backquote ->
    Str.contains "```" mid = false -> Fence.last mid <> Some Fence.backquote ->
    Str.startswith "`" post = false ->
    extract_json (Str.strip text) = Return (Str.strip mid)
    /\ fst (analyze_topic_with_gemini json_loads float_str str_repr topic E w)
       = json_loads (Str.strip mid).
Proof.
  intros json_loads float_str str_repr topic E w text pre mid post
         G S Np Lp Nm Lm B.
  assert (X : extract_json (Str.strip text) = Return (Str.strip mid)).
  { rewrite S, (BlockFacts.extract_json_tagged pre _ Np Lp).
    now rewrite (OccurFacts.cut_block _ _ _
                   (OccurFacts.fence_after_prose mid post Nm Lm) B). }
  split; [exact X|].
  rewrite RouteFacts.analyze_topic_with_gemini_run. cbv zeta.
  rewrite G, X. now destruct (json_loads (Str.strip mid)).
Qed.

Lemma tagged_block_amid_prose_witness :
  fst (analyze_topic_with_gemini Decoder.loads Sample.float_str Sample.str_repr
         (JStr "tea")
         (Sample.answering
            ("Sure!" ++ nl ++ "```json" ++ nl ++ "[1]" ++ nl ++ "```" ++ nl
                     ++ "Or: ```json[2]``` and `x`."))
         Sample.fresh)
  = Return (JArr [JInt 1]).
Proof.
  rewrite (proj2 (tagged_block_amid_prose Decoder.loads Sample.float_str
                    Sample.str_repr (JStr "tea")
                    (Sample.answering
                       ("Sure!" ++ nl ++ "```json" ++ nl ++ "[1]" ++ nl ++ "```" ++ nl
                                ++ "Or: ```json[2]``` and `x`."))
                    Sample.fresh _
                    ("Sure!" ++ nl) (nl ++ "[1]" ++ nl)
                    (nl ++ "Or: ```json[2]``` and `x`.")
                    eq_refl eq_refl eq_refl ltac:(discriminate) eq_refl
                    ltac:(discriminate) eq_refl)).
  reflexivity.
Defined.

(** X15.  The same for a block opened by a bare delimiter, in an answer
    that holds no tagged delimiter: the text parsed is the content between
    the first two delimiters, stripped. *)
Theorem untagged_block_amid_prose :
  forall (json_loads : string -> outcome json)
         (float_str str_repr : string -> string) topic E w text pre mid post,
    generate_content E (prompt float_str str_repr topic) = Return text ->
    Str.strip text = pre ++ "```" ++ mid ++ "```" ++ post ->
    Str.contains "```json" (Str.strip text) = false ->
    Str.contains "```" pre = false -> Fence.last pre <> Some Fence.backquote ->
    Str.contains "```" mid = false -> Fence.last mid <> Some Fence.backquote ->
    extract_json (Str.strip text) = Return (Str.strip mid)
    /\ fst (analyze_topic_with_gemini json_loads float_str str_repr topic E w)
       = json_loads (Str.strip mid).
Proof.
  intros json_loads float_str str_repr topic E w text pre mid post
         G S T Np Lp Nm Lm.
  assert (X : extract_json (Str.strip text) = Return (Str.strip mid)).
  { rewrite S in *. rewrite (BlockFacts.extract_json_untagged pre _ T Np Lp).
    unfold Fence.up_to.
    now rewrite (OccurFacts.fence_after_prose mid post Nm Lm). }
  split; [exact X|].
  rewrite RouteFacts.analyze_topic_with_gemini_run. cbv zeta.
  rewrite G, X. now destruct (json_loads (Str.strip mid)).
Qed.

Lemma untagged_block_amid_prose_witness :
  fst (analyze_topic_with_gemini Decoder.loads Sample.float_str Sample.str_repr
         (JStr "tea")
         (Sample.answering
            ("Sure!" ++ nl ++ "```" ++ nl ++ "[1]" ++ nl ++ "```" ++ nl
                     ++ "Or: ```[2]```."))
         Sample.fresh)
  = Return (JArr [JInt 1]).
Proof.
  rewrite (proj2 (untagged_block_amid_prose Decoder.loads Sample.float_str
                    Sample.str_repr (JStr "tea")
                    (Sample.answering
                       ("Sure!" ++ nl ++ "```" ++ nl ++ "[1]" ++ nl ++ "```" ++ nl
                                ++ "Or: ```[2]```."))
                    Sample.fresh _
                    ("Sure!" ++ nl) (nl ++ "[1]" ++ nl) (nl ++ "Or: ```[2]```.")
                    eq_refl eq_refl eq_refl eq_refl ltac:(discriminate) eq_refl
                    ltac:(discriminate))).
  reflexivity.
Defined.

(** X16.  A block that is never closed is read to the end: when the
    stripped answer is some text, an opening delimiter (tagged, or bare in
    an answer without a tagged one) and a content without a delimiter, the
    text parsed is that content, stripped. *)
Theorem unclosed_block_is_read_to_the_end :
  forall (json_loads : string -> outcome json)
         (float_str str_repr : string -> string) topic E w text pre mid,
    generate_content E (prompt float_str str_repr topic) = Return text ->
    Str.strip text = pre ++ "```json" ++ mid
    \/ (Str.strip text = pre ++ "```" ++ mid
        /\ Str.contains "```json" (Str.strip text) = false) ->
    Str.contains "```" pre = false -> Fence.last pre <> Some Fence.backquote ->
    Str.contains "```" mid = false ->
    extract_json (Str.strip text) = Return (Str.strip mid)
    /\ fst (analyze_topic_with_gemini json_loads float_str str_repr topic E w)
       = json_loads (Str.strip mid).
Proof.
  intros json_loads float_str str_repr topic E w text pre mid G S Np Lp Nm.
  assert (X : extract_json (Str.strip text) = Return (Str.strip mid)).
  { destruct S as [S|[S T]]; rewrite S in *.
    - rewrite (BlockFacts.extract_json_tagged pre _ Np Lp).
      rewrite (BlockFacts.up_to_none "```json" mid (OccurFacts.no_fence_no_tag _ Nm)).
      now rewrite (BlockFacts.up_to_none "```" mid Nm).
    - rewrite (BlockFacts.extract_json_untagged pre _ T Np Lp).
      now rewrite (BlockFacts.up_to_none "```" mid Nm). }
  split; [exact X|].
  rewrite RouteFacts.analyze_topic_with_gemini_run. cbv zeta.
  rewrite G, X. now destruct (json_loads (Str.strip mid)).
Qed.

Lemma unclosed_block_is_read_to_the_end_witness :
  fst (analyze_topic_with_gemini Decoder.loads Sample.float_str Sample.str_repr
         (JStr "tea")
         (Sample.answering ("Here: ```json" ++ nl ++ "[1]" ++ nl))
         Sample.fresh)
  = Return (JArr [JInt 1]).
Proof.
  rewrite (proj2 (unclosed_block_is_read_to_the_end Decoder.loads Sample.float_str
                    Sample.str_repr (JStr "tea")
                    (Sample.answering ("Here: ```json" ++ nl ++ "[1]" ++ nl))
                    Sample.fresh _ "Here: " (nl ++ "[1]")
                    eq_refl (or_introl eq_refl) eq_refl ltac:(discriminate) eq_refl)).
  reflexivity.
Defined.

(** X17.  Whatever the answer, the text handed to [json.loads] holds no
    delimiter and has no whitespace left at either end, and the extraction
    applied to it again changes nothing. *)
Theorem parsed_text_is_clean :
  forall text,
  exists c,
    extract_json (Str.strip text) = Return c
    /\ Str.contains "```" c = false
    /\ Str.strip c = c
    /\ extract_json c = Return c.
Proof.
  intros text.
  assert (clean : forall s, Str.contains "```" (Str.strip (Fence.up_to "```" s)) = false).
  { intros s. apply OccurFacts.contains_none_strip.
    apply OccurFacts.contains_none_up_to. discriminate. }
  rewrite ExtractFacts.extract_json_cut.
  destruct (Str.contains "```json" (Str.strip text)) eqn:T.
  - cbn [orb]. unfold Fence.candidate_cut. rewrite T.
    destruct (Fence.after "```json" (Str.strip text)) as [rest|] eqn:A.
    + eexists. split; [reflexivity|]. split; [apply clean|].
      split; [apply StripFacts.strip_idem|].
      apply BlockFacts.extract_json_bare, clean.
    + unfold Fence.after, Str.contains in *.
      destruct (Str.partition "```json" (Str.strip text)) as [[a b]|]; discriminate.
  - cbn [orb]. destruct (Str.contains "```" (Str.strip text)) eqn:F.
    + unfold Fence.candidate_cut. rewrite T, F. unfold Fence.between.
      destruct (Fence.after "```" (Str.strip text)) as [rest|] eqn:A.
      * eexists. split; [reflexivity|]. split; [apply clean|].
        split; [apply StripFacts.strip_idem|].
        apply BlockFacts.extract_json_bare, clean.
      * unfold Fence.after, Str.contains in *.
        destruct (Str.partition "```" (Str.strip text)) as [[a b]|]; discriminate.
    + exists (Str.strip text). split; [reflexivity|]. split; [exact F|].
      split; [apply StripFacts.strip_idem|].
      now apply BlockFacts.extract_json_bare.
Qed.

(* ================================================================== *)
(** * The client: a block with another tag *)

Module TagFacts.
Import Str StrFacts StripFacts ExtractFacts OccurFacts DecoderFacts Decoder Lex.

Lemma up_to_head (c : ascii) (rest : string) :
  c <> Fence.backquote ->
  exists x, Fence.up_to "```" (String c rest) = String c x.
Proof.
  intros N. unfold Fence.up_to. cbn [partition].
  assert (F : startswith "```" (String c rest) = false).
  { cbn [startswith]. destruct (Ascii.eqb "`" c) eqn:Q; [|reflexivity].
    apply Ascii.eqb_eq in Q. now contradiction N. }
  rewrite F. destruct (partition "```" rest) as [[a b]|]; eexists; reflexivity.
Qed.

(** A plain character at the end of a text stops the scan from the
    right. *)
Lemma lstrip_rev_plain (c : ascii) : plain c = true ->
  forall n a, String.length a <= n -> lstrip_rev (a ++ String c "") <> "".
Proof.
  intros P. induction n as [|n IH]; intros a L.
  - destruct a; [|simpl in L; lia]. cbn [append lstrip_rev].
    now rewrite (plain_space1 _ P).
  - destruct a as [|c1 a]; [apply (IH ""); simpl; lia|].
    cbn [append lstrip_rev].
    destruct (space1 c1); [apply IH; simpl in L; lia|].
    destruct a as [|c2 a]; cbn [append].
    { rewrite (plain_space2_lead c c1 P). discriminate. }
    destruct (space2 c2 c1); [apply IH; simpl in L; lia|].
    destruct a as [|c3 a]; cbn [append].
    { rewrite (plain_space3_lead c c2 c1 P). discriminate. }
    destruct (space3 c3 c2 c1); [apply IH; simpl in L; lia|discriminate].
Qed.

(** [strip] keeps a plain character at the head of a text. *)
Lemma strip_head (c : ascii) (x : string) :
  plain c = true -> exists y, strip (String c x) = String c y.
Proof.
  intros P. unfold strip.
  pose proof (lstrip_blank_plain "" x c eq_refl P) as Lh.
  cbn [append] in Lh. rewrite Lh.
  destruct (rstrip_prefix (String c x)) as [w Hw].
  destruct (rstrip (String c x)) as [|d y] eqn:R.
  - exfalso. unfold rstrip in R.
    assert (Z : lstrip_rev (rev (String c x)) = "").
    { rewrite <- (rev_involutive (lstrip_rev (rev (String c x)))). now rewrite R. }
    rewrite rev_cons in Z.
    now apply (lstrip_rev_plain c P _ (rev x) (le_n _)) in Z.
  - cbn [append] in Hw. injection Hw as <- _. now exists y.
Qed.

(** A text that starts with a plain character with which no JSON text
    starts is refused where it starts. *)
Lemma loads_foreign (c : ascii) (y : string) :
  plain c = true -> Tag.opens c = false ->
  loads (String c y)
  = Raise (decode_error "Expecting value" (String c y) (String c y)).
Proof.
  intros P O. unfold Tag.opens in O.
  apply orb_false_iff in O as [O HI]. apply orb_false_iff in O as [O HN].
  apply orb_false_iff in O as [O Hf]. apply orb_false_iff in O as [O Ht].
  apply orb_false_iff in O as [O Hn]. apply orb_false_iff in O as [O Hd].
  apply orb_false_iff in O as [O Hm]. apply orb_false_iff in O as [O Ha].
  apply orb_false_iff in O as [Hq Ho].
  assert (lit : forall l p, Str.byte_is (nat_of_ascii l) c = false ->
                            startswith (String l p) (String c y) = false).
  { intros l p H. cbn [startswith].
    destruct (Ascii.eqb l c) eqn:Q; [|reflexivity].
    apply Ascii.eqb_eq in Q. subst l. unfold byte_is in H.
    now rewrite Nat.eqb_refl in H. }
  unfold loads.
  assert (B : startswith bom (String c y) = false).
  { unfold bom. apply lit. rewrite nat_ascii_embedding by lia.
    apply plain_not; [exact P|lia]. }
  rewrite B. cbn [skip_ws].
  assert (W : ws c = false).
  { unfold ws. now rewrite !(plain_not c _ P) by lia. }
  rewrite W. unfold fuel_for. rewrite Nat.add_comm. cbn [Nat.add scan_once].
  rewrite Hq, Ho, Ha. unfold scan_atom.
  rewrite (lit "n"%char "ull" Hn), (lit "t"%char "rue" Ht), (lit "f"%char "alse" Hf),
    (lit "N"%char "aN" HN), (lit "I"%char "nfinity" HI), (lit "-"%char "Infinity" Hm).
  unfold match_number, integer. rewrite Hm.
  destruct (byte_is 48 c) eqn:Z; [|now rewrite Hd].
  unfold digit in Hd. unfold byte_is in Z. apply Nat.eqb_eq in Z.
  rewrite Z in Hd. discriminate Hd.
Qed.

(** The message for an error at the start of the document. *)
Lemma errmsg_start (msg s : string) :
  errmsg msg s s = msg ++ ": line 1 column 1 (char 0)".
Proof. unfold errmsg. rewrite Nat.sub_diag. destruct s; reflexivity. Qed.

End TagFacts.

(** X18.  Only the tag [json], in lower case, is removed with the opening
    delimiter.  When the stripped answer holds no tagged delimiter and its
    first delimiter is followed by a visible character with which no JSON
    text starts, such as the first letter of [JSON], [python] or [js], that
    character starts the text that is parsed, and the client raises a
    [JSONDecodeError] with the message "Expecting value: line 1 column 1
    (char 0)", whatever the block holds. *)
Theorem other_tag_is_not_removed :
  forall (float_str str_repr : string -> string) topic E w text pre c rest,
    generate_content E (prompt float_str str_repr topic) = Return text ->
    Str.strip text = pre ++ "```" ++ String c rest ->
    Str.contains "```json" (Str.strip text) = false ->
    Str.contains "```" pre = false -> Fence.last pre <> Some Fence.backquote ->
    Lex.plain c = true -> Tag.opens c = false -> c <> Fence.backquote ->
    exists e,
      fst (analyze_topic_with_gemini Decoder.loads float_str str_repr topic E w)
      = Raise e
      /\ exn_cls e = JSONDecodeError
      /\ exn_str e = "Expecting value: line 1 column 1 (char 0)".
Proof.
  intros float_str str_repr topic E w text pre c rest G S T Np Lp P O B.
  destruct (TagFacts.up_to_head c rest B) as [x U].
  destruct (TagFacts.strip_head c x P) as [y Y].
  assert (X : extract_json (Str.strip text) = Return (String c y)).
  { rewrite S in *. rewrite (BlockFacts.extract_json_untagged pre _ T Np Lp).
    now rewrite U, Y. }
  rewrite RouteFacts.analyze_topic_with_gemini_run. cbv zeta.
  rewrite G, X, (TagFacts.loads_foreign c y P O).
  eexists. split; [reflexivity|]. split; [reflexivity|].
  cbn [exn_str Decoder.decode_error]. apply TagFacts.errmsg_start.
Qed.

Lemma other_tag_is_not_removed_witness :
  exists e,
    fst (analyze_topic_with_gemini Decoder.loads Sample.float_str Sample.str_repr
           (JStr "tea")
           (Sample.answering ("```JSON" ++ nl ++ "[1]" ++ nl ++ "```"))
           Sample.fresh)
    = Raise e
    /\ exn_cls e = JSONDecodeError
    /\ exn_str e = "Expecting value: line 1 column 1 (char 0)".
Proof.
  apply (other_tag_is_not_removed Sample.float_str Sample.str_repr (JStr "tea")
           (Sample.answering ("```JSON" ++ nl ++ "[1]" ++ nl ++ "```"))
           Sample.fresh ("```JSON" ++ nl ++ "[1]" ++ nl ++ "```")
           "" "J"%char ("SON" ++ nl ++ "[1]" ++ nl ++ "```"));
    try reflexivity; discriminate.
Defined.

(* ================================================================== *)
(** * The prompt *)

Module PromptFacts.
Import Str StrFacts StripFacts ExtractFacts.





End PromptFacts.


(* ================================================================== *)
(** * The routes: the answer 200 *)

(** X20.  The answer is 200 exactly when every step went through: the
    body is a JSON object with a truthy topic, the key is set, the remote
    model answered, the text extracted from the answer parsed, and the
    parsed payload has every key that [format_response] looks up without a
    default.  The body of the response is then the result of
    [format_response], for the topic as the request gave it. *)
Theorem ok_exactly_when_every_step_succeeds :
  forall (json_loads : string -> outcome json)
         (float_str str_repr : string -> string) req E w,
    ((exists r w',
         analyze_topic json_loads float_str str_repr req E w
         = (Return (Response 200 r), w'))
     <-> exists d topic text cand data,
           req = Body (JObj d)
           /\ get_method (JObj d) "topic" (JStr "") = Return topic
           /\ truthy float_str topic = true
           /\ env_missing (GEMINI_API_KEY E) = false
           /\ generate_content E (prompt float_str str_repr topic) = Return text
           /\ extract_json (Str.strip text) = Return cand
           /\ json_loads cand = Return data
           /\ required_present data = true)
    /\ (forall r w',
           analyze_topic json_loads float_str str_repr req E w
           = (Return (Response 200 r), w') ->
           exists topic data,
             format_response float_str str_repr topic data E
               (called (prompt float_str str_repr topic) w) = (Return r, w')
             /\ path ["topic"] r = Some topic
             /\ printed w' = printed w).
Proof.
  intros json_loads float_str str_repr req E w.
  assert (run : forall r w',
             analyze_topic json_loads float_str str_repr req E w
             = (Return (Response 200 r), w') ->
             exists d topic text cand data,
               req = Body (JObj d)
               /\ get_method (JObj d) "topic" (JStr "") = Return topic
               /\ truthy float_str topic = true
               /\ env_missing (GEMINI_API_KEY E) = false
               /\ generate_content E (prompt float_str str_repr topic) = Return text
               /\ extract_json (Str.strip text) = Return cand
               /\ json_loads cand = Return data
               /\ format_response float_str str_repr topic data E
                    (called (prompt float_str str_repr topic) w) = (Return r, w')).
  { intros r w'. rewrite RouteFacts.analyze_topic_run.
    destruct (get_json req) as [body|e] eqn:B; [|discriminate].
    destruct (get_method body "topic" (JStr "")) as [topic|e] eqn:T; [|discriminate].
    destruct (truthy float_str topic) eqn:Tr; cbn [negb]; [|discriminate].
    destruct (env_missing (GEMINI_API_KEY E)) eqn:K; [discriminate|].
    rewrite RouteFacts.analyze_topic_with_gemini_run. cbv zeta.
    assert (failed : forall e (w1 : world),
               handled e w1 <> (Return (Response 200 r), w')).
    { intros e w1. unfold handled. destruct (is_exception e); discriminate. }
    destruct (generate_content E (prompt float_str str_repr topic)) as [text|e] eqn:G;
      [|intros H; now apply failed in H].
    destruct (extract_json (Str.strip text)) as [cand|e] eqn:X;
      [|intros H; now apply failed in H].
    destruct (json_loads cand) as [data|e] eqn:L;
      [|intros H; now apply failed in H].
    destruct (format_response float_str str_repr topic data E
                (called (prompt float_str str_repr topic) w)) as [[r0|e] w2] eqn:F;
      [|discriminate].
    intros H. injection H as <- <-.
    destruct req as [body'|]; [|discriminate]. simpl in B. injection B as ->.
    destruct body; try discriminate.
    now exists fields, topic, text, cand, data. }
  split; [split|].
  - intros (r & w' & H).
    destruct (run r w' H) as (d & topic & text & cand & data
                              & -> & T & Tr & K & G & X & L & F).
    exists d, topic, text, cand, data. repeat split; try assumption.
    exact (FormatFacts.format_response_required _ _ _ _ _ _ _ _ F).
  - intros (d & topic & text & cand & data & -> & T & Tr & K & G & X & L & R).
    rewrite (RouteFacts.analyze_topic_formats json_loads float_str str_repr
               (Body (JObj d)) E w (JObj d) topic text cand data
               eq_refl T Tr K G X L).
    destruct (FormatFacts.format_response_total float_str str_repr topic data E
                (called (prompt float_str str_repr topic) w) R) as (r & w' & F).
    rewrite F. now exists r, w'.
  - intros r w' H.
    destruct (run r w' H) as (d & topic & text & cand & data
                              & -> & T & Tr & K & G & X & L & F).
    exists topic, data. split; [exact F|].
    destruct (EffectFacts.format_response_ticks float_str str_repr topic data E
                (called (prompt float_str str_repr topic) w)) as [k Hk].
    rewrite F in Hk. cbn [snd] in Hk. subst w'.
    apply FormatFacts.format_response_return in F
      as (pos & ps & pe & neg & ns & ne & sd & p & n & u & _ & _ & _ & _ & _ & _
          & _ & _ & _ & _ & ->).
    split; reflexivity.
Qed.

(* ================================================================== *)
(** * The formatter: examples that are not a list *)

Module IterateFacts.

Lemma chars_aux_nonempty (s cur : string) :
  exists x l, Str.chars_aux cur s = (x :: l)%list.
Proof.
  revert cur. induction s as [|c s IH]; intros cur; cbn [Str.chars_aux].
  - now eexists _, _.
  - destruct (Str.continuation c); [apply IH|now eexists _, _].
Qed.

(** What [enumerate] walks over when the value is not a list: nothing, or
    strings. *)
Lemma iterate_not_list (v : json) (l : list json) :
  is_list v = false -> iterate v = Return l ->
  (l = [] /\ (v = JStr "" \/ v = JObj []))
  \/ exists s rest, l = (JStr s :: rest)%list.
Proof.
  destruct v as [| | | |s|items|d]; try discriminate; intros _ H;
    simpl in H; injection H as <-.
  - destruct s as [|c s]; [left; auto|right]. cbn [Str.chars].
    destruct (chars_aux_nonempty s (String c "")) as (x & r & ->).
    now eexists _, _.
  - destruct d as [|p d]; [left; auto|right]. now eexists _, _.
Qed.

End IterateFacts.

(** X21.  The examples need not be a list for the loop to start:
    [enumerate] walks over the characters of a string and the keys of an
    object too.  When [positive_examples] is not a list, either it is the
    empty string or the empty object and counts as no examples, or
    [format_response] raises a [TypeError] before it reads the clock: a
    number, [true], [false] and [null] are not iterable, and an item of a
    string or of an object is a string, which has no [text]. *)
Theorem examples_that_are_not_a_list :
  forall (float_str str_repr : string -> string) topic d v E w,
    Dict.get "positive_examples" d = Some v ->
    is_list v = false ->
    (iterate v = Return [] /\ (v = JStr "" \/ v = JObj []))
    \/ exists e,
         format_response float_str str_repr topic (JObj d) E w = (Raise e, w)
         /\ exn_cls e = TypeError.
Proof.
  intros float_str str_repr topic d v E w P N.
  assert (G : getitem (JObj d) "positive_examples" = Return v)
    by (simpl; now rewrite P).
  destruct (iterate v) as [l|e] eqn:I.
  - destruct (IterateFacts.iterate_not_list v l N I) as [[-> V]|(s & rest & ->)];
      [now left|right].
    eexists. rewrite EffectFacts.format_response_run, G, I.
    cbn [examples_loop]. unfold bind at 1, lift at 1. cbn [getitem].
    split; reflexivity.
  - right. exists e. rewrite EffectFacts.format_response_run, G, I.
    split; [reflexivity|]. exact (LookupFacts.iterate_raise _ _ I).
Qed.

Lemma examples_that_are_not_a_list_witness :
  exists e,
    format_response Sample.float_str Sample.str_repr (JStr "tea")
      (JObj [("positive_examples", JStr "none")]) Sample.keyless Sample.fresh
    = (Raise e, Sample.fresh)
    /\ exn_cls e = TypeError.
Proof.
  destruct (examples_that_are_not_a_list Sample.float_str Sample.str_repr
              (JStr "tea") [("positive_examples", JStr "none")] (JStr "none")
              Sample.keyless Sample.fresh eq_refl eq_refl)
    as [[I _]|H]; [discriminate I|exact H].
Defined.

(* ================================================================== *)
(** * The client: answers without a block that are not a document *)

Module ProseFacts.
Import Str StrFacts DecoderFacts Decoder Lex.

Lemma plain_not_ws (c : ascii) : plain c = true -> ws c = false.
Proof. intros P. unfold ws. now rewrite !(plain_not c _ P) by lia. Qed.

(** A text that starts with JSON whitespace or with a plain character does
    not start with the byte order mark. *)
Lemma no_bom (c : ascii) (s : string) :
  ws c = true \/ plain c = true -> startswith bom (String c s) = false.
Proof.
  intros H. unfold bom. cbn [startswith].
  destruct (Ascii.eqb (ascii_of_nat 239) c) eqn:Q; [|reflexivity].
  apply Ascii.eqb_eq in Q. subst c. destruct H as [H|H]; discriminate H.
Qed.

(** A document that [json.loads] accepts, followed by a plain character
    that cannot continue a number: the document is read again, and what
    follows it is extra data. *)
Lemma loads_extra (J t : string) (c : ascii) (v : json) :
  loads J = Return v -> plain c = true -> numchar c = false ->
  loads (J ++ String c t)
  = Raise (decode_error "Extra data" (J ++ String c t) (String c t)).
Proof.
  intros H P N. unfold loads in H.
  destruct (startswith bom J); [discriminate|].
  destruct (scan_once (fuel_for (String.length J)) (skip_ws J))
    as [v0 rest| | |] eqn:S; try discriminate.
  destruct (skip_ws rest) eqn:SR; [|discriminate]. clear H.
  destruct (decoder_local (fuel_for (String.length J))) as (L & _ & _).
  destruct (L _ _ _ S) as (a & Ea & E & C).
  destruct a as [|x a]; [now apply ends_nonempty in E|].
  cbn [append] in Ea.
  destruct (skip_ws_frame _ _ _ Ea) as (w & Ed & Bw & Wx & F).
  rewrite Ea in S. pose proof (scan_once_head _ _ _ _ _ S) as Px.
  assert (Doc : J ++ String c t = w ++ String x (a ++ rest ++ String c t)).
  { rewrite Ed. rewrite !append_assoc. cbn [append]. now rewrite append_assoc. }
  unfold loads.
  assert (B : startswith bom (J ++ String c t) = false).
  { rewrite Doc. destruct w as [|k w]; cbn [append].
    - apply no_bom. now right.
    - apply no_bom. left. cbn [blank] in Bw.
      now apply andb_true_iff in Bw as [Wk _]. }
  rewrite B. rewrite Doc at 2. rewrite F.
  change (String x (a ++ rest ++ String c t))
    with (String x a ++ (rest ++ String c t)).
  rewrite C.
  - rewrite (skip_ws_blank rest _ (skip_ws_none _ SR)). cbn [skip_ws].
    now rewrite (plain_not_ws _ P).
  - apply follow_frame; [now apply skip_ws_none|exact N].
  - unfold fuel_for. rewrite Doc, !length_append. cbn [String.length].
    rewrite !length_append. cbn [String.length]. lia.
Qed.

End ProseFacts.

(** X22.  Prose before the document defeats the parsing when there is no
    block: if the stripped answer holds no delimiter and starts with a
    visible character with which no JSON text starts (a letter of "Here is
    ...", say), the client raises a [JSONDecodeError] with the message
    "Expecting value: line 1 column 1 (char 0)", even if a complete
    document follows. *)
Theorem prose_before_the_document :
  forall (float_str str_repr : string -> string) topic E w text c rest,
    generate_content E (prompt float_str str_repr topic) = Return text ->
    Str.strip text = String c rest ->
    Str.contains "```" (Str.strip text) = false ->
    Lex.plain c = true -> Tag.opens c = false ->
    exists e,
      fst (analyze_topic_with_gemini Decoder.loads float_str str_repr topic E w)
      = Raise e
      /\ exn_cls e = JSONDecodeError
      /\ exn_str e = "Expecting value: line 1 column 1 (char 0)".
Proof.
  intros float_str str_repr topic E w text c rest G S N P O.
  rewrite RouteFacts.analyze_topic_with_gemini_run. cbv zeta.
  rewrite G, (BlockFacts.extract_json_bare _ N), S, (TagFacts.loads_foreign c rest P O).
  eexists. split; [reflexivity|]. split; [reflexivity|].
  cbn [exn_str Decoder.decode_error]. apply TagFacts.errmsg_start.
Qed.

Lemma prose_before_the_document_witness :
  exists e,
    fst (analyze_topic_with_gemini Decoder.loads Sample.float_str Sample.str_repr
           (JStr "tea") (Sample.answering ("Here it is: [1]" ++ nl)) Sample.fresh)
    = Raise e
    /\ exn_cls e = JSONDecodeError
    /\ exn_str e = "Expecting value: line 1 column 1 (char 0)".
Proof.
  apply (prose_before_the_document Sample.float_str Sample.str_repr (JStr "tea")
           (Sample.answering ("Here it is: [1]" ++ nl)) Sample.fresh
           ("Here it is: [1]" ++ nl) "H"%char "ere it is: [1]");
    reflexivity.
Defined.

(** X23.  So does prose after the document: if the stripped answer holds
    no delimiter and is a document that [json.loads] accepts followed by
    a visible character that cannot continue a number, the client raises
    the [JSONDecodeError] "Extra data", located where that character
    stands. *)
Theorem prose_after_the_document :
  forall (float_str str_repr : string -> string) topic E w text J c rest v,
    generate_content E (prompt float_str str_repr topic) = Return text ->
    Str.strip text = J ++ String c rest ->
    Str.contains "```" (Str.strip text) = false ->
    Decoder.loads J = Return v ->
    Lex.plain c = true -> Lex.numchar c = false ->
    fst (analyze_topic_with_gemini Decoder.loads float_str str_repr topic E w)
    = Raise (Decoder.decode_error "Extra data" (J ++ String c rest) (String c rest))
    /\ Str.startswith "Extra data: line "
         (exn_str (Decoder.decode_error "Extra data" (J ++ String c rest)
                     (String c rest))) = true.
Proof.
  intros float_str str_repr topic E w text J c rest v G S N L P Nc.
  split; [|reflexivity].
  rewrite RouteFacts.analyze_topic_with_gemini_run. cbv zeta.
  rewrite G, (BlockFacts.extract_json_bare _ N), S.
  now rewrite (ProseFacts.loads_extra J rest c v L P Nc).
Qed.

Lemma prose_after_the_document_witness :
  exists e,
    fst (analyze_topic_with_gemini Decoder.loads Sample.float_str Sample.str_repr
           (JStr "tea") (Sample.answering ("[1]" ++ nl ++ "Hope this helps!"))
           Sample.fresh)
    = Raise e
    /\ exn_str e = "Extra data: line 2 column 1 (char 4)".
Proof.
  eexists. split.
  - apply (proj1 (prose_after_the_document Sample.float_str Sample.str_repr
                    (JStr "tea")
                    (Sample.answering ("[1]" ++ nl ++ "Hope this helps!"))
                    Sample.fresh ("[1]" ++ nl ++ "Hope this helps!")
                    ("[1]" ++ nl) "H"%char "ope this helps!" (JArr [JInt 1])
                    eq_refl eq_refl eq_refl eq_refl eq_refl eq_refl)).
  - vm_compute. reflexivity.
Defined.

(** X24.  An answer with nothing to parse fails in the same way: when the
    text extracted is empty, as for an answer of whitespace only or for a
    block with nothing between its delimiters, the client raises the
    [JSONDecodeError] "Expecting value: line 1 column 1 (char 0)". *)
Theorem empty_answer_is_refused :
  forall (float_str str_repr : string -> string) topic E w text,
    generate_content E (prompt float_str str_repr topic) = Return text ->
    extract_json (Str.strip text) = Return "" ->
    exists e,
      fst (analyze_topic_with_gemini Decoder.loads float_str str_repr topic E w)
      = Raise e
      /\ exn_cls e = JSONDecodeError
      /\ exn_str e = "Expecting value: line 1 column 1 (char 0)".
Proof.
  intros float_str str_repr topic E w text G X.
  rewrite RouteFacts.analyze_topic_with_gemini_run. cbv zeta.
  rewrite G, X. eexists. split; [reflexivity|]. split; reflexivity.
Qed.

Lemma empty_answer_is_refused_witness :
  (exists e,
      fst (analyze_topic_with_gemini Decoder.loads Sample.float_str Sample.str_repr
             (JStr "tea") (Sample.answering ("```json" ++ nl ++ "```")) Sample.fresh)
      = Raise e
      /\ exn_cls e = JSONDecodeError
      /\ exn_str e = "Expecting value: line 1 column 1 (char 0)")
  /\ exists e,
       fst (analyze_topic_with_gemini Decoder.loads Sample.float_str Sample.str_repr
              (JStr "tea") (Sample.answering (" " ++ nl)) Sample.fresh)
       = Raise e
       /\ exn_cls e = JSONDecodeError
       /\ exn_str e = "Expecting value: line 1 column 1 (char 0)".
Proof.
  split.
  - apply (empty_answer_is_refused Sample.float_str Sample.str_repr (JStr "tea")
             (Sample.answering ("```json" ++ nl ++ "```")) Sample.fresh
             ("```json" ++ nl ++ "```")); reflexivity.
  - apply (empty_answer_is_refused Sample.float_str Sample.str_repr (JStr "tea")
             (Sample.answering (" " ++ nl)) Sample.fresh (" " ++ nl)); reflexivity.
Defined.

(* ================================================================== *)
(** * The client: where a tagged block ends *)

Module TaggedFacts.
Import Str StrFacts ExtractFacts OccurFacts.

Lemma last_split (a : string) (c : ascii) :
  Fence.last a = Some c -> exists x, a = x ++ String c "".
Proof.
  induction a as [|d a IH]; [discriminate|]. cbn [Fence.last].
  destruct a as [|d' a'].
  - intros H. injection H as ->. now exists "".
  - intros H. destruct (IH H) as [x Hx]. exists (String d x).
    cbn [append]. now rewrite <- Hx.
Qed.

(** Backquotes before a tagged delimiter, with no delimiter before them:
    the first delimiter starts among these backquotes. *)
Lemma fence_before_tag (a b : string) :
  Fence.last a = Some Fence.backquote ->
  Fence.up_to "```" (a ++ "```json" ++ b) <> a.
Proof.
  intros L. destruct (last_split _ _ L) as [x ->].
  rewrite append_assoc.
  change (String Fence.backquote "" ++ "```json" ++ b)
    with ("```" ++ ("`json" ++ b)).
  destruct (partition_finds "```" x ("`json" ++ b)) as (a' & b' & F & Len).
  unfold Fence.up_to. rewrite F. intros E.
  apply (f_equal String.length) in E. rewrite length_append in E.
  cbn [String.length] in E. lia.
Qed.

End TaggedFacts.

(** X25.  In the tagged branch the closing delimiter is looked for only
    before the next tagged delimiter.  For an answer that holds the tagged
    delimiter, with [rest] what follows its first occurrence, the text
    parsed is [rest] cut at the next tagged delimiter, then at the first
    delimiter, then stripped.  This is [rest] cut at its first delimiter
    in every case but one: when a second tagged delimiter follows, and the
    text before it holds no delimiter and ends in a backquote. *)
Theorem tagged_block_ends_at_the_next_tag :
  forall t rest,
    Fence.after "```json" t = Some rest ->
    extract_json t
    = Return (Str.strip (Fence.up_to "```" (Fence.up_to "```json" rest)))
    /\ (Fence.up_to "```" (Fence.up_to "```json" rest) = Fence.up_to "```" rest
        <-> ~ exists a b,
                Str.partition "```json" rest = Some (a, b)
                /\ Str.contains "```" a = false
                /\ Fence.last a = Some Fence.backquote).
Proof.
  intros t rest A. split.
  - rewrite ExtractFacts.extract_json_cut.
    unfold Fence.candidate_cut, Str.contains, Fence.after in *.
    destruct (Str.partition "```json" t) as [[x y]|]; [|discriminate].
    injection A as ->. reflexivity.
  - unfold Fence.up_to at 2.
    destruct (Str.partition "```json" rest) as [[a b]|] eqn:P.
    2:{ split; [|reflexivity]. intros _ (a & b & Q & _). discriminate Q. }
    pose proof (StrFacts.partition_split P) as E.
    destruct (Str.contains "```" a) eqn:C.
    { split.
      - intros _ (a0 & b0 & Q & N & _). injection Q as <- <-. congruence.
      - intros _. unfold Str.contains in C.
        destruct (Str.partition "```" a) as [[x y]|] eqn:F; [|discriminate].
        unfold Fence.up_to. rewrite F, E.
        now rewrite (ExtractFacts.partition_extend _ _ ("```json" ++ b) _ _ F). }
    rewrite (BlockFacts.up_to_none "```" a C).
    destruct (Fence.last a) as [c|] eqn:L.
    + destruct (Ascii.eqb c Fence.backquote) eqn:Q.
      * apply Ascii.eqb_eq in Q. subst c. split.
        -- intros H. exfalso. rewrite E in H.
           now apply (TaggedFacts.fence_before_tag a b L).
        -- intros H. exfalso. apply H. now exists a, b.
      * apply Ascii.eqb_neq in Q. split.
        -- intros _ (a0 & b0 & Q0 & _ & L0). injection Q0 as <- <-.
           rewrite L in L0. injection L0 as ->. now apply Q.
        -- intros _. rewrite E.
           assert (No : Fence.last a <> Some Fence.backquote)
             by (rewrite L; intros H; injection H as ->; now apply Q).
           change (a ++ "```json" ++ b) with (a ++ "```" ++ ("json" ++ b)).
           unfold Fence.up_to.
           now rewrite (OccurFacts.fence_after_prose a ("json" ++ b) C No).
    + split.
      * intros _ (a0 & b0 & Q0 & _ & L0). injection Q0 as <- <-. congruence.
      * intros _. rewrite E.
        assert (No : Fence.last a <> Some Fence.backquote) by (rewrite L; discriminate).
        change (a ++ "```json" ++ b) with (a ++ "```" ++ ("json" ++ b)).
        unfold Fence.up_to.
        now rewrite (OccurFacts.fence_after_prose a ("json" ++ b) C No).
Qed.

Lemma tagged_block_ends_at_the_next_tag_witness :
  extract_json "```json[1]```" = Return "[1]"
  /\ extract_json Sample.overlapping = Return "1``"
  /\ Fence.up_to "```" (Fence.up_to "```json" "1`````json") <> Fence.up_to "```" "1`````json".
Proof.
  split; [|split].
  - rewrite (proj1 (tagged_block_ends_at_the_next_tag "```json[1]```" "[1]```"
                      eq_refl)).
    reflexivity.
  - rewrite (proj1 (tagged_block_ends_at_the_next_tag Sample.overlapping
                      "1`````json" eq_refl)).
    reflexivity.
  - intros H.
    apply (proj1 (proj2 (tagged_block_ends_at_the_next_tag Sample.overlapping
                           "1`````json" eq_refl))) in H.
    apply H. exists "1``", "". repeat split.
Defined.
